(** * NFT minting core of the mini-app template: a shallow embedding

  The development follows the TypeScript sources of the minting flow:

  - [Types]            lib/types.ts
  - [NftStandards]     lib/nft-standards.ts       (ABIs, known addresses)
  - [MintReducer]      lib/mint-reducer.ts        (mintReducer)
  - [ProviderConfigs]  lib/provider-configs.ts    (getManifoldABI, getProviderConfig)
  - [ProviderDetector] lib/provider-detector.ts   (detectNFTProvider)
  - [PriceOptimizer]   lib/price-optimizer.ts     (fetchPriceData, Manifold branch)
  - [PriceArms]        lib/price-optimizer.ts     (the other branches, the dispatch)
  - [Validation]       lib/provider-detector.ts   (validateParameters)
  - [Chains]           lib/chains.ts
  - [NftMetadata]      lib/nft-metadata-utils.ts  (getTokenMetadataURL)
  - [ErrorParser]      lib/error-parser.ts        (parseError)

  bigint values are [Z]; numbers are IEEE 754 doubles ([spec_float]);
  strings are [string] (the UTF-8 bytes of the text); an optional or
  possibly [undefined] member is an [option]; a promise that may reject, or
  a call that may throw, is a [Result]. *)

From Stdlib Require Import ZArith String Ascii List Bool Lia DecimalString.
From Stdlib Require Import SpecFloat.
Import ListNotations.
Set Warnings "-register-all".
Local Open Scope string_scope.
Local Open Scope Z_scope.

(** ** JavaScript basics shared by all modules *)

Module JS.

(** A call that may throw (or a promise that may reject). The payload of
    [Throw] is the error text; no handler in the modelled code inspects it
    (they only log it). *)
Inductive Result (A : Type) : Type :=
| Ok (a : A)
| Throw (e : string).
Arguments Ok {A} a.
Arguments Throw {A} e.

Definition bind {A B} (r : Result A) (k : A -> Result B) : Result B :=
  match r with
  | Ok a => k a
  | Throw e => Throw e
  end.

(** [try { c } catch (e) { h e }] *)
Definition try_catch {A} (c : Result A) (h : string -> Result A) : Result A :=
  match c with
  | Ok a => Ok a
  | Throw e => h e
  end.

(** [promise.catch(() => d)] *)
Definition catch_default {A} (c : Result A) (d : A) : A :=
  match c with
  | Ok a => a
  | Throw _ => d
  end.

(** [promise.catch(() => null)], with [null] as [None]. *)
Definition catch_null {A} (c : Result A) : option A :=
  match c with
  | Ok a => Some a
  | Throw _ => None
  end.

Definition is_ok {A} (r : Result A) : bool :=
  match r with Ok _ => true | Throw _ => false end.

(** Values whose run-time shape the code inspects ([typeof],
    [Array.isArray], property access). Numbers are restricted to the
    integral ones, which is all an ABI decoder produces. *)
Inductive value : Type :=
| VUndefined
| VNull
| VBool (b : bool)
| VBigInt (z : Z)
| VNumber (z : Z)
| VString (s : string)
| VArray (items : list value)
| VObject (fields : list (string * value)).

(** ToBoolean *)
Definition truthy (v : value) : bool :=
  match v with
  | VUndefined | VNull => false
  | VBool b => b
  | VBigInt z | VNumber z => negb (z =? 0)
  | VString s => negb (s =? "")%string
  | VArray _ | VObject _ => true
  end.

Definition truthy_string (s : string) : bool := negb (s =? "")%string.

(** [typeof v === "object"] (true for [null] and for arrays as well). *)
Definition typeof_object (v : value) : bool :=
  match v with
  | VNull | VArray _ | VObject _ => true
  | _ => false
  end.

Definition is_undefined (v : value) : bool :=
  match v with VUndefined => true | _ => false end.

Fixpoint assoc (k : string) (fs : list (string * value)) : value :=
  match fs with
  | [] => VUndefined
  | (k', v) :: rest => if (k =? k')%string then v else assoc k rest
  end.

(** [v[k]] for a named (non-index, non-builtin) key [k] on a value that is
    neither [null] nor [undefined]: own fields of an object, [undefined]
    on arrays and primitives. *)
Definition get (v : value) (k : string) : value :=
  match v with
  | VObject fs => assoc k fs
  | _ => VUndefined
  end.

(** [s.includes(pat)] *)
Fixpoint includes (s pat : string) : bool :=
  if prefix pat s then true
  else match s with
       | EmptyString => false
       | String _ rest => includes rest pat
       end.

(** [s.toLowerCase()] on the ASCII letters; bytes outside [A-Z] are kept. *)
Definition lower_ascii (c : ascii) : ascii :=
  let n := nat_of_ascii c in
  if (andb (Nat.leb 65 n) (Nat.leb n 90)) then ascii_of_nat (n + 32) else c.

Fixpoint toLowerCase (s : string) : string :=
  match s with
  | EmptyString => EmptyString
  | String c rest => String (lower_ascii c) (toLowerCase rest)
  end.

(** *** [BigInt(string)]: StringToBigInt

    Surrounding white space is dropped; the empty text is [0n]; otherwise the
    text is a decimal literal with an optional sign, or an unsigned [0x],
    [0o] or [0b] literal; anything else is a SyntaxError. *)

Definition bytes (codes : list Z) : string :=
  string_of_list_ascii (map (fun c => ascii_of_N (Z.to_N c)) codes).

(** The white space and line terminators of ECMAScript, which [trim],
    [parseInt] and [BigInt] skip, each in UTF-8: U+0009 to U+000D, U+0020,
    U+00A0, U+1680, U+2000 to U+200A, U+2028, U+2029, U+202F, U+205F,
    U+3000 and U+FEFF. *)
Definition white_space : list string :=
  map bytes
    [ [9]; [10]; [11]; [12]; [13]; [32]; [194; 160]; [225; 154; 128];
      [226; 128; 128]; [226; 128; 129]; [226; 128; 130]; [226; 128; 131];
      [226; 128; 132]; [226; 128; 133]; [226; 128; 134]; [226; 128; 135];
      [226; 128; 136]; [226; 128; 137]; [226; 128; 138]; [226; 128; 168];
      [226; 128; 169]; [226; 128; 175]; [226; 129; 159]; [227; 128; 128];
      [239; 187; 191] ].

(** The text after the first of [spaces] that [s] starts with. *)
Fixpoint skip_one (spaces : list string) (s : string) : option string :=
  match spaces with
  | [] => None
  | sp :: more =>
    if prefix sp s
    then Some (substring (String.length sp) (String.length s - String.length sp) s)
    else skip_one more s
  end.

(** [fuel] bounds the number of characters skipped; the length of the text
    is enough. *)
Fixpoint skip_all (spaces : list string) (fuel : nat) (s : string) : string :=
  match fuel with
  | O => s
  | S fuel' =>
    match skip_one spaces s with
    | Some rest => skip_all spaces fuel' rest
    | None => s
    end
  end.

Fixpoint reverse (s : string) : string :=
  match s with
  | EmptyString => EmptyString
  | String c rest => append (reverse rest) (String c EmptyString)
  end.

Definition trimStart (s : string) : string :=
  skip_all white_space (String.length s) s.

(** Drops trailing white space: leading white space of the reversed text. *)
Definition trimEnd (s : string) : string :=
  reverse (skip_all (map reverse white_space) (String.length s) (reverse s)).

Definition trim (s : string) : string := trimEnd (trimStart s).

(** The value of a digit in the given radix, if it is one. *)
Definition digit_value (radix : Z) (c : ascii) : option Z :=
  let n := Z.of_nat (nat_of_ascii c) in
  let v :=
    if andb (48 <=? n) (n <=? 57) then Some (n - 48)
    else if andb (97 <=? n) (n <=? 102) then Some (n - 87)
    else if andb (65 <=? n) (n <=? 70) then Some (n - 55)
    else None in
  match v with
  | Some d => if d <? radix then Some d else None
  | None => None
  end.

Fixpoint digits_value (radix acc : Z) (s : string) : option Z :=
  match s with
  | EmptyString => Some acc
  | String c rest =>
    match digit_value radix c with
    | Some d => digits_value radix (acc * radix + d) rest
    | None => None
    end
  end.

(** At least one digit is required. *)
Definition literal_value (radix : Z) (s : string) : option Z :=
  match s with
  | EmptyString => None
  | _ => digits_value radix 0 s
  end.

Definition syntax_error {A} : Result A :=
  Throw "SyntaxError: Cannot convert to a BigInt".

Definition of_literal (v : option Z) : Result Z :=
  match v with Some z => Ok z | None => syntax_error end.

Definition BigInt (text : string) : Result Z :=
  match trim text with
  | EmptyString => Ok 0
  | String "0" (String "x" ds) | String "0" (String "X" ds) =>
    of_literal (literal_value 16 ds)
  | String "0" (String "o" ds) | String "0" (String "O" ds) =>
    of_literal (literal_value 8 ds)
  | String "0" (String "b" ds) | String "0" (String "B" ds) =>
    of_literal (literal_value 2 ds)
  | String "-" ds => of_literal (option_map Z.opp (literal_value 10 ds))
  | String "+" ds => of_literal (literal_value 10 ds)
  | ds => of_literal (literal_value 10 ds)
  end.

(** Decimal text of a bigint, as [bigint.toString()] gives it. *)
Definition Z_toString (z : Z) : string :=
  DecimalString.NilZero.string_of_int (Z.to_int z).

(** [v.toString()]: a TypeError on [null] and [undefined]. *)
Fixpoint toString (v : value) : Result string :=
  match v with
  | VUndefined | VNull =>
    Throw "TypeError: Cannot read properties of undefined (reading 'toString')"
  | VBool b => Ok (if b then "true" else "false")
  | VBigInt z | VNumber z => Ok (Z_toString z)
  | VString s => Ok s
  | VArray items =>
    Ok (String.concat ","
          (map (fun i => catch_default (toString i) "") items))
  | VObject _ => Ok "[object Object]"
  end.

(** [s.padStart(n, "0")] *)
Definition padStart0 (n : nat) (s : string) : string :=
  append (string_of_list_ascii (repeat "0"%char (n - String.length s))) s.

(** [s.replace(pat, rep)] for a string pattern and a replacement without
    [$] patterns: the first occurrence only. *)
Fixpoint replace_first (pat rep s : string) : string :=
  if prefix pat s
  then append rep (substring (String.length pat) (String.length s - String.length pat) s)
  else match s with
       | EmptyString => EmptyString
       | String c rest => String c (replace_first pat rep rest)
       end.

(** [s.endsWith("/")] *)
Fixpoint endsWith_slash (s : string) : bool :=
  match s with
  | EmptyString => false
  | String c EmptyString => Ascii.eqb c "/"
  | String _ rest => endsWith_slash rest
  end.

(** [Array.isArray(v) && v.length === 2], with the two items. *)
Definition as_pair (v : value) : option (value * value) :=
  match v with
  | VArray [a; b] => Some (a, b)
  | _ => None
  end.

(** [typeof v === "bigint" || typeof v === "number"] *)
Definition is_bigint_or_number (v : value) : bool :=
  match v with
  | VBigInt _ | VNumber _ => true
  | _ => false
  end.

(** [v !== s] for a string literal [s]. *)
Definition differs_from_string (v : value) (s : string) : bool :=
  match v with
  | VString t => negb (t =? s)%string
  | _ => true
  end.

(** *** Numbers

    A number is an IEEE 754 binary64 value: the standard library's
    [spec_float], read at precision 53 and maximal exponent 1024. *)
Definition number := spec_float.

(** [Number(z)] for a bigint [z], and the value of the integer literal [z]:
    the nearest double, ties to even; an infinity beyond the range. *)
Definition Number (z : Z) : number := binary_normalize 53 1024 z 0 false.

(** ToBoolean on a number: false for [0], [-0] and [NaN]. *)
Definition truthy_number (x : number) : bool :=
  match x with
  | S754_zero _ | S754_nan => false
  | S754_infinity _ | S754_finite _ _ _ => true
  end.

Definition range_error {A} : Result A :=
  Throw "RangeError: The number cannot be converted to a BigInt because it is not an integer".

(** [BigInt(x)] for a number [x]: the value of [x] when it is an integer, a
    RangeError when it has a fractional part, is infinite or is [NaN]. *)
Definition BigInt_of_number (x : number) : Result Z :=
  match x with
  | S754_zero _ => Ok 0
  | S754_finite s m e =>
    if 0 <=? e then Ok (cond_Zopp s (Z.pos m * 2 ^ e))
    else if Z.pos m mod 2 ^ (- e) =? 0
         then Ok (cond_Zopp s (Z.pos m / 2 ^ (- e)))
         else range_error
  | S754_infinity _ | S754_nan => range_error
  end.

(** [a < b] on numbers (false when one is [NaN]). *)
Definition number_ltb (a b : number) : bool := SFltb a b.

End JS.
Export JS.

Notation "x <- c ;; k" := (JS.bind c (fun x => k))
(at level 61, c at next level, right associativity).

(** ** lib/types.ts *)

Module Types.

Definition Address := string.

Inductive NFTProvider :=
| manifold | opensea | zora | generic | nfts2me | thirdweb.

Definition NFTProvider_eqb (a b : NFTProvider) : bool :=
  match a, b with
  | manifold, manifold | opensea, opensea | zora, zora
  | generic, generic | nfts2me, nfts2me | thirdweb, thirdweb => true
  | _, _ => false
  end.

(** [NFTContractInfo["claim"]], with the type of [cost] left open: the
    reducer reads it at its declared type (bigint), the price engine
    stores whatever the decoded tuple holds. *)
Record Claim (C : Type) := mkClaim {
  cost : C;
  merkleRoot : JS.value;
  erc20 : JS.value;
  startDate : JS.value;
  endDate : JS.value;
  walletMax : JS.value
}.
Arguments mkClaim {C}.
Arguments cost {C}.
Arguments merkleRoot {C}.
Arguments erc20 {C}.
Arguments startDate {C}.
Arguments endDate {C}.
Arguments walletMax {C}.

Record ClaimCondition := mkClaimCondition {
  cc_id : number;
  cc_pricePerToken : Z;
  cc_currency : Address;
  cc_maxClaimableSupply : Z;
  cc_merkleRoot : string;
  cc_startTimestamp : number;
  cc_quantityLimitPerWallet : Z
}.

Record NFTContractInfo (C : Type) := mkInfo {
  provider : NFTProvider;
  isERC1155 : bool;
  isERC721 : bool;
  extensionAddress : option Address;
  hasManifoldExtension : option bool;
  claim : option (Claim C);
  claimCondition : option ClaimCondition
}.
Arguments mkInfo {C}.
Arguments provider {C}.
Arguments isERC1155 {C}.
Arguments isERC721 {C}.
Arguments extensionAddress {C}.
Arguments hasManifoldExtension {C}.
Arguments claim {C}.
Arguments claimCondition {C}.

(** [mp_provider] is the member [provider] of the request (the name is taken
    by the contract info). *)
Record MintParams := mkParams {
  contractAddress : Address;
  chainId : Z;
  mp_provider : option NFTProvider;
  amount : option number;
  instanceId : option string;
  tokenId : option string;
  recipient : option Address;
  merkleProof : option (list string)
}.

End Types.
Export Types.

(** ** lib/mint-reducer.ts *)

Module MintReducer.

Inductive MintStep :=
| StepInitial | StepDetecting | StepSheet | StepConnecting | StepApprove
| StepApproving | StepMinting | StepWaiting | StepSuccess | StepError
| StepValidationError.

(** [TransactionType = "approval" | "mint" | null] *)
Inductive TransactionType := TxApproval | TxMint | TxNull.

(** The reducer reads [claim.cost] at its declared type, bigint. *)
Definition ContractInfo := NFTContractInfo Z.

Record Erc20Details := mkErc20 {
  address : string;
  symbol : string;
  decimals : Z;
  allowance : option Z;
  needsApproval : option bool
}.

Record PriceData := mkPrice {
  mintPrice : option Z;
  totalCost : Z;
  erc20Details : option Erc20Details
}.

Record MintState := mkState {
  step : MintStep;
  contractInfo : option ContractInfo;
  priceData : PriceData;
  error : option string;
  txHash : option string;
  txType : TransactionType;
  isLoading : bool;
  validationErrors : list string
}.

Definition initialState : MintState :=
  {| step := StepInitial;
     contractInfo := None;
     priceData := {| mintPrice := None; totalCost := 0; erc20Details := None |};
     error := None;
     txHash := None;
     txType := TxNull;
     isLoading := false;
     validationErrors := [] |}.

Inductive MintAction :=
| DETECT_START
| DETECT_SUCCESS (p_contractInfo : ContractInfo) (p_priceData : PriceData)
| DETECT_ERROR (payload : string)
| VALIDATION_ERROR (payload : list string)
| APPROVE_REQUIRED
| APPROVE_START
| APPROVE_TX_SUBMITTED (payload : string)
| APPROVE_SUCCESS
| CONNECT_START
| CONNECT_SUCCESS
| MINT_START
| MINT_TX_SUBMITTED (payload : string)
| TX_SUCCESS (payload : string)
| TX_ERROR (payload : string)
| RESET
| UPDATE_ALLOWANCE (payload : Z).

(** The value of the [&&] chain computed on DETECT_SUCCESS:
    [erc20Details && claim && (allowance !== undefined) && (allowance < cost)].
    It is [undefined] when a leading operand is, [false] when the allowance
    is unknown, and the comparison otherwise. *)
Definition detect_needsApproval (ci : ContractInfo) (pd : PriceData) : option bool :=
  match erc20Details pd with
  | None => None
  | Some d =>
    match claim ci with
    | None => None
    | Some c =>
      match allowance d with
      | None => Some false
      | Some a => Some (a <? cost c)
      end
    end
  end.

(** ToBoolean of such a value, as used by [needsApproval ? "approve" : "sheet"]. *)
Definition flag_truthy (f : option bool) : bool :=
  match f with Some true => true | _ => false end.

(** [state.contractInfo?.claim?.cost || BigInt(0)] *)
Definition known_cost_or_zero (ci : option ContractInfo) : Z :=
  match ci with
  | Some i => match claim i with
              | Some c => if cost c =? 0 then 0 else cost c
              | None => 0
              end
  | None => 0
  end.

Definition mintReducer (state : MintState) (action : MintAction) : MintState :=
  match action with
  | DETECT_START =>
    {| step := StepDetecting; contractInfo := contractInfo state;
       priceData := priceData state; error := None; txHash := txHash state;
       txType := txType state; isLoading := true;
       validationErrors := validationErrors state |}
  | DETECT_SUCCESS ci pd =>
    let needs := detect_needsApproval ci pd in
    {| step := if flag_truthy needs then StepApprove else StepSheet;
       contractInfo := Some ci;
       priceData :=
         {| mintPrice := mintPrice pd;
            totalCost := totalCost pd;
            erc20Details :=
              match erc20Details pd with
              | Some d =>
                Some {| address := address d; symbol := symbol d;
                        decimals := decimals d; allowance := allowance d;
                        needsApproval := needs |}
              | None => None
              end |};
       error := error state; txHash := txHash state; txType := txType state;
       isLoading := false; validationErrors := validationErrors state |}
  | DETECT_ERROR msg =>
    {| step := StepError; contractInfo := contractInfo state;
       priceData := priceData state; error := Some msg; txHash := txHash state;
       txType := txType state; isLoading := false;
       validationErrors := validationErrors state |}
  | VALIDATION_ERROR errs =>
    {| step := StepValidationError; contractInfo := contractInfo state;
       priceData := priceData state; error := error state;
       txHash := txHash state; txType := txType state; isLoading := false;
       validationErrors := errs |}
  | APPROVE_REQUIRED =>
    {| step := StepApprove; contractInfo := contractInfo state;
       priceData := priceData state; error := error state;
       txHash := txHash state; txType := txType state;
       isLoading := isLoading state;
       validationErrors := validationErrors state |}
  | APPROVE_START =>
    {| step := StepApproving; contractInfo := contractInfo state;
       priceData := priceData state; error := error state;
       txHash := txHash state; txType := TxApproval; isLoading := true;
       validationErrors := validationErrors state |}
  | APPROVE_TX_SUBMITTED h =>
    {| step := StepWaiting; contractInfo := contractInfo state;
       priceData := priceData state; error := error state;
       txHash := Some h; txType := TxApproval;
       isLoading := isLoading state;
       validationErrors := validationErrors state |}
  | APPROVE_SUCCESS =>
    {| step := StepSheet; contractInfo := contractInfo state;
       priceData :=
         {| mintPrice := mintPrice (priceData state);
            totalCost := totalCost (priceData state);
            erc20Details :=
              match erc20Details (priceData state) with
              | Some d =>
                Some {| address := address d; symbol := symbol d;
                        decimals := decimals d;
                        allowance := Some (known_cost_or_zero (contractInfo state));
                        needsApproval := Some false |}
              | None => None
              end |};
       error := error state; txHash := None; txType := TxNull;
       isLoading := false; validationErrors := validationErrors state |}
  | CONNECT_START =>
    {| step := StepConnecting; contractInfo := contractInfo state;
       priceData := priceData state; error := error state;
       txHash := txHash state; txType := txType state;
       isLoading := isLoading state;
       validationErrors := validationErrors state |}
  | CONNECT_SUCCESS =>
    {| step := StepSheet; contractInfo := contractInfo state;
       priceData := priceData state; error := error state;
       txHash := txHash state; txType := txType state;
       isLoading := isLoading state;
       validationErrors := validationErrors state |}
  | MINT_START =>
    {| step := StepMinting; contractInfo := contractInfo state;
       priceData := priceData state; error := error state;
       txHash := txHash state; txType := TxMint; isLoading := true;
       validationErrors := validationErrors state |}
  | MINT_TX_SUBMITTED h =>
    {| step := StepWaiting; contractInfo := contractInfo state;
       priceData := priceData state; error := error state;
       txHash := Some h; txType := TxMint;
       isLoading := isLoading state;
       validationErrors := validationErrors state |}
  | TX_SUCCESS h =>
    match txType state with
    | TxMint =>
      {| step := StepSuccess; contractInfo := contractInfo state;
         priceData := priceData state; error := error state;
         txHash := Some h; txType := TxNull; isLoading := false;
         validationErrors := validationErrors state |}
    | _ => state
    end
  | TX_ERROR msg =>
    {| step := StepError; contractInfo := contractInfo state;
       priceData := priceData state; error := Some msg;
       txHash := txHash state; txType := TxNull; isLoading := false;
       validationErrors := validationErrors state |}
  | UPDATE_ALLOWANCE a =>
    match erc20Details (priceData state) with
    | None => state
    | Some d =>
      let updatedNeedsApproval :=
        match contractInfo state with
        | Some i => match claim i with
                    | Some c => a <? cost c
                    | None => false
                    end
        | None => false
        end in
      {| step := step state; contractInfo := contractInfo state;
         priceData :=
           {| mintPrice := mintPrice (priceData state);
              totalCost := totalCost (priceData state);
              erc20Details :=
                Some {| address := address d; symbol := symbol d;
                        decimals := decimals d; allowance := Some a;
                        needsApproval := Some updatedNeedsApproval |} |};
         error := error state; txHash := txHash state;
         txType := txType state; isLoading := isLoading state;
         validationErrors := validationErrors state |}
    end
  | RESET => initialState
  end.

(** *** The reading of the transition table used by the single-flight claim *)

Definition is_start (a : MintAction) : bool :=
  match a with
  | DETECT_START | APPROVE_START | MINT_START => true
  | _ => false
  end.

(** The state that precedes each start action in the transition table:
    [initial --DETECT_START-->], [approve --APPROVE_START-->],
    [sheet --MINT_START-->]. *)
Definition precedes (s : MintStep) (a : MintAction) : bool :=
  match a, s with
  | DETECT_START, StepInitial => true
  | APPROVE_START, StepApprove => true
  | MINT_START, StepSheet => true
  | _, _ => false
  end.

(** What the claim asks of a start action outside its preceding state. *)
Definition refused (s : MintState) (a : MintAction) : Prop :=
  mintReducer s a = s \/ step (mintReducer s a) = StepError.

(** The step a start action leads to. *)
Definition start_target (a : MintAction) : MintStep :=
  match a with
  | DETECT_START => StepDetecting
  | APPROVE_START => StepApproving
  | _ => StepMinting
  end.

(** [d] with its approval flag replaced. *)
Definition with_needsApproval (f : option bool) (d : Erc20Details) : Erc20Details :=
  {| address := address d; symbol := symbol d; decimals := decimals d;
     allowance := allowance d; needsApproval := f |}.

End MintReducer.

(** ** lib/nft-standards.ts: the ABI catalog and the known addresses *)

Module NftStandards.

(** The ABI constants the configurations refer to. The two inline ABIs of
    the nfts2me entry are named here after the function they declare. *)
Inductive Abi :=
| MANIFOLD_ERC721_EXTENSION_ABI
| MANIFOLD_ERC1155_EXTENSION_ABI
| PRICE_DISCOVERY_ABI
| MINT_ABI
| THIRDWEB_OPENEDITONERC721_ABI
| NFTS2ME_MINTFEE_ABI
| NFTS2ME_MINT_ABI.

(** Backward compatibility - defaults to ERC721 version *)
Definition MANIFOLD_EXTENSION_ABI : Abi := MANIFOLD_ERC721_EXTENSION_ABI.

(** The components of the [getClaim] tuple, which is where the two Manifold
    extension ABIs differ. *)
Definition getClaim_components (a : Abi) : list string :=
  match a with
  | MANIFOLD_ERC721_EXTENSION_ABI =>
    ["total"; "totalMax"; "walletMax"; "startDate"; "endDate";
     "storageProtocol"; "identical"; "merkleRootEmpty"; "merkleRoot";
     "location"; "cost"; "paymentReceiver"; "erc20"; "signingAddress"]
  | MANIFOLD_ERC1155_EXTENSION_ABI =>
    ["total"; "totalMax"; "walletMax"; "startDate"; "endDate";
     "storageProtocol"; "merkleRoot"; "location"; "tokenId"; "cost";
     "paymentReceiver"; "erc20"; "signingAddress"]
  | _ => []
  end.

Definition KNOWN_manifoldExtension : Address :=
  "0x26BBEA7803DcAc346D5F5f135b57Cf2c752A02bE".

Definition THIRDWEB_NATIVE_TOKEN : Address :=
  "0xEeeeeEeeeEeEeeEeEeEeeEEEeeeeEeeeeeeeEEeE".

Definition ZERO_ADDRESS : Address :=
  "0x0000000000000000000000000000000000000000".

Definition INTERFACE_ID_ERC721 : string := "0x80ac58cd".
Definition INTERFACE_ID_ERC1155 : string := "0xd9b67a26".

End NftStandards.
Export NftStandards.

(** ** lib/provider-configs.ts *)

Module ProviderConfigs.

(** The [buildArgs] closures, by name; the claims never run them. *)
Inductive ArgsBuilder :=
| ManifoldArgs
| AmountArgs
| RecipientAmountArgs
| ThirdwebDefaultArgs
| ThirdwebClaimArgs (cc : ClaimCondition).

Record PriceDiscoveryConfig := mkDiscovery {
  abis : list Abi;
  functionNames : list string;
  requiresInstanceId : option bool;
  requiresAmountParam : option bool
}.

Record MintConfig := mkMintConfig {
  abi : Abi;
  functionName : string;
  buildArgs : ArgsBuilder;
  calculateValue : Z -> MintParams -> Result Z
}.

Record ProviderConfig := mkConfig {
  name : NFTProvider;
  extensionAddresses : option (list Address);
  priceDiscovery : PriceDiscoveryConfig;
  mintConfig : MintConfig;
  requiredParams : list string;
  supportsERC20 : bool
}.

(** [BigInt(params.amount || 1)]: a RangeError when the amount is a number
    that is not an integer. *)
Definition amount_or_one (params : MintParams) : Result Z :=
  match amount params with
  | Some a => if truthy_number a then BigInt_of_number a else Ok 1
  | None => Ok 1
  end.

(** [price * BigInt(params.amount || 1)] *)
Definition per_unit (price : Z) (params : MintParams) : Result Z :=
  n <- amount_or_one params ;;
  Ok (price * n).

Definition PROVIDER_CONFIGS (p : NFTProvider) : ProviderConfig :=
  match p with
  | manifold =>
    {| name := manifold;
       extensionAddresses := Some [KNOWN_manifoldExtension];
       priceDiscovery :=
         {| abis := [MANIFOLD_EXTENSION_ABI]; functionNames := ["MINT_FEE"];
            requiresInstanceId := Some true; requiresAmountParam := None |};
       mintConfig :=
         {| abi := MANIFOLD_EXTENSION_ABI; functionName := "mint";
            buildArgs := ManifoldArgs;
            calculateValue := fun mintFee _ => Ok mintFee |};
       requiredParams := ["contractAddress"; "chainId"];
       supportsERC20 := true |}
  | opensea =>
    {| name := opensea;
       extensionAddresses := None;
       priceDiscovery :=
         {| abis := [PRICE_DISCOVERY_ABI];
            functionNames := ["mintPrice"; "price"; "publicMintPrice"];
            requiresInstanceId := None; requiresAmountParam := None |};
       mintConfig :=
         {| abi := MINT_ABI; functionName := "mint";
            buildArgs := AmountArgs; calculateValue := per_unit |};
       requiredParams := ["contractAddress"; "chainId"];
       supportsERC20 := false |}
  | zora =>
    {| name := zora;
       extensionAddresses := None;
       priceDiscovery :=
         {| abis := [PRICE_DISCOVERY_ABI];
            functionNames := ["mintPrice"; "price"];
            requiresInstanceId := None; requiresAmountParam := None |};
       mintConfig :=
         {| abi := MINT_ABI; functionName := "mint";
            buildArgs := RecipientAmountArgs; calculateValue := per_unit |};
       requiredParams := ["contractAddress"; "chainId"];
       supportsERC20 := false |}
  | generic =>
    {| name := generic;
       extensionAddresses := None;
       priceDiscovery :=
         {| abis := [PRICE_DISCOVERY_ABI];
            functionNames := ["mintPrice"; "price"; "MINT_PRICE"; "getMintPrice"];
            requiresInstanceId := None; requiresAmountParam := None |};
       mintConfig :=
         {| abi := MINT_ABI; functionName := "mint";
            buildArgs := AmountArgs; calculateValue := per_unit |};
       requiredParams := ["contractAddress"; "chainId"];
       supportsERC20 := false |}
  | nfts2me =>
    {| name := nfts2me;
       extensionAddresses := None;
       priceDiscovery :=
         {| abis := [NFTS2ME_MINTFEE_ABI]; functionNames := ["mintFee"];
            requiresInstanceId := None; requiresAmountParam := Some true |};
       mintConfig :=
         {| abi := NFTS2ME_MINT_ABI; functionName := "mint";
            buildArgs := AmountArgs; calculateValue := per_unit |};
       requiredParams := ["contractAddress"; "chainId"];
       supportsERC20 := false |}
  | thirdweb =>
    {| name := thirdweb;
       extensionAddresses := None;
       priceDiscovery :=
         {| abis := [THIRDWEB_OPENEDITONERC721_ABI];
            functionNames := ["claimCondition"; "getClaimConditionById"];
            requiresInstanceId := Some false; requiresAmountParam := None |};
       mintConfig :=
         {| abi := THIRDWEB_OPENEDITONERC721_ABI; functionName := "claim";
            buildArgs := ThirdwebDefaultArgs; calculateValue := per_unit |};
       requiredParams := ["contractAddress"; "chainId"];
       supportsERC20 := true |}
  end.

(** Get the correct Manifold ABI based on contract type. The argument is the
    optional [contractInfo]; only its two flags are read. *)
Definition getManifoldABI {C} (contractInfo : option (NFTContractInfo C)) : Abi :=
  match contractInfo with
  | None => MANIFOLD_ERC721_EXTENSION_ABI
  | Some ci =>
    if isERC721 ci then MANIFOLD_ERC721_EXTENSION_ABI
    else if isERC1155 ci then MANIFOLD_ERC1155_EXTENSION_ABI
    else MANIFOLD_ERC721_EXTENSION_ABI
  end.

(** The value computation injected for thirdweb when a claim condition is
    known: the price per unit for the native token, zero for ERC-20. *)
Definition thirdweb_value (cc : ClaimCondition) (price : Z) (params : MintParams)
    : Result Z :=
  if orb (negb (truthy_string (cc_currency cc)))
         (toLowerCase (cc_currency cc) =? toLowerCase THIRDWEB_NATIVE_TOKEN)%string
  then per_unit price params
  else Ok 0.

(** [getProviderConfig(provider, contractInfo?)], called with a provider of
    type [NFTProvider] (every key of [PROVIDER_CONFIGS]). *)
Definition getProviderConfig {C} (provider : NFTProvider)
    (contractInfo : option (NFTContractInfo C)) : ProviderConfig :=
  let baseConfig := PROVIDER_CONFIGS provider in
  match provider with
  | manifold =>
    let manifoldABI := getManifoldABI contractInfo in
    {| name := name baseConfig;
       extensionAddresses := extensionAddresses baseConfig;
       priceDiscovery :=
         {| abis := [manifoldABI];
            functionNames := functionNames (priceDiscovery baseConfig);
            requiresInstanceId := requiresInstanceId (priceDiscovery baseConfig);
            requiresAmountParam := requiresAmountParam (priceDiscovery baseConfig) |};
       mintConfig :=
         {| abi := manifoldABI;
            functionName := functionName (mintConfig baseConfig);
            buildArgs := buildArgs (mintConfig baseConfig);
            calculateValue := calculateValue (mintConfig baseConfig) |};
       requiredParams := requiredParams baseConfig;
       supportsERC20 := supportsERC20 baseConfig |}
  | thirdweb =>
    match contractInfo with
    | Some ci =>
      match claimCondition ci with
      | Some cc =>
        {| name := name baseConfig;
           extensionAddresses := extensionAddresses baseConfig;
           priceDiscovery := priceDiscovery baseConfig;
           mintConfig :=
             {| abi := abi (mintConfig baseConfig);
                functionName := functionName (mintConfig baseConfig);
                buildArgs := ThirdwebClaimArgs cc;
                calculateValue := thirdweb_value cc |};
           requiredParams := requiredParams baseConfig;
           supportsERC20 := supportsERC20 baseConfig |}
      | None => baseConfig
      end
    | None => baseConfig
    end
  | _ => baseConfig
  end.

(** Both ABI slots of a configuration, price discovery and mint, hold the
    given ABI. *)
Definition uses_abi (cfg : ProviderConfig) (a : Abi) : Prop :=
  abis (priceDiscovery cfg) = [a] /\ abi (mintConfig cfg) = a.

End ProviderConfigs.

(** ** The chain client (viem's [PublicClient], interface only)

    [client.readContract] is the one way the code reaches a contract. A read
    is determined by the contract address, the function and its arguments,
    and either resolves to the ABI-decoded value or rejects. Each field
    below is one of the reads the code issues, at the type its ABI decodes
    to; where the code goes on to inspect the shape of what it got, the
    field returns a [value]. *)

Module Viem.

Record PublicClient := mkClient {
  (* ERC165_ABI, on the token contract *)
  supportsInterface : Address -> string -> Result bool;
  (* MANIFOLD_DETECTION_ABI *)
  getExtensions : Address -> Result (list Address);
  n2mVersion : Address -> Result value;
  read_claimCondition : Address -> Result value;
  sharedMetadata : Address -> Result value;
  (* The Manifold extension, read through one of its two ABIs *)
  MINT_FEE : Address -> Abi -> Result Z;
  getClaim : Address -> Abi -> Address -> Z -> Result value;
  getClaimForToken : Address -> Abi -> Address -> Z -> Result value;
  extension_tokenURI : Address -> Address -> Z -> Result string;
  (* The ERC-20 named by a claim; its address is whatever the claim holds *)
  erc20_symbol : value -> Result string;
  erc20_decimals : value -> Result Z;
  erc20_allowance : value -> Address -> Address -> Result Z;
  erc20_balanceOf : value -> Address -> Result Z;
  (* Metadata reads on the token contract *)
  tokenURI : Address -> Z -> Result string;
  uri : Address -> Z -> Result string;
  contractURI : Address -> Result string;
  baseURI : Address -> Result string
}.

(** [getClientForChain]: a client per chain id. Building a client performs
    no I/O (an unknown chain id falls back to mainnet), so it is a total
    function. *)
Definition Network := Z -> PublicClient.

End Viem.
Export Viem.

(** ** lib/provider-detector.ts *)

Module ProviderDetector.

Import ProviderConfigs.

Definition basic_info {C} (p : NFTProvider) (is1155 is721 : bool) : NFTContractInfo C :=
  {| provider := p; isERC1155 := is1155; isERC721 := is721;
     extensionAddress := None; hasManifoldExtension := None;
     claim := None; claimCondition := None |}.

Definition manifold_info {C} (is1155 is721 : bool) (ext : Address) : NFTContractInfo C :=
  {| provider := manifold; isERC1155 := is1155; isERC721 := is721;
     extensionAddress := Some ext; hasManifoldExtension := Some true;
     claim := None; claimCondition := None |}.

(** [PROVIDER_CONFIGS.manifold.extensionAddresses?.includes(ext)] *)
Definition is_known_extension (ext : Address) : bool :=
  match extensionAddresses (PROVIDER_CONFIGS manifold) with
  | Some known => existsb (String.eqb ext) known
  | None => false
  end.

(** [a || b] on two addresses, the first possibly [undefined]. *)
Definition or_else (a : option Address) (b : Address) : Address :=
  match a with
  | Some x => if truthy_string x then x else b
  | None => b
  end.

Definition option_truthy (a : option Address) : bool :=
  match a with Some x => truthy_string x | None => false end.

(** The NFTs2Me probe: the contract answers [n2mVersion()]. [Ok None] is
    "no match"; a rejected read is caught and is "no match" as well. *)
Definition probe_nfts2me {C} (client : PublicClient) (addr : Address)
    (is1155 is721 : bool) : Result (option (NFTContractInfo C)) :=
  try_catch
    (version <- n2mVersion client addr ;;
     if negb (is_undefined version)
     then Ok (Some (basic_info nfts2me is1155 is721))
     else Ok None)
    (fun _ => Ok None).

(** The thirdweb probe: [claimCondition()] answers with a pair. The
    [sharedMetadata] read that follows is awaited and its rejection caught;
    its outcome changes nothing. *)
Definition probe_thirdweb {C} (client : PublicClient) (addr : Address)
    (is1155 is721 : bool) : Result (option (NFTContractInfo C)) :=
  try_catch
    (claimConditionResult <- read_claimCondition client addr ;;
     match as_pair claimConditionResult with
     | Some _ =>
       _ <- try_catch (_ <- sharedMetadata client addr ;; Ok tt)
                      (fun _ => Ok tt) ;;
       Ok (Some (basic_info thirdweb is1155 is721))
     | None => Ok None
     end)
    (fun _ => Ok None).

Definition detectNFTProvider {C} (getClientForChain : Network)
    (params : MintParams) : Result (NFTContractInfo C) :=
  let client := getClientForChain (chainId params) in
  match mp_provider params with
  | Some specifiedProvider =>
    let config := PROVIDER_CONFIGS specifiedProvider in
    match specifiedProvider, extensionAddresses config with
    | manifold, Some (ext0 :: _) =>
      if truthy_string ext0
      then Ok (manifold_info true false ext0)
      else Ok (basic_info specifiedProvider false false)
    | _, _ => Ok (basic_info specifiedProvider false false)
    end
  | None =>
    try_catch
      (let addr := contractAddress params in
       (* Batch 1: interfaces and Manifold extensions, each with its own catch *)
       let isERC721 :=
         catch_default (supportsInterface client addr INTERFACE_ID_ERC721) false in
       let isERC1155 :=
         catch_default (supportsInterface client addr INTERFACE_ID_ERC1155) false in
       let extensions := catch_null (getExtensions client addr) in
       let manifold_match :=
         match extensions with
         | Some (first :: rest) =>
           let knownManifoldExtension :=
             find is_known_extension (first :: rest) in
           if orb (option_truthy knownManifoldExtension)
                  (Nat.ltb 0 (List.length (first :: rest)))
           then Some (manifold_info isERC1155 isERC721
                        (or_else knownManifoldExtension first))
           else None
         | _ => None
         end in
       match manifold_match with
       | Some info => Ok info
       | None =>
         n2m <- probe_nfts2me client addr isERC1155 isERC721 ;;
         match n2m with
         | Some info => Ok info
         | None =>
           tw <- probe_thirdweb client addr isERC1155 isERC721 ;;
           match tw with
           | Some info => Ok info
           | None => Ok (basic_info generic isERC1155 isERC721)
           end
         end
       end)
      (fun _ => Ok (basic_info generic false false))
  end.

End ProviderDetector.

(** ** lib/price-optimizer.ts *)

Module PriceOptimizer.

(** The price engine stores the decoded claim tuple as it is. *)
Definition ContractInfo := NFTContractInfo value.

Record Erc20Details := mkErc20 {
  address : value;
  symbol : string;
  decimals : Z;
  allowance : option Z;
  balance : option Z
}.

Record PriceData := mkPrice {
  mintPrice : option Z;
  erc20Details : option Erc20Details;
  totalCost : Z;
  claim : option (Claim value)
}.

(** *** State and exceptions

    [fetchPriceData] assigns to its arguments ([params.instanceId],
    [contractInfo.claim]) and an assignment made before a throw is still
    there in the handler: the two objects are threaded as a store that
    survives exceptions. *)
Definition Store := (MintParams * ContractInfo)%type.
Definition M (A : Type) := Store -> Result A * Store.

Definition ret {A} (a : A) : M A := fun s => (Ok a, s).
Definition bindM {A B} (c : M A) (k : A -> M B) : M B :=
  fun s => match c s with
           | (Ok a, s') => k a s'
           | (Throw e, s') => (Throw e, s')
           end.
Definition lift {A} (r : Result A) : M A := fun s => (r, s).
Definition get_params : M MintParams := fun s => (Ok (fst s), s).
Definition get_info : M ContractInfo := fun s => (Ok (snd s), s).
Definition set_instanceId (v : string) : M unit :=
  fun s =>
    let p := fst s in
    (Ok tt,
     ({| contractAddress := contractAddress p; chainId := chainId p;
         mp_provider := mp_provider p; amount := amount p;
         instanceId := Some v; tokenId := tokenId p;
         recipient := recipient p; merkleProof := merkleProof p |}, snd s)).
Definition set_claim (c : Claim value) : M unit :=
  fun s =>
    let i := snd s in
    (Ok tt,
     (fst s,
      {| provider := provider i; isERC1155 := isERC1155 i;
         isERC721 := isERC721 i; extensionAddress := extensionAddress i;
         hasManifoldExtension := hasManifoldExtension i;
         Types.claim := Some c; claimCondition := claimCondition i |})).
Definition try_catchM {A} (c : M A) (h : string -> M A) : M A :=
  fun s => match c s with
           | (Ok a, s') => (Ok a, s')
           | (Throw e, s') => h e s'
           end.

Notation "x <~ c ;; k" := (bindM c (fun x => k))
  (at level 61, c at next level, right associativity).

(** Truthiness of an optional string member, and its text when given. *)
Definition given (o : option string) : bool :=
  match o with Some s => truthy_string s | None => false end.

Definition text (o : option string) : string :=
  match o with Some s => s | None => "" end.

(** Try the ABI of the detected contract type, then the other one; the
    second failure is rethrown. [read] is the call with everything but the
    ABI fixed. *)
Definition callManifoldWithFallback {A} (read : Abi -> Result A)
    (contractInfo : ContractInfo) : Result A :=
  let primaryABI :=
    if isERC721 contractInfo then MANIFOLD_ERC721_EXTENSION_ABI
    else MANIFOLD_ERC1155_EXTENSION_ABI in
  let fallbackABI :=
    if isERC721 contractInfo then MANIFOLD_ERC1155_EXTENSION_ABI
    else MANIFOLD_ERC721_EXTENSION_ABI in
  try_catch (read primaryABI)
    (fun _ => try_catch (read fallbackABI) (fun fallbackError => Throw fallbackError)).

(** [mintFee || BigInt(0)], with a failed fee read as [null]. *)
Definition fee_or_zero (mintFee : option Z) : Z :=
  match mintFee with
  | Some f => if f =? 0 then 0 else f
  | None => 0
  end.

(** [{ mintPrice: mintFee || BigInt(0), totalCost: mintFee || BigInt(0) }] *)
Definition fee_only (mintFee : option Z) : PriceData :=
  {| mintPrice := Some (fee_or_zero mintFee); erc20Details := None;
     totalCost := fee_or_zero mintFee; claim := None |}.

Definition requiredProps : list string :=
  ["cost"; "erc20"; "startDate"; "endDate"; "walletMax"].

(** [v || BigInt(0)] *)
Definition value_or_zero (v : value) : value :=
  if truthy v then v else VBigInt 0.

(** [a + v] for a bigint [a], on the operands the validation lets through (a
    bigint or a number): adding a number to a bigint is a TypeError. *)
Definition bigint_add (a : Z) (v : value) : Result Z :=
  match v with
  | VBigInt c => Ok (a + c)
  | _ => Throw "TypeError: Cannot mix BigInt and other types"
  end.

(** The arm of the dispatch on [contractInfo.provider]. *)
Inductive Branch :=
| ManifoldBranch (ext : Address)
| Nfts2meBranch
| ThirdwebBranch
| GenericBranch.

Definition dispatch (contractInfo : ContractInfo) : Branch :=
  match provider contractInfo, extensionAddress contractInfo with
  | manifold, Some ext =>
    if truthy_string ext then ManifoldBranch ext else GenericBranch
  | nfts2me, _ => Nfts2meBranch
  | thirdweb, _ => ThirdwebBranch
  | _, _ => GenericBranch
  end.

(** [claimPromise]: the claim read that is started, if any. [BigInt] of the
    identifier is evaluated while the call is built, and may throw. *)
Definition start_claim_read (client : PublicClient) (ext : Address)
    (params : MintParams) (contractInfo : ContractInfo)
    : Result (option (Result value)) :=
  if given (instanceId params) then
    n <- BigInt (text (instanceId params)) ;;
    Ok (Some (callManifoldWithFallback
                (fun abi => getClaim client ext abi (contractAddress params) n)
                contractInfo))
  else if given (tokenId params) then
    n <- BigInt (text (tokenId params)) ;;
    Ok (Some (callManifoldWithFallback
                (fun abi => getClaimForToken client ext abi (contractAddress params) n)
                contractInfo))
  else Ok None.

(** Handle the getClaimForToken response format [[instanceId, claim]]: the
    claim is taken out of the pair, and the instance id is back-filled into
    the request when it has none. *)
Definition unwrap_claim (claimData : value) : M value :=
  params <~ get_params ;;
  match as_pair claimData with
  | Some (extractedInstanceId, inner) =>
    if given (tokenId params) then
      _ <~ (if negb (given (instanceId params))
            then s <~ lift (toString extractedInstanceId) ;;
                 set_instanceId s
            else ret tt) ;;
      ret inner
    else ret claimData
  | None => ret claimData
  end.

(** The three structural checks on a fetched claim; a claim that fails one
    is dropped and the quote is the fee alone. *)
Definition invalid_claim (claim : value) (params : MintParams) : bool :=
  andb (truthy claim)
    (andb (orb (given (instanceId params)) (given (tokenId params)))
       (orb (orb (negb (typeof_object claim)) (is_undefined (get claim "cost")))
          (orb (existsb (fun prop => is_undefined (get claim prop)) requiredProps)
             (negb (is_bigint_or_number (get claim "cost")))))).

(** [claim.erc20 && claim.erc20 !== "0x0000000000000000000000000000000000000000"] *)
Definition pays_in_erc20 (token : value) : bool :=
  andb (truthy token) (differs_from_string token ZERO_ADDRESS).

(** [params.recipient ? read.catch(() => BigInt(0)) : undefined] *)
Definition for_recipient (params : MintParams) (read : Address -> Result Z)
    : option Z :=
  match recipient params with
  | Some r => if truthy_string r then Some (catch_default (read r) 0) else None
  | None => None
  end.

(** From [let totalCost = mintFee || BigInt(0)] to the [return] of the
    [try]. *)
Definition price_claim (client : PublicClient) (mintFee : option Z)
    (claim : value) : M PriceData :=
  if truthy claim then
    (* Store claim data in contractInfo for later use *)
    let stored :=
      {| cost := get claim "cost"; merkleRoot := get claim "merkleRoot";
         erc20 := get claim "erc20"; startDate := get claim "startDate";
         endDate := get claim "endDate"; walletMax := get claim "walletMax" |} in
    _ <~ set_claim stored ;;
    params <~ get_params ;;
    contractInfo <~ get_info ;;
    let token := get claim "erc20" in
    if pays_in_erc20 token then
      (* Batch ERC20 details fetch: the symbol and decimals reads may reject *)
      symbol <~ lift (erc20_symbol client token) ;;
      decimals <~ lift (erc20_decimals client token) ;;
      let spender :=
        match extensionAddress contractInfo with
        | Some e => if truthy_string e then e else contractAddress params
        | None => contractAddress params
        end in
      let allowance :=
        for_recipient params (fun r => erc20_allowance client token r spender) in
      let balance :=
        for_recipient params (fun r => erc20_balanceOf client token r) in
      if orb (decimals <? 0) (255 <? decimals)
      then lift (Throw "Invalid ERC20 decimals")
      else
        ret {| mintPrice := Some (fee_or_zero mintFee);
               erc20Details :=
                 Some {| address := token; symbol := symbol;
                         decimals := decimals; allowance := allowance;
                         balance := balance |};
               (* For ERC20, total cost in ETH is just the mint fee *)
               totalCost := fee_or_zero mintFee;
               claim := Some stored |}
    else
      (* ETH payment - add claim cost to mint fee *)
      total <~ lift (bigint_add (fee_or_zero mintFee)
                       (value_or_zero (get claim "cost"))) ;;
      ret {| mintPrice := Some (fee_or_zero mintFee); erc20Details := None;
             totalCost := total; claim := Some stored |}
  else
    ret {| mintPrice := Some (fee_or_zero mintFee); erc20Details := None;
           totalCost := fee_or_zero mintFee; claim := None |}.

(** The body of the [try] of the Manifold arm. *)
Definition manifold_try (client : PublicClient) (ext : Address) : M PriceData :=
  params <~ get_params ;;
  contractInfo <~ get_info ;;
  let mintFeePromise :=
    callManifoldWithFallback (MINT_FEE client ext) contractInfo in
  claimPromise <~ lift (start_claim_read client ext params contractInfo) ;;
  (* Execute both promises, each with its own catch *)
  let mintFee := catch_null mintFeePromise in
  let claimData :=
    match claimPromise with
    | Some p => catch_default p VNull
    | None => VNull
    end in
  claim <~ (if truthy claimData then unwrap_claim claimData else ret claimData) ;;
  params <~ get_params ;;
  if invalid_claim claim params then ret (fee_only mintFee)
  else price_claim client mintFee claim.

(** The flat mint fee as the quote uses it: the fee read through either ABI,
    zero when the read failed. *)
Definition flat_fee (client : PublicClient) (ext : Address)
    (contractInfo : ContractInfo) : Z :=
  fee_or_zero
    (catch_null (callManifoldWithFallback (MINT_FEE client ext) contractInfo)).

(** Default 0.0005 ETH Manifold fee *)
Definition DEFAULT_MANIFOLD_FEE : Z := 500000000000000.

(** The Manifold arm of [fetchPriceData]: the [try], then the fee-only
    retry, then the default fee. *)
Definition fetchPriceData_manifold (client : PublicClient) (ext : Address)
    : M PriceData :=
  try_catchM (manifold_try client ext)
    (fun _ =>
       try_catchM
         (contractInfo <~ get_info ;;
          mintFee <~ lift (callManifoldWithFallback (MINT_FEE client ext) contractInfo) ;;
          ret {| mintPrice := Some mintFee; erc20Details := None;
                 totalCost := mintFee; claim := None |})
         (fun _ =>
            ret {| mintPrice := None; erc20Details := None;
                   totalCost := DEFAULT_MANIFOLD_FEE; claim := None |})).

(** *** The fetched claim, in the words of the specification *)

(** The request with its instance id set. *)
Definition with_instanceId (p : MintParams) (v : string) : MintParams :=
  {| contractAddress := contractAddress p; chainId := chainId p;
     mp_provider := mp_provider p; amount := amount p;
     instanceId := Some v; tokenId := tokenId p;
     recipient := recipient p; merkleProof := merkleProof p |}.

(** The contract info with a claim stored. *)
Definition with_claim (i : ContractInfo) (c : Claim value) : ContractInfo :=
  {| provider := provider i; isERC1155 := isERC1155 i;
     isERC721 := isERC721 i; extensionAddress := extensionAddress i;
     hasManifoldExtension := hasManifoldExtension i;
     Types.claim := Some c; claimCondition := claimCondition i |}.

(** The six members of a fetched claim that the quote and the contract info
    keep. *)
Definition kept_claim (v : value) : Claim value :=
  {| cost := get v "cost"; merkleRoot := get v "merkleRoot";
     erc20 := get v "erc20"; startDate := get v "startDate";
     endDate := get v "endDate"; walletMax := get v "walletMax" |}.

(** The claim [v] is fetched for the request: by [getClaim] for its
    instance id or, without one, by [getClaimForToken] for its token id,
    which answers the instance id together with the claim. The read goes
    through whichever of the two extension ABIs answers. The last argument
    is the request afterwards: the instance id found for a token id is
    written to it. *)
Inductive fetches_claim (client : PublicClient) (ext : Address)
    (params : MintParams) (ci : ContractInfo) : value -> MintParams -> Prop :=
| by_instanceId (n : Z) (v : value) :
    given (instanceId params) = true ->
    BigInt (text (instanceId params)) = Ok n ->
    callManifoldWithFallback
      (fun abi => getClaim client ext abi (contractAddress params) n) ci
    = Ok v ->
    fetches_claim client ext params ci v params
| by_tokenId (n : Z) (id v : value) (s : string) :
    given (instanceId params) = false ->
    given (tokenId params) = true ->
    BigInt (text (tokenId params)) = Ok n ->
    callManifoldWithFallback
      (fun abi => getClaimForToken client ext abi (contractAddress params) n) ci
    = Ok (VArray [id; v]) ->
    toString id = Ok s ->
    fetches_claim client ext params ci v (with_instanceId params s).

(** A claim as the ABI decodes it: an object that has the five required
    members, its cost a bigint [k]. *)
Definition well_formed_claim (v : value) (k : Z) : Prop :=
  (exists fields, v = VObject fields)
  /\ get v "cost" = VBigInt k
  /\ Forall (fun prop => get v prop <> VUndefined) requiredProps.

End PriceOptimizer.

(** ** lib/nft-metadata-utils.ts *)

Module NftMetadata.

Inductive ProviderHint := HintManifold | HintThirdweb | HintStandard | HintErc1155.

(** What the code takes from its host besides the chain client.

    [checksumAddress] is the casing viem's [getAddress] gives a well-formed
    address (it hashes the address, which is not modelled). [encode_json] is
    [btoa(JSON.stringify({ name, description, image, animation_url }))],
    which can throw. *)
Record Host := mkHost {
  checksumAddress : string -> Address;
  encode_json : value -> value -> value -> value -> Result string
}.

Fixpoint all_hex (s : string) : bool :=
  match s with
  | EmptyString => true
  | String c rest =>
    match digit_value 16 c with
    | Some _ => all_hex rest
    | None => false
    end
  end.

(** viem's [isAddress(a, { strict: false })]: [0x] and forty hex digits. *)
Definition isAddress (a : string) : bool :=
  match a with
  | String "0" (String "x" digits) =>
    andb (Nat.eqb (String.length digits) 40) (all_hex digits)
  | _ => false
  end.

(** viem's [getAddress]: throws on a malformed address. *)
Definition getAddress (host : Host) (a : string) : Result Address :=
  if isAddress a then Ok (checksumAddress host a)
  else Throw "InvalidAddressError".

Record ManifoldDetectionResult := mkDetection {
  isManifold : bool;
  md_extensionAddress : option Address;
  extensions : option (list Address)
}.

Definition not_manifold : ManifoldDetectionResult :=
  {| isManifold := false; md_extensionAddress := None; extensions := None |}.

(** Detect if a contract is a Manifold contract with extensions; every
    failure is "not Manifold". *)
Definition detectManifoldContract (host : Host) (client : PublicClient)
    (contractAddress : Address) : ManifoldDetectionResult :=
  catch_default
    (a <- getAddress host contractAddress ;;
     exts <- getExtensions client a ;;
     match exts with
     | [] => Ok not_manifold
     | first :: _ =>
       let knownExtension :=
         find (fun ext => (toLowerCase ext =? toLowerCase KNOWN_manifoldExtension)%string)
              exts in
       Ok {| isManifold := true;
             md_extensionAddress :=
               Some (ProviderDetector.or_else knownExtension first);
             extensions := Some exts |}
     end)
    not_manifold.

Definition getManifoldTokenURI (host : Host) (client : PublicClient)
    (contractAddress : Address) (tokenId : string)
    (extensionAddress : option Address) : Result string :=
  let extension := ProviderDetector.or_else extensionAddress KNOWN_manifoldExtension in
  e <- getAddress host extension ;;
  c <- getAddress host contractAddress ;;
  n <- BigInt tokenId ;;
  extension_tokenURI client e c n.

(** [uri.replace("{id}", tokenId.padStart(64, "0"))] *)
Definition substitute_id (uri tokenId : string) : string :=
  replace_first "{id}" (padStart0 64 tokenId) uri.

(** [a || b] on values. *)
Definition value_or (a b : value) : value := if truthy a then a else b.

(** The data URI built from [sharedMetadata]; [default_name] is what stands
    for a missing name. [Ok None] is the case without an image. *)
Definition shared_metadata_uri (host : Host) (metadata : value)
    (default_name : string) : Result (option string) :=
  if andb (truthy metadata) (truthy (get metadata "image")) then
    encoded <- encode_json host
                 (value_or (get metadata "name") (VString default_name))
                 (value_or (get metadata "description") (VString ""))
                 (get metadata "image")
                 (value_or (get metadata "animationUrl") VUndefined) ;;
    Ok (Some (append "data:application/json;base64," encoded))
  else Ok None.

(** The [switch] on the hint, inside its [try]: [Ok (Some s)] is a [return s],
    [Ok None] a [break] (or a hint without a case). *)
Definition hint_switch (host : Host) (client : PublicClient)
    (address : Address) (tokenIdBigInt : Z) (tokenId : string)
    (providerHint : ProviderHint) : Result (option string) :=
  match providerHint with
  | HintManifold =>
    let manifoldInfo := detectManifoldContract host client address in
    if andb (isManifold manifoldInfo)
            (ProviderDetector.option_truthy (md_extensionAddress manifoldInfo))
    then
      s <- getManifoldTokenURI host client address tokenId
             (md_extensionAddress manifoldInfo) ;;
      Ok (Some s)
    else Ok None
  | HintErc1155 =>
    u <- uri client address tokenIdBigInt ;;
    Ok (Some (substitute_id u tokenId))
  | HintThirdweb =>
    metadata <- sharedMetadata client address ;;
    shared_metadata_uri host metadata ""
  | HintStandard => Ok None
  end.

(** The six methods of the fallback chain, in order. *)
Definition fallbackMethods (host : Host) (client : PublicClient)
    (address : Address) (tokenIdBigInt : Z) (tokenId : string)
    : list (unit -> Result string) :=
  [ (* 1. Standard ERC721 tokenURI *)
    (fun _ => tokenURI client address tokenIdBigInt);
    (* 2. ERC1155 uri *)
    (fun _ =>
       u <- uri client address tokenIdBigInt ;;
       Ok (substitute_id u tokenId));
    (* 3. Manifold detection and tokenURI *)
    (fun _ =>
       let manifoldInfo := detectManifoldContract host client address in
       if andb (isManifold manifoldInfo)
               (ProviderDetector.option_truthy (md_extensionAddress manifoldInfo))
       then getManifoldTokenURI host client address tokenId
              (md_extensionAddress manifoldInfo)
       else Throw "Not a Manifold contract");
    (* 4. contractURI *)
    (fun _ => contractURI client address);
    (* 5. Thirdweb sharedMetadata *)
    (fun _ =>
       metadata <- sharedMetadata client address ;;
       r <- shared_metadata_uri host metadata (append "Token #" tokenId) ;;
       match r with
       | Some s => Ok s
       | None => Throw "No shared metadata found"
       end);
    (* 6. baseURI + tokenId concatenation *)
    (fun _ =>
       base <- baseURI client address ;;
       if truthy_string base then
         let separator := if endsWith_slash base then "" else "/" in
         Ok (append base (append separator tokenId))
       else Throw "No baseURI found") ].

(** The loop over the methods: the first result that is a non-empty string
    is returned; a throwing method is skipped; the empty string at the end. *)
Fixpoint try_each (methods : list (unit -> Result string)) : string :=
  match methods with
  | [] => ""
  | method :: rest =>
    match method tt with
    | Ok result => if truthy_string result then result else try_each rest
    | Throw _ => try_each rest
    end
  end.

(** The attempt on the hinted method: [Some s] when it returned [s]; [None]
    without a hint, when the attempt threw (the error is caught and logged)
    and when it ended in a [break]. *)
Definition hint_phase (host : Host) (client : PublicClient)
    (address : Address) (tokenIdBigInt : Z) (tokenId : string)
    (providerHint : option ProviderHint) : option string :=
  match providerHint with
  | Some h =>
    catch_default (hint_switch host client address tokenIdBigInt tokenId h) None
  | None => None
  end.

Definition getTokenMetadataURL (host : Host) (client : PublicClient)
    (contractAddress : Address) (tokenId : string)
    (providerHint : option ProviderHint) : Result string :=
  address <- getAddress host contractAddress ;;
  tokenIdBigInt <- BigInt tokenId ;;
  match hint_phase host client address tokenIdBigInt tokenId providerHint with
  | Some s => Ok s
  | None =>
    Ok (try_each (fallbackMethods host client address tokenIdBigInt tokenId))
  end.

(** *** The fallback chain in the words of the specification *)



End NftMetadata.

(** ** lib/error-parser.ts *)

Module ErrorParser.

Inductive ErrorType :=
| InsufficientFunds | WrongNetwork | UserRejected | ContractError
| AllowanceError | NetworkError | Unknown.

Record ParsedError := mkParsed {
  type : ErrorType;
  message : string;
  details : option string;
  actionText : option string
}.

Inductive Context := CtxApproval | CtxMint.

(** The [unknown] argument: an [Error] with its message, or anything else
    with the text [String(error)] gives it. *)
Inductive Thrown :=
| ErrorObject (message : string)
| OtherValue (text : string).

Definition raw_text (error : Thrown) : string :=
  match error with
  | ErrorObject m => m
  | OtherValue t => t
  end.

Section WithLowering.

(** [String.prototype.toLowerCase]. The classifier is defined, and its
    properties proved, for any lowering; [parseError] below fixes the ASCII
    one. *)
Variable lower : string -> string.

Definition any_of (errorMessage : string) (patterns : list string) : bool :=
  existsb (includes errorMessage) patterns.

Definition revert_details (errorMessage : string) : string :=
  if any_of errorMessage ["sold out"; "max supply"] then
    "This NFT is sold out or has reached maximum supply."
  else if any_of errorMessage ["not started"; "not active"] then
    "Minting hasn't started yet or has ended."
  else if any_of errorMessage ["max per wallet"; "exceeds max"] then
    "You've reached the maximum amount allowed per wallet."
  else if any_of errorMessage ["allowlist"; "not eligible"] then
    "You're not eligible to mint this NFT. Check if it requires an allowlist."
  else "The contract rejected this transaction.".

Definition parseError_with (error : Thrown) (context : Context) : ParsedError :=
  let errorMessage := lower (raw_text error) in
  (* User rejected transaction *)
  if any_of errorMessage ["user rejected"; "user denied"] then
    {| type := UserRejected;
       message := "Transaction cancelled";
       details := Some "You rejected the transaction in your wallet";
       actionText := Some "Try again" |}
  (* Insufficient funds *)
  else if any_of errorMessage
            ["insufficient funds"; "insufficient balance"; "not enough";
             "exceeds balance"] then
    {| type := InsufficientFunds;
       message := "Insufficient funds";
       details :=
         Some (match context with
               | CtxApproval =>
                 "You don't have enough tokens to approve this amount"
               | CtxMint =>
                 "You don't have enough funds to complete this transaction. Check both token balance and ETH for gas."
               end);
       actionText := Some "Check wallet balance" |}
  (* Wrong network *)
  else if any_of errorMessage ["network"; "chain"; "chainid"] then
    {| type := WrongNetwork;
       message := "Wrong network";
       details := Some "Please switch to the correct network in your wallet";
       actionText := Some "Switch network" |}
  (* Contract errors *)
  else if any_of errorMessage ["revert"; "execution reverted"; "contract error"] then
    {| type := ContractError;
       message := "Transaction failed";
       details := Some (revert_details errorMessage);
       actionText := Some "Try again later" |}
  (* Allowance errors *)
  else if any_of errorMessage ["allowance"; "approve"] then
    {| type := AllowanceError;
       message := "Approval required";
       details := Some "You need to approve the contract spend your tokens first";
       actionText := Some "Approve tokens" |}
  (* Network/RPC errors *)
  else if any_of errorMessage ["timeout"; "network"; "fetch"; "rpc"] then
    {| type := NetworkError;
       message := "Network error";
       details :=
         Some "Connection issue with the blockchain. This is usually temporary.";
       actionText := Some "Try again" |}
  (* Generic fallback *)
  else
    {| type := Unknown;
       message := "Transaction failed";
       details :=
         Some (match error with
               | ErrorObject m => m
               | OtherValue _ => "An unexpected error occurred"
               end);
       actionText := Some "Try again" |}.

(** *** The priority table of the specification

    Each category with the substrings that select it, in priority order; the
    classification is the first category with a matching substring, and
    [Unknown] without one. *)
Definition priority_table : list (ErrorType * list string) :=
  [ (UserRejected, ["user rejected"; "user denied"]);
    (InsufficientFunds,
     ["insufficient funds"; "insufficient balance"; "not enough";
      "exceeds balance"]);
    (WrongNetwork, ["network"; "chain"; "chainid"]);
    (ContractError, ["revert"; "execution reverted"; "contract error"]);
    (AllowanceError, ["allowance"; "approve"]);
    (NetworkError, ["timeout"; "network"; "fetch"; "rpc"]) ].

Fixpoint first_match (errorMessage : string)
    (table : list (ErrorType * list string)) : ErrorType :=
  match table with
  | [] => Unknown
  | (t, patterns) :: rest =>
    if any_of errorMessage patterns then t else first_match errorMessage rest
  end.

(** The sub-classification of a contract revert, as a table as well. *)
Definition revert_table : list (list string * string) :=
  [ (["sold out"; "max supply"],
     "This NFT is sold out or has reached maximum supply.");
    (["not started"; "not active"],
     "Minting hasn't started yet or has ended.");
    (["max per wallet"; "exceeds max"],
     "You've reached the maximum amount allowed per wallet.");
    (["allowlist"; "not eligible"],
     "You're not eligible to mint this NFT. Check if it requires an allowlist.") ].

Fixpoint first_detail (errorMessage : string)
    (table : list (list string * string)) : string :=
  match table with
  | [] => "The contract rejected this transaction."
  | (patterns, d) :: rest =>
    if any_of errorMessage patterns then d else first_detail errorMessage rest
  end.

(** The place of a category in the priority order (0 is the highest). *)
Definition rank (t : ErrorType) : nat :=
  match t with
  | UserRejected => 0
  | InsufficientFunds => 1
  | WrongNetwork => 2
  | ContractError => 3
  | AllowanceError => 4
  | NetworkError => 5
  | Unknown => 6
  end.

(** The text matches category [t] of the table. *)
Definition matches (errorMessage : string) (t : ErrorType) : bool :=
  existsb (fun row => andb (Nat.eqb (rank (fst row)) (rank t))
                           (any_of errorMessage (snd row)))
          priority_table.

End WithLowering.

Definition parseError : Thrown -> Context -> ParsedError :=
  parseError_with toLowerCase.

End ErrorParser.

(** ** Concrete inputs used by the examples below *)

Module Samples.

Import MintReducer.

(** A mint transaction has been submitted and is awaiting its receipt. *)
Definition waiting_for_mint : MintState :=
  mintReducer (mintReducer initialState MINT_START) (MINT_TX_SUBMITTED "0xabc").

(** An approval transaction has been submitted and is awaiting its receipt. *)
Definition waiting_for_approval : MintState :=
  mintReducer (mintReducer initialState APPROVE_START)
              (APPROVE_TX_SUBMITTED "0xdef").

Definition USDC : Address := "0x833589fCD6eDb6E08f4c7C32D4f71b54bdA02913".

Definition erc20_claim (c : Z) : Claim Z :=
  {| cost := c; merkleRoot := VString "0x00"; erc20 := VString USDC;
     startDate := VNumber 0; endDate := VNumber 0; walletMax := VNumber 0 |}.

(** A Manifold contract whose claim costs 10 units of an ERC-20. *)
Definition info_cost_10 : MintReducer.ContractInfo :=
  {| provider := manifold; isERC1155 := true; isERC721 := false;
     extensionAddress := Some KNOWN_manifoldExtension;
     hasManifoldExtension := Some true;
     claim := Some (erc20_claim 10); claimCondition := None |}.

(** A quote as price discovery hands it over: no [needsApproval] yet. *)
Definition quote_with_allowance (a : option Z) : PriceData :=
  {| mintPrice := Some 500000000000000; totalCost := 500000000000000;
     erc20Details :=
       Some {| address := USDC; symbol := "USDC"; decimals := 6;
               allowance := a; needsApproval := None |} |}.

Definition rejected {A} : Result A := Throw "read rejected".

(** A chain on which every read rejects. *)
Definition dead_client : PublicClient :=
  {| supportsInterface := fun _ _ => rejected;
     getExtensions := fun _ => rejected;
     n2mVersion := fun _ => rejected;
     read_claimCondition := fun _ => rejected;
     sharedMetadata := fun _ => rejected;
     MINT_FEE := fun _ _ => rejected;
     getClaim := fun _ _ _ _ => rejected;
     getClaimForToken := fun _ _ _ _ => rejected;
     extension_tokenURI := fun _ _ _ => rejected;
     erc20_symbol := fun _ => rejected;
     erc20_decimals := fun _ => rejected;
     erc20_allowance := fun _ _ _ => rejected;
     erc20_balanceOf := fun _ _ => rejected;
     tokenURI := fun _ _ => rejected;
     uri := fun _ _ => rejected;
     contractURI := fun _ => rejected;
     baseURI := fun _ => rejected |}.

Definition TOKEN_CONTRACT : Address := "0x1111111111111111111111111111111111111111".
Definition OTHER_EXTENSION : Address := "0x2222222222222222222222222222222222222222".

(** A token contract that supports ERC-1155 and lists one extension, which
    is not the catalog's. *)
Definition one_extension_client : PublicClient :=
  {| supportsInterface :=
       fun _ iface => Ok (iface =? INTERFACE_ID_ERC1155)%string;
     getExtensions := fun _ => Ok [OTHER_EXTENSION];
     n2mVersion := fun _ => rejected;
     read_claimCondition := fun _ => rejected;
     sharedMetadata := fun _ => rejected;
     MINT_FEE := fun _ _ => rejected;
     getClaim := fun _ _ _ _ => rejected;
     getClaimForToken := fun _ _ _ _ => rejected;
     extension_tokenURI := fun _ _ _ => rejected;
     erc20_symbol := fun _ => rejected;
     erc20_decimals := fun _ => rejected;
     erc20_allowance := fun _ _ _ => rejected;
     erc20_balanceOf := fun _ _ => rejected;
     tokenURI := fun _ _ => rejected;
     uri := fun _ _ => rejected;
     contractURI := fun _ => rejected;
     baseURI := fun _ => rejected |}.

Definition plain_request : MintParams :=
  {| contractAddress := TOKEN_CONTRACT; chainId := 8453;
     mp_provider := None; amount := Some (Number 1); instanceId := None;
     tokenId := None; recipient := None; merkleProof := None |}.

(** A request for claim instance 42, from no particular wallet. *)
Definition instance_request : MintParams :=
  {| contractAddress := TOKEN_CONTRACT; chainId := 8453;
     mp_provider := None; amount := Some (Number 1); instanceId := Some "42";
     tokenId := None; recipient := None; merkleProof := None |}.

(** The decoded [getClaim] tuple of a claim of the given cost, paid in the
    given token. *)
Definition claim_tuple (c : Z) (token : Address) : value :=
  VObject [ ("total", VNumber 3); ("totalMax", VNumber 100);
            ("walletMax", VNumber 1); ("startDate", VNumber 0);
            ("endDate", VNumber 0); ("storageProtocol", VNumber 1);
            ("merkleRoot", VString "0x00"); ("location", VString "ar://x");
            ("tokenId", VBigInt 7); ("cost", VBigInt c);
            ("paymentReceiver", VString TOKEN_CONTRACT);
            ("erc20", VString token);
            ("signingAddress", VString ZERO_ADDRESS) ].

(** An extension that charges a flat fee of 0.0005 ETH and holds one claim,
    of cost 10, paid in the given token; the token's symbol and decimals
    can be read. *)
Definition extension_client (token : Address) : PublicClient :=
  {| supportsInterface := fun _ _ => rejected;
     getExtensions := fun _ => rejected;
     n2mVersion := fun _ => rejected;
     read_claimCondition := fun _ => rejected;
     sharedMetadata := fun _ => rejected;
     MINT_FEE := fun _ _ => Ok 500000000000000;
     getClaim := fun _ _ _ _ => Ok (claim_tuple 10 token);
     getClaimForToken := fun _ _ _ _ => rejected;
     extension_tokenURI := fun _ _ _ => rejected;
     erc20_symbol := fun _ => Ok "USDC";
     erc20_decimals := fun _ => Ok 6;
     erc20_allowance := fun _ _ _ => Ok 0;
     erc20_balanceOf := fun _ _ => Ok 0;
     tokenURI := fun _ _ => rejected;
     uri := fun _ _ => rejected;
     contractURI := fun _ => rejected;
     baseURI := fun _ => rejected |}.

(** A request by token id, from no particular wallet. *)
Definition token_request : MintParams :=
  {| contractAddress := TOKEN_CONTRACT; chainId := 8453;
     mp_provider := None; amount := Some (Number 1); instanceId := None;
     tokenId := Some "7"; recipient := None; merkleProof := None |}.

(** The same extension asked by token id: it answers the instance id 42
    together with the claim, here paid in the native currency. *)
Definition token_extension_client : PublicClient :=
  {| supportsInterface := fun _ _ => rejected;
     getExtensions := fun _ => rejected;
     n2mVersion := fun _ => rejected;
     read_claimCondition := fun _ => rejected;
     sharedMetadata := fun _ => rejected;
     MINT_FEE := fun _ _ => Ok 500000000000000;
     getClaim := fun _ _ _ _ => rejected;
     getClaimForToken :=
       fun _ _ _ _ => Ok (VArray [VBigInt 42; claim_tuple 10 ZERO_ADDRESS]);
     extension_tokenURI := fun _ _ _ => rejected;
     erc20_symbol := fun _ => rejected;
     erc20_decimals := fun _ => rejected;
     erc20_allowance := fun _ _ _ => rejected;
     erc20_balanceOf := fun _ _ => rejected;
     tokenURI := fun _ _ => rejected;
     uri := fun _ _ => rejected;
     contractURI := fun _ => rejected;
     baseURI := fun _ => rejected |}.

Definition manifold_1155 : PriceOptimizer.ContractInfo :=
  {| provider := manifold; isERC1155 := true; isERC721 := false;
     extensionAddress := Some KNOWN_manifoldExtension;
     hasManifoldExtension := Some true;
     claim := None; claimCondition := None |}.

(** A host whose checksum keeps the address as it is and whose JSON
    encoder always throws. *)
Definition plain_host : NftMetadata.Host :=
  {| NftMetadata.checksumAddress := fun a => a;
     NftMetadata.encode_json := fun _ _ _ _ => rejected |}.

(** A token contract that answers [tokenURI] and answers [uri] with the
    empty string. *)
Definition token_client : PublicClient :=
  {| supportsInterface := fun _ _ => rejected;
     getExtensions := fun _ => rejected;
     n2mVersion := fun _ => rejected;
     read_claimCondition := fun _ => rejected;
     sharedMetadata := fun _ => rejected;
     MINT_FEE := fun _ _ => rejected;
     getClaim := fun _ _ _ _ => rejected;
     getClaimForToken := fun _ _ _ _ => rejected;
     extension_tokenURI := fun _ _ _ => rejected;
     erc20_symbol := fun _ => rejected;
     erc20_decimals := fun _ => rejected;
     erc20_allowance := fun _ _ _ => rejected;
     erc20_balanceOf := fun _ _ => rejected;
     tokenURI := fun _ _ => Ok "ipfs://token/1";
     uri := fun _ _ => Ok "";
     contractURI := fun _ => rejected;
     baseURI := fun _ => rejected |}.


End Samples.

(** ** The states the reducer can reach *)

Module MintRuns.

Import MintReducer.

(** The state after a sequence of dispatches, from the initial state. *)
Definition run (actions : list MintAction) : MintState :=
  fold_left mintReducer actions initialState.

(** The approval flag agrees with the stored allowance and claim cost,
    whenever all three are known. *)
Definition approval_consistent (s : MintState) : Prop :=
  forall d i c a b,
    erc20Details (priceData s) = Some d ->
    contractInfo s = Some i ->
    claim i = Some c ->
    allowance d = Some a ->
    needsApproval d = Some b ->
    b = (a <? cost c).

(** What holds in the three resting steps. *)
Definition settled (s : MintState) : Prop :=
  (step s = StepSuccess ->
   isLoading s = false /\ txType s = TxNull /\ exists h, txHash s = Some h)
  /\ (step s = StepError ->
      isLoading s = false /\ exists msg, error s = Some msg)
  /\ (step s = StepValidationError -> isLoading s = false).

(** The three dispatches of a confirmed approval. *)
Definition approval_round (h : string) : list MintAction :=
  [APPROVE_START; APPROVE_TX_SUBMITTED h; APPROVE_SUCCESS].

End MintRuns.


(** ** lib/provider-detector.ts: validateParameters *)

Module Validation.

Import ProviderConfigs.

(** The longest prefix of [s] made of digits of the radix. *)
Fixpoint leading_digits (radix : Z) (s : string) : string :=
  match s with
  | EmptyString => EmptyString
  | String c rest =>
    match digit_value radix c with
    | Some _ => String c (leading_digits radix rest)
    | None => EmptyString
    end
  end.

(** [parseInt(s)] without a radix, as a mathematical integer ([None] is
    NaN): leading white space and a sign are dropped, [0x] selects radix 16,
    the digits are read up to the first character that is not one, and there
    must be at least one. The code only tests the result for NaN and for
    its sign, which the rounding to a double does not change. *)
Definition parseInt (s : string) : option Z :=
  let t := trimStart s in
  let (negative, body) :=
    match t with
    | String "-" rest => (true, rest)
    | String "+" rest => (false, rest)
    | _ => (false, t)
    end in
  let magnitude :=
    match body with
    | String "0" (String "x" digits) | String "0" (String "X" digits) =>
      literal_value 16 (leading_digits 16 digits)
    | _ => literal_value 10 (leading_digits 10 body)
    end in
  option_map (fun m => if negative then - m else m) magnitude.

(** [!!params[name]] for the name of a member of the request. *)
Definition param_present (params : MintParams) (name : string) : bool :=
  if (name =? "contractAddress")%string then truthy_string (contractAddress params)
  else if (name =? "chainId")%string then negb (chainId params =? 0)
  else if (name =? "provider")%string then
    match mp_provider params with Some _ => true | None => false end
  else if (name =? "amount")%string then
    match amount params with Some a => truthy_number a | None => false end
  else if (name =? "instanceId")%string then PriceOptimizer.given (instanceId params)
  else if (name =? "tokenId")%string then PriceOptimizer.given (tokenId params)
  else if (name =? "recipient")%string then PriceOptimizer.given (recipient params)
  else if (name =? "merkleProof")%string then
    match merkleProof params with Some _ => true | None => false end
  else false.

Definition ZERO_ROOT : string :=
  "0x0000000000000000000000000000000000000000000000000000000000000000".

Definition MSG_MANIFOLD_IDS : string :=
  "Manifold NFTs require either instanceId or tokenId. Check the claim page URL for (e.g., /instance/123456) use getClaimForToken to find a specific".

Definition MSG_MERKLE : string :=
  "This NFT requires a merkle proof for minting - not supported yet".

Definition MSG_NOT_STARTED : string := "Claim has not started yet".

Definition MSG_BAD_INSTANCE (id : string) : string :=
  append "Invalid instanceId format: "
    (append id ". Must be a positive integer.").

Record ValidationOutcome := mkOutcome {
  isValid : bool;
  missingParams : list string;
  errors : list string
}.

(** [isNaN(n) || n < 0] *)
Definition nan_or_negative (n : option Z) : bool :=
  match n with
  | Some z => z <? 0
  | None => true
  end.

(** [claim?.merkleRoot && claim.merkleRoot !== ZERO_ROOT] *)
Definition claim_needs_proof {C} (contractInfo : NFTContractInfo C) : bool :=
  match claim contractInfo with
  | Some c => andb (truthy (merkleRoot c))
                   (differs_from_string (merkleRoot c) ZERO_ROOT)
  | None => false
  end.

Definition condition_needs_proof {C} (contractInfo : NFTContractInfo C) : bool :=
  match claimCondition contractInfo with
  | Some cc => andb (truthy_string (cc_merkleRoot cc))
                    (negb (cc_merkleRoot cc =? ZERO_ROOT)%string)
  | None => false
  end.

(** [claimCondition?.startTimestamp] is set and still ahead of [now], the
    number of whole seconds. *)
Definition condition_not_started {C} (contractInfo : NFTContractInfo C)
    (now : Z) : bool :=
  match claimCondition contractInfo with
  | Some cc => andb (truthy_number (cc_startTimestamp cc))
                    (number_ltb (Number now) (cc_startTimestamp cc))
  | None => false
  end.

(** The part of the validation that is specific to Manifold: the missing
    parameters and the errors it appends. *)
Definition manifold_checks {C} (params : MintParams)
    (contractInfo : NFTContractInfo C) : list string * list string :=
  let no_ids :=
    andb (negb (PriceOptimizer.given (instanceId params)))
         (negb (PriceOptimizer.given (tokenId params))) in
  let bad_instance :=
    andb (PriceOptimizer.given (instanceId params))
         (nan_or_negative (parseInt (PriceOptimizer.text (instanceId params)))) in
  ((if no_ids then ["instanceId or tokenId"] else []),
   ((if no_ids then [MSG_MANIFOLD_IDS] else [])
    ++ (if bad_instance
        then [MSG_BAD_INSTANCE (PriceOptimizer.text (instanceId params))]
        else [])
    ++ (if claim_needs_proof contractInfo then [MSG_MERKLE] else []))%list).

Definition thirdweb_checks {C} (contractInfo : NFTContractInfo C) (now : Z)
    : list string :=
  ((if condition_needs_proof contractInfo then [MSG_MERKLE] else [])
   ++ (if condition_not_started contractInfo now then [MSG_NOT_STARTED] else []))%list.

(** [validateParameters(params, contractInfo)]; [now] is
    [Math.floor(Date.now() / 1000)]. *)
Definition validateParameters {C} (now : Z) (params : MintParams)
    (contractInfo : NFTContractInfo C) : ValidationOutcome :=
  let config := PROVIDER_CONFIGS (provider contractInfo) in
  (* Check required params for the provider *)
  let missing0 :=
    filter (fun param => negb (param_present params param))
           (requiredParams config) in
  (* Provider-specific validation *)
  let (missing1, errors1) :=
    match provider contractInfo with
    | manifold =>
      let (m, e) := manifold_checks params contractInfo in
      ((missing0 ++ m)%list, e)
    | _ => (missing0, [])
    end in
  let errors2 :=
    match provider contractInfo with
    | thirdweb => (errors1 ++ thirdweb_checks contractInfo now)%list
    | _ => errors1
    end in
  {| isValid := andb (Nat.eqb (List.length missing1) 0)
                     (Nat.eqb (List.length errors2) 0);
     missingParams := missing1;
     errors := errors2 |}.

(** The request names the contract and the chain. *)
Definition names_contract (params : MintParams) : Prop :=
  contractAddress params <> "" /\ chainId params <> 0.

End Validation.


(** ** lib/price-optimizer.ts: the other arms, and the whole dispatch *)

Module PriceArms.

Import ProviderConfigs PriceOptimizer.

(** The decoded tuple of [getClaimConditionById], at the types of its ABI. *)
Record ConditionTuple := mkCondition {
  startTimestamp : Z;
  maxClaimableSupply : Z;
  supplyClaimed : Z;
  quantityLimitPerWallet : Z;
  ct_merkleRoot : string;
  pricePerToken : Z;
  currency : Address;
  metadata : string
}.

(** Further reads of the same chain client, used by these arms only. *)
Record PriceReads := mkReads {
  (* the generic price functions: contract, ABI, function name, arguments *)
  read_price : Address -> Abi -> string -> list Z -> Result Z;
  (* NFTs2Me *)
  n2m_mintPrice : Address -> Result Z;
  n2m_mintFee : Address -> Z -> Result Z;
  n2m_protocolFee : Address -> Result Z;
  (* thirdweb *)
  getClaimConditionById : Address -> Z -> Result ConditionTuple
}.

Definition quote (price total : Z) : PriceData :=
  {| mintPrice := Some price; erc20Details := None; totalCost := total;
     claim := None |}.

(** *** NFTs2Me: three pricing patterns *)

(** 0.0001 ETH creator fee per NFT and 0.0001 ETH protocol fee per NFT *)
Definition creatorFeePerNFT : Z := 100000000000000.
Definition protocolFeePerNFT : Z := 100000000000000.

(** Pattern 1: [mintPrice()], for simple or free contracts. The read and
    the product are inside one [try]. *)
Definition nfts2me_mintPrice (reads : PriceReads) (params : MintParams)
    : Result PriceData :=
  pricePerNFT <- n2m_mintPrice reads (contractAddress params) ;;
  n <- amount_or_one params ;;
  Ok (quote pricePerNFT (pricePerNFT * n)).

(** Pattern 2: [mintFee(amount)] and [protocolFee()], fetched together. The
    argument of [mintFee] is built before either read is issued. *)
Definition nfts2me_fees (reads : PriceReads) (params : MintParams)
    : Result PriceData :=
  n <- amount_or_one params ;;
  mintFee <- n2m_mintFee reads (contractAddress params) n ;;
  protocolFee <- n2m_protocolFee reads (contractAddress params) ;;
  n' <- amount_or_one params ;;
  Ok (quote mintFee (mintFee + protocolFee * n')).

(** Pattern 3: the default fees, outside every [try]. *)
Definition nfts2me_defaults (params : MintParams) : Result PriceData :=
  amount <- amount_or_one params ;;
  Ok (quote (creatorFeePerNFT * amount)
            ((creatorFeePerNFT + protocolFeePerNFT) * amount)).

Definition fetch_nfts2me (reads : PriceReads) (params : MintParams)
    : Result PriceData :=
  try_catch (nfts2me_mintPrice reads params)
    (fun _ =>
       try_catch (nfts2me_fees reads params)
         (fun _ => nfts2me_defaults params)).

(** *** Generic price discovery: each candidate function name in turn *)

(** The body of the [try] for one function name: the arguments, the read,
    and the total cost by the provider's own logic. Each of the three may
    throw. *)
Definition price_attempt (reads : PriceReads) (config : ProviderConfig)
    (params : MintParams) (functionName : string) : Result PriceData :=
  args <- match requiresAmountParam (priceDiscovery config) with
          | Some true => n <- amount_or_one params ;; Ok [n]
          | _ => Ok []
          end ;;
  price <- match abis (priceDiscovery config) with
           | abi0 :: _ =>
             read_price reads (contractAddress params) abi0 functionName args
           | [] => Throw "no ABI"
           end ;;
  totalCost <- calculateValue (mintConfig config) price params ;;
  Ok (quote price totalCost).

Fixpoint try_price_functions (reads : PriceReads) (config : ProviderConfig)
    (params : MintParams) (names : list string) : PriceData :=
  match names with
  | [] => quote 0 0   (* No price found, assume free mint *)
  | functionName :: rest =>
    match price_attempt reads config params functionName with
    | Ok found => found
    | Throw _ => try_price_functions reads config params rest   (* Try next function name *)
    end
  end.

Definition fetch_generic (reads : PriceReads) (params : MintParams)
    (contractInfo : ContractInfo) : PriceData :=
  let config := getProviderConfig (provider contractInfo) (Some contractInfo) in
  try_price_functions reads config params
    (functionNames (priceDiscovery config)).

(** *** thirdweb OpenEditionERC721 *)

(** [a + c - 1n] on two decoded values: a TypeError unless both are
    bigints. *)
Definition last_condition_id (currentStartId count : value) : Result Z :=
  match currentStartId, count with
  | VBigInt a, VBigInt c => Ok (a + c - 1)
  | _, _ => Throw "TypeError: Cannot mix BigInt and other types"
  end.

(** [count === BigInt(0)] *)
Definition is_zero_bigint (v : value) : bool :=
  match v with VBigInt z => z =? 0 | _ => false end.

Definition set_claimCondition (cc : ClaimCondition) : M unit :=
  fun s =>
    let i := snd s in
    (Ok tt,
     (fst s,
      {| provider := provider i; isERC1155 := isERC1155 i;
         isERC721 := isERC721 i; extensionAddress := extensionAddress i;
         hasManifoldExtension := hasManifoldExtension i;
         Types.claim := Types.claim i; claimCondition := Some cc |})).

(** [currency && currency.toLowerCase() !== THIRDWEB_NATIVE_TOKEN.toLowerCase()] *)
Definition condition_pays_in_erc20 (c : Address) : bool :=
  andb (truthy_string c)
       (negb (toLowerCase c =? toLowerCase THIRDWEB_NATIVE_TOKEN)%string).

Definition thirdweb_try (client : PublicClient) (reads : PriceReads)
    : M PriceData :=
  params <~ get_params ;;
  claimCondition <~ lift (read_claimCondition client (contractAddress params)) ;;
  match as_pair claimCondition with
  | None => lift (Throw "Invalid claim condition response from contract")
  | Some (currentStartId, count) =>
    if is_zero_bigint count then ret (quote 0 0)   (* No claim conditions set *)
    else
      activeConditionId <~ lift (last_condition_id currentStartId count) ;;
      condition <~ lift (getClaimConditionById reads (contractAddress params)
                           activeConditionId) ;;
      (* Store claim condition in contractInfo for later use *)
      _ <~ set_claimCondition
             {| cc_id := Number activeConditionId;
                cc_pricePerToken := pricePerToken condition;
                cc_currency := currency condition;
                cc_maxClaimableSupply := maxClaimableSupply condition;
                cc_merkleRoot := ct_merkleRoot condition;
                cc_startTimestamp := Number (startTimestamp condition);
                cc_quantityLimitPerWallet := quantityLimitPerWallet condition |} ;;
      if condition_pays_in_erc20 (currency condition) then
        let token := VString (currency condition) in
        symbol <~ lift (erc20_symbol client token) ;;
        decimals <~ lift (erc20_decimals client token) ;;
        let allowance :=
          for_recipient params
            (fun r => erc20_allowance client token r (contractAddress params)) in
        let balance :=
          for_recipient params (fun r => erc20_balanceOf client token r) in
        if orb (decimals <? 0) (255 <? decimals)
        then lift (Throw "Invalid ERC20 decimals")
        else
          ret {| mintPrice := Some (pricePerToken condition);
                 erc20Details :=
                   Some {| address := token; symbol := symbol;
                           decimals := decimals; allowance := allowance;
                           balance := balance |};
                 totalCost := 0;   (* No ETH needed for ERC20 payment *)
                 claim := None |}
      else
        (* ETH payment *)
        n <~ lift (amount_or_one params) ;;
        ret (quote (pricePerToken condition) (pricePerToken condition * n))
  end.

Definition fetch_thirdweb (client : PublicClient) (reads : PriceReads)
    : M PriceData :=
  try_catchM (thirdweb_try client reads)
    (fun _ => ret {| mintPrice := None; erc20Details := None; totalCost := 0;
                     claim := None |}).

(** *** [fetchPriceData]: the dispatch on the provider *)

Definition fetchPriceData (client : PublicClient) (reads : PriceReads)
    : M PriceData :=
  params <~ get_params ;;
  contractInfo <~ get_info ;;
  match dispatch contractInfo with
  | ManifoldBranch ext => fetchPriceData_manifold client ext
  | Nfts2meBranch => lift (fetch_nfts2me reads params)
  | ThirdwebBranch => fetch_thirdweb client reads
  | GenericBranch => ret (fetch_generic reads params contractInfo)
  end.

(** All members of the request but the instance id agree. *)
Definition same_request_but_instanceId (p p' : MintParams) : Prop :=
  contractAddress p' = contractAddress p /\ chainId p' = chainId p
  /\ mp_provider p' = mp_provider p /\ amount p' = amount p
  /\ tokenId p' = tokenId p /\ recipient p' = recipient p
  /\ merkleProof p' = merkleProof p.

(** All members of the contract info but the stored claim and claim
    condition agree. *)
Definition same_contract (i i' : ContractInfo) : Prop :=
  provider i' = provider i /\ isERC1155 i' = isERC1155 i
  /\ isERC721 i' = isERC721 i /\ extensionAddress i' = extensionAddress i
  /\ hasManifoldExtension i' = hasManifoldExtension i.

(** A contract whose only generic price function is [price()], answering
    the given price. *)
Definition only_price (p : Z) : PriceReads :=
  {| read_price := fun _ _ functionName _ =>
       if (functionName =? "price")%string then Ok p else Throw "reverted";
     n2m_mintPrice := fun _ => Throw "reverted";
     n2m_mintFee := fun _ _ => Throw "reverted";
     n2m_protocolFee := fun _ => Throw "reverted";
     getClaimConditionById := fun _ _ => Throw "reverted" |}.

(** The quote of the two handlers of the Manifold arm: the fee read again,
    or the default fee without a mint price. *)
Definition handler_quote (client : PublicClient) (ext : Address)
    (ci : ContractInfo) : PriceData :=
  match callManifoldWithFallback (MINT_FEE client ext) ci with
  | Ok fee => {| mintPrice := Some fee; erc20Details := None;
                 totalCost := fee; claim := None |}
  | Throw _ => {| mintPrice := None; erc20Details := None;
                  totalCost := DEFAULT_MANIFOLD_FEE; claim := None |}
  end.

(** The contract info with the given claim condition stored. *)
Definition with_claimCondition (i : ContractInfo) (cc : ClaimCondition)
    : ContractInfo :=
  {| provider := provider i; isERC1155 := isERC1155 i;
     isERC721 := isERC721 i; extensionAddress := extensionAddress i;
     hasManifoldExtension := hasManifoldExtension i;
     Types.claim := Types.claim i; claimCondition := Some cc |}.

(** The claim condition stored for a decoded tuple. *)
Definition stored_condition (id : Z) (condition : ConditionTuple) : ClaimCondition :=
  {| cc_id := Number id;
     cc_pricePerToken := pricePerToken condition;
     cc_currency := currency condition;
     cc_maxClaimableSupply := maxClaimableSupply condition;
     cc_merkleRoot := ct_merkleRoot condition;
     cc_startTimestamp := Number (startTimestamp condition);
     cc_quantityLimitPerWallet := quantityLimitPerWallet condition |}.

End PriceArms.


(** ** More concrete inputs *)

Module MoreSamples.

(** An instance id that [parseInt] reads as 12 and [BigInt] rejects. *)
Definition sloppy_request : MintParams :=
  {| contractAddress := Samples.TOKEN_CONTRACT; chainId := 8453;
     mp_provider := None; amount := Some (Number 1); instanceId := Some "12abc";
     tokenId := None; recipient := None; merkleProof := None |}.

Definition generic_721 : PriceOptimizer.ContractInfo :=
  ProviderDetector.basic_info generic false true.

Definition thirdweb_721 : PriceOptimizer.ContractInfo :=
  ProviderDetector.basic_info thirdweb false true.

(** An open edition with one claim condition (id 0), priced 3 in the native
    token. *)
Definition native_condition : PriceArms.ConditionTuple :=
  {| PriceArms.startTimestamp := 1700000000;
     PriceArms.maxClaimableSupply := 1000;
     PriceArms.supplyClaimed := 10;
     PriceArms.quantityLimitPerWallet := 5;
     PriceArms.ct_merkleRoot := Validation.ZERO_ROOT;
     PriceArms.pricePerToken := 3;
     PriceArms.currency := "0xeeeeeeeeeeeeeeeeeeeeeeeeeeeeeeeeeeeeeeee";
     PriceArms.metadata := "" |}.

Definition open_edition_client : PublicClient :=
  {| supportsInterface := fun _ _ => Samples.rejected;
     getExtensions := fun _ => Samples.rejected;
     n2mVersion := fun _ => Samples.rejected;
     read_claimCondition := fun _ => Ok (VArray [VBigInt 0; VBigInt 1]);
     sharedMetadata := fun _ => Samples.rejected;
     MINT_FEE := fun _ _ => Samples.rejected;
     getClaim := fun _ _ _ _ => Samples.rejected;
     getClaimForToken := fun _ _ _ _ => Samples.rejected;
     extension_tokenURI := fun _ _ _ => Samples.rejected;
     erc20_symbol := fun _ => Samples.rejected;
     erc20_decimals := fun _ => Samples.rejected;
     erc20_allowance := fun _ _ _ => Samples.rejected;
     erc20_balanceOf := fun _ _ => Samples.rejected;
     tokenURI := fun _ _ => Samples.rejected;
     uri := fun _ _ => Samples.rejected;
     contractURI := fun _ => Samples.rejected;
     baseURI := fun _ => Samples.rejected |}.

Definition open_edition_reads : PriceArms.PriceReads :=
  {| PriceArms.read_price := fun _ _ _ _ => Samples.rejected;
     PriceArms.n2m_mintPrice := fun _ => Samples.rejected;
     PriceArms.n2m_mintFee := fun _ _ => Samples.rejected;
     PriceArms.n2m_protocolFee := fun _ => Samples.rejected;
     PriceArms.getClaimConditionById := fun _ _ => Ok native_condition |}.

(** One and a half, as the division of 3 by 2 gives it. *)
Definition one_and_a_half : number :=
  Eval vm_compute in SFdiv 53 1024 (Number 3) (Number 2).

(** A request for one and a half tokens. *)
Definition fractional_request : MintParams :=
  {| contractAddress := Samples.TOKEN_CONTRACT; chainId := 8453;
     mp_provider := None; amount := Some one_and_a_half; instanceId := None;
     tokenId := None; recipient := None; merkleProof := None |}.

Definition nfts2me_721 : PriceOptimizer.ContractInfo :=
  ProviderDetector.basic_info nfts2me false true.

(** An NFTs2Me contract that answers [mintPrice()] with 5. *)
Definition priced_reads : PriceArms.PriceReads :=
  {| PriceArms.read_price := fun _ _ _ _ => Samples.rejected;
     PriceArms.n2m_mintPrice := fun _ => Ok 5;
     PriceArms.n2m_mintFee := fun _ _ => Samples.rejected;
     PriceArms.n2m_protocolFee := fun _ => Samples.rejected;
     PriceArms.getClaimConditionById := fun _ _ => Samples.rejected |}.

(** A request that names its provider. *)
Definition manifold_by_name : MintParams :=
  {| contractAddress := Samples.TOKEN_CONTRACT; chainId := 1;
     mp_provider := Some manifold; amount := None; instanceId := None;
     tokenId := None; recipient := None; merkleProof := None |}.

End MoreSamples.


(** ** lib/chains.ts *)

Module Chains.

(** The chain objects of viem that the table refers to, by their names in
    [viem/chains]; [monadTestnet] is the chain object written out in the
    table itself. *)
Inductive Chain :=
| mainnet | base | arbitrum | arbitrumSepolia | baseSepolia | degen | gnosis
| optimism | optimismSepolia | polygon | sepolia | zora_chain | ham
| monadTestnet | celo.

Record ChainConfig := mkChainConfig {
  id : Z;
  chain : Chain;
  alchemyPrefix : option string   (* [null] is [None] *)
}.

Definition SUPPORTED_CHAINS : list ChainConfig :=
  [ {| id := 1; chain := mainnet; alchemyPrefix := Some "eth-mainnet" |};
    {| id := 8453; chain := base; alchemyPrefix := Some "base-mainnet" |};
    {| id := 42161; chain := arbitrum; alchemyPrefix := Some "arb-mainnet" |};
    {| id := 421614; chain := arbitrumSepolia; alchemyPrefix := Some "arb-sepolia" |};
    {| id := 84532; chain := baseSepolia; alchemyPrefix := Some "base-sepolia" |};
    {| id := 666666666; chain := degen; alchemyPrefix := Some "degen-mainnet" |};
    {| id := 100; chain := gnosis; alchemyPrefix := Some "gnosis-mainnet" |};
    {| id := 10; chain := optimism; alchemyPrefix := Some "opt-mainnet" |};
    {| id := 11155420; chain := optimismSepolia; alchemyPrefix := Some "opt-sepolia" |};
    {| id := 137; chain := polygon; alchemyPrefix := Some "polygon-mainnet" |};
    {| id := 11155111; chain := sepolia; alchemyPrefix := Some "eth-sepolia" |};
    {| id := 7777777; chain := zora_chain; alchemyPrefix := Some "zora-mainnet" |};
    {| id := 130; chain := ham; alchemyPrefix := Some "unichain-mainnet" |};
    {| id := 10143; chain := monadTestnet; alchemyPrefix := None |};
    {| id := 42220; chain := celo; alchemyPrefix := Some "celo-mainnet" |} ].

Definition find_config (chainId : Z) : option ChainConfig :=
  find (fun c => id c =? chainId) SUPPORTED_CHAINS.

(** [config?.chain || chains.mainnet] *)
Definition getChainById (chainId : Z) : Chain :=
  match find_config chainId with
  | Some config => chain config
  | None => mainnet
  end.

(** The own keys of [nameToId]. *)
Definition nameToId : list (string * Z) :=
  [ ("ethereum", 1); ("mainnet", 1); ("base", 8453); ("arbitrum", 42161);
    ("arbitrum one", 42161); ("arbitrum sepolia", 421614);
    ("base sepolia", 84532); ("degen", 666666666); ("gnosis", 100);
    ("optimism", 10); ("optimism sepolia", 11155420); ("polygon", 137);
    ("sepolia", 11155111); ("ethereum sepolia", 11155111); ("zora", 7777777);
    ("unichain", 130); ("ham", 130); ("monad testnet", 10143);
    ("monad", 10143); ("celo", 42220) ].

Fixpoint lookup (key : string) (table : list (string * Z)) : option Z :=
  match table with
  | [] => None
  | (k, v) :: rest => if (key =? k)%string then Some v else lookup key rest
  end.

(** The keys that [nameToId] inherits from [Object.prototype] and that a
    lower-cased name can spell: their values are not numbers but are
    truthy. *)
Definition inherited_keys : list string := ["constructor"; "__proto__"].

(** [findChainByName]: [chainId ? getChainById(chainId) : undefined]. An
    inherited key gives a truthy value that is the id of no chain.
    [normalize] stands for [networkName.toLowerCase().trim()], the two
    built-in string functions in a row; what is proved holds whatever they
    return. *)
Definition findChainByName_with (normalize : string -> string)
    (networkName : string) : option Chain :=
  let normalizedName := normalize networkName in
  match lookup normalizedName nameToId with
  | Some chainId => if chainId =? 0 then None else Some (getChainById chainId)
  | None =>
    if existsb (String.eqb normalizedName) inherited_keys
    then Some mainnet
    else None
  end.

(** The two built-in functions on a name without letters outside ASCII. *)
Definition normalize (networkName : string) : string :=
  trim (toLowerCase networkName).

Definition findChainByName : string -> option Chain :=
  findChainByName_with normalize.

(** Get Alchemy RPC endpoint URL for a specific chain *)
Definition getAlchemyEndpoint (chainId : Z) (apiKey : string) : option string :=
  match find_config chainId with
  | Some config =>
    match alchemyPrefix config with
    | Some prefix =>
      if andb (truthy_string prefix) (truthy_string apiKey)
      then Some (append "https://"
                   (append prefix (append ".g.alchemy.com/v2/" apiKey)))
      else None
    | None => None
    end
  | None => None
  end.

End Chains.

(** ** lib/nft-standards.ts and lib/utils: display helpers *)

Module Display.

Inductive Gateway := GwDefault | GwCloudflare | GwPinata.

Definition IPFS_GATEWAYS (g : Gateway) : string :=
  match g with
  | GwDefault => "https://ipfs.io/ipfs/"
  | GwCloudflare => "https://cloudflare-ipfs.com/ipfs/"
  | GwPinata => "https://gateway.pinata.cloud/ipfs/"
  end.

(** Convert IPFS URL to HTTP gateway URL *)
Definition ipfsToHttp (url : string) (gateway : option Gateway) : string :=
  let selectedGateway :=
    match gateway with Some g => g | None => GwDefault end in
  if orb (negb (truthy_string url)) (negb (prefix "ipfs://" url)) then url
  else replace_first "ipfs://" (IPFS_GATEWAYS selectedGateway) url.

(** [s.slice(0, n)] *)
Definition slice_to (n : nat) (s : string) : string := substring 0 n s.

(** [s.slice(-n)]: the last [n] characters, and the whole string for
    [n = 0] (as [-0] is [0]) and for [n] beyond the length. *)
Definition slice_last (n : nat) (s : string) : string :=
  match n with
  | O => s
  | _ => substring (String.length s - n) n s
  end.

(** [formatAddress(address, chars = 4)] *)
Definition formatAddress (address : string) (chars : nat) : string :=
  if orb (negb (truthy_string address))
         (Nat.ltb (String.length address) (chars * 2 + 2))
  then address
  else append (slice_to (chars + 2) address)
         (append "..." (slice_last chars address)).

End Display.

(** ** lib/nft-metadata-utils.ts: the deprecated resolver *)

Module MetadataMore.

Import NftMetadata.

(** [getTokenURIWithManifoldSupport]: the Manifold extension first, then the
    standard [tokenURI], whose failure is not caught. *)
Definition getTokenURIWithManifoldSupport (host : Host) (client : PublicClient)
    (contractAddress : Address) (tokenId : string) : Result string :=
  let manifoldInfo := detectManifoldContract host client contractAddress in
  let viaManifold :=
    if andb (isManifold manifoldInfo)
            (ProviderDetector.option_truthy (md_extensionAddress manifoldInfo))
    then catch_null (getManifoldTokenURI host client contractAddress tokenId
                       (md_extensionAddress manifoldInfo))
    else None in
  match viaManifold with
  | Some s => Ok s
  | None =>
    (* Fallback to standard ERC721 tokenURI *)
    a <- getAddress host contractAddress ;;
    n <- BigInt tokenId ;;
    tokenURI client a n
  end.

End MetadataMore.


(** * Properties *)

(** ** The mint state machine *)

Section Reducer.

Import MintReducer.

(** C1. A TX_SUCCESS dispatched while the transaction kind is "approval" or
    null leaves the state unchanged; dispatched while it is "mint" it moves
    the step to success, records the payload hash, clears the kind (and the
    loading flag) and keeps every other member. Hence a TX_SUCCESS that
    reaches success from another step was dispatched while the kind was
    "mint". *)
Theorem tx_success_only_for_mint (s : MintState) (h : string) :
  (txType s = TxApproval \/ txType s = TxNull ->
   mintReducer s (TX_SUCCESS h) = s)
  /\ (txType s = TxMint ->
      let s' := mintReducer s (TX_SUCCESS h) in
      step s' = StepSuccess /\ txHash s' = Some h /\ txType s' = TxNull
      /\ isLoading s' = false /\ contractInfo s' = contractInfo s
      /\ priceData s' = priceData s /\ error s' = error s
      /\ validationErrors s' = validationErrors s)
  /\ (step (mintReducer s (TX_SUCCESS h)) = StepSuccess ->
      step s <> StepSuccess -> txType s = TxMint).
Proof.
  split; [| split].
  - intros [H | H]; simpl; rewrite H; reflexivity.
  - intros H; simpl; rewrite H; simpl; repeat split.
  - simpl. destruct (txType s); intros Hs Hn; try reflexivity; contradiction.
Qed.

Lemma tx_success_only_for_mint_witness :
  mintReducer Samples.waiting_for_approval (TX_SUCCESS "0xdef")
    = Samples.waiting_for_approval
  /\ step (mintReducer Samples.waiting_for_mint (TX_SUCCESS "0xabc"))
       = StepSuccess
  /\ txType (mintReducer Samples.waiting_for_mint (TX_SUCCESS "0xabc"))
       = TxNull.
Proof.
  split; [| split].
  - apply (proj1 (tx_success_only_for_mint Samples.waiting_for_approval "0xdef")).
    left; reflexivity.
  - apply (proj1 (proj2 (tx_success_only_for_mint Samples.waiting_for_mint "0xabc"))).
    reflexivity.
  - apply (proj1 (proj2 (tx_success_only_for_mint Samples.waiting_for_mint "0xabc"))).
    reflexivity.
Defined.

(** C10. From every state, TX_ERROR moves the step to error, records the
    message, clears the loading flag and the transaction kind, and leaves
    the recorded transaction hash (and every other member) as it was. *)
Theorem tx_error_keeps_hash (s : MintState) (msg : string) :
  let s' := mintReducer s (TX_ERROR msg) in
  step s' = StepError /\ error s' = Some msg /\ isLoading s' = false
  /\ txType s' = TxNull /\ txHash s' = txHash s
  /\ contractInfo s' = contractInfo s /\ priceData s' = priceData s
  /\ validationErrors s' = validationErrors s.
Proof. simpl; repeat split. Qed.

(** The stale hash of a mint that failed while awaiting its receipt is still
    in the error state. *)
Example tx_error_after_submission :
  txHash (mintReducer Samples.waiting_for_mint (TX_ERROR "reverted"))
    = Some "0xabc".
Proof. reflexivity. Qed.

(** C2, as the specification states it, fails: a MINT_START arriving while a
    mint is awaiting its receipt (a step that does not precede it) is
    neither a no-op nor routed to error; the step becomes minting. *)
Lemma start_not_refused_when_waiting :
  is_start MINT_START = true
  /\ precedes (step Samples.waiting_for_mint) MINT_START = false
  /\ ~ refused Samples.waiting_for_mint MINT_START
  /\ step (mintReducer Samples.waiting_for_mint MINT_START) = StepMinting.
Proof.
  repeat split.
  intros [H | H]; discriminate H.
Qed.

(** C2, amended. The reducer does not look at the current step: from every
    state a start action leads to its own step (detecting, approving,
    minting) with the loading flag set, never to error; DETECT_START clears
    the error, APPROVE_START and MINT_START set the transaction kind; the
    contract info, the quote, the hash and the validation errors are
    kept. *)
Theorem start_actions_unguarded (s : MintState) (a : MintAction) :
  is_start a = true ->
  let s' := mintReducer s a in
  step s' = start_target a /\ step s' <> StepError /\ isLoading s' = true
  /\ contractInfo s' = contractInfo s /\ priceData s' = priceData s
  /\ txHash s' = txHash s /\ validationErrors s' = validationErrors s
  /\ match a with
     | DETECT_START => error s' = None /\ txType s' = txType s
     | APPROVE_START => error s' = error s /\ txType s' = TxApproval
     | _ => error s' = error s /\ txType s' = TxMint
     end.
Proof.
  destruct a; simpl; intros H; try discriminate H;
    repeat split; discriminate.
Qed.

Lemma start_actions_unguarded_witness :
  step (mintReducer Samples.waiting_for_mint DETECT_START) = StepDetecting.
Proof.
  apply (start_actions_unguarded Samples.waiting_for_mint DETECT_START).
  reflexivity.
Defined.

(** C3, as the specification states it, fails in its last part: the quote
    that is stored is not the payload's quote, since the reducer writes the
    approval flag it computed into the ERC-20 details. *)
Lemma detect_success_rewrites_quote :
  priceData (mintReducer initialState
               (DETECT_SUCCESS Samples.info_cost_10
                  (Samples.quote_with_allowance (Some 5))))
    <> Samples.quote_with_allowance (Some 5).
Proof. simpl; intros H; discriminate H. Qed.

(** C3, amended. On DETECT_SUCCESS the step becomes approve exactly when the
    payload has ERC-20 details with a known allowance strictly below the
    cost of the payload's claim, and sheet otherwise; the payload's contract
    info is stored; the stored quote has the payload's mint price and total
    cost, and the payload's ERC-20 details with the approval flag set (true
    or false by that comparison, false when the allowance is unknown,
    undefined without a claim); the loading flag is cleared and the other
    members are kept. *)
Theorem detect_success_gates_approval (s : MintState)
    (ci : ContractInfo) (pd : PriceData) :
  let s' := mintReducer s (DETECT_SUCCESS ci pd) in
  (step s' = StepApprove <->
     exists d c a, erc20Details pd = Some d /\ claim ci = Some c
                   /\ allowance d = Some a /\ a < cost c)
  /\ (step s' = StepApprove \/ step s' = StepSheet)
  /\ contractInfo s' = Some ci
  /\ mintPrice (priceData s') = mintPrice pd
  /\ totalCost (priceData s') = totalCost pd
  /\ erc20Details (priceData s')
       = option_map (with_needsApproval (detect_needsApproval ci pd))
                    (erc20Details pd)
  /\ (forall d, erc20Details pd = Some d ->
        detect_needsApproval ci pd
          = match claim ci, allowance d with
            | None, _ => None
            | Some _, None => Some false
            | Some c, Some a => Some (a <? cost c)
            end)
  /\ isLoading s' = false
  /\ error s' = error s /\ txHash s' = txHash s /\ txType s' = txType s
  /\ validationErrors s' = validationErrors s.
Proof.
  simpl. unfold detect_needsApproval.
  split.
  { destruct (erc20Details pd) as [d |] eqn:Ed; simpl.
    - destruct (claim ci) as [c |] eqn:Ec; simpl.
      + destruct (allowance d) as [a |] eqn:Ea; simpl.
        * destruct (Z.ltb_spec a (cost c)); simpl; split.
          -- intros _. exists d, c, a. repeat split; assumption.
          -- reflexivity.
          -- discriminate.
          -- intros (d' & c' & a' & Hd & Hc & Ha & Hlt).
             inversion Hd; subst d'. inversion Hc; subst c'.
             rewrite Ea in Ha. inversion Ha; subst a'. lia.
        * split; [discriminate |].
          intros (d' & c' & a' & Hd & _ & Ha & _).
          inversion Hd; subst d'. rewrite Ea in Ha. discriminate.
      + split; [discriminate |].
        intros (d' & c' & a' & _ & Hc & _). discriminate.
    - split; [discriminate |].
      intros (d' & c' & a' & Hd & _). discriminate. }
  split; [destruct (flag_truthy _); [left | right]; reflexivity |].
  do 3 (split; [reflexivity |]).
  split; [destruct (erc20Details pd); reflexivity |].
  split; [intros d Hd; rewrite Hd; destruct (claim ci); reflexivity |].
  repeat split.
Qed.

Lemma detect_success_gates_approval_witness :
  step (mintReducer initialState
          (DETECT_SUCCESS Samples.info_cost_10
             (Samples.quote_with_allowance (Some 5)))) = StepApprove.
Proof.
  apply (proj1 (detect_success_gates_approval initialState Samples.info_cost_10
                  (Samples.quote_with_allowance (Some 5)))).
  exists {| address := Samples.USDC; symbol := "USDC"; decimals := 6;
            allowance := Some 5; needsApproval := None |},
         (Samples.erc20_claim 10), 5.
  repeat split; reflexivity.
Defined.

(** The other three cases of the gate lead to the sheet. *)
Example detect_success_to_sheet :
  step (mintReducer initialState
          (DETECT_SUCCESS Samples.info_cost_10
             (Samples.quote_with_allowance (Some 10)))) = StepSheet
  /\ step (mintReducer initialState
             (DETECT_SUCCESS Samples.info_cost_10
                (Samples.quote_with_allowance None))) = StepSheet
  /\ step (mintReducer initialState
             (DETECT_SUCCESS Samples.info_cost_10
                {| mintPrice := Some 5; totalCost := 5;
                   erc20Details := None |})) = StepSheet.
Proof. repeat split. Qed.

End Reducer.

(** ** The catalog *)

Section Catalog.

Import ProviderConfigs.

Variable C : Type.

(** C5. For the manifold provider, [getProviderConfig] puts into both ABI
    slots: the single-edition (ERC-721) extension ABI when the contract info
    has [isERC721] set; the multi-edition (ERC-1155) extension ABI when it has
    [isERC1155] set (and not [isERC721], which is tested first); the
    single-edition ABI when both flags are false and when no contract info is
    given. The two ABIs are different. *)
Theorem manifold_abi_selection (ci : NFTContractInfo C) :
  (isERC721 ci = true ->
   uses_abi (getProviderConfig manifold (Some ci)) MANIFOLD_ERC721_EXTENSION_ABI)
  /\ (isERC721 ci = false -> isERC1155 ci = true ->
      uses_abi (getProviderConfig manifold (Some ci)) MANIFOLD_ERC1155_EXTENSION_ABI)
  /\ (isERC721 ci = false -> isERC1155 ci = false ->
      uses_abi (getProviderConfig manifold (Some ci)) MANIFOLD_ERC721_EXTENSION_ABI)
  /\ uses_abi (getProviderConfig manifold (@None (NFTContractInfo C)))
              MANIFOLD_ERC721_EXTENSION_ABI
  /\ getClaim_components MANIFOLD_ERC721_EXTENSION_ABI
       <> getClaim_components MANIFOLD_ERC1155_EXTENSION_ABI.
Proof.
  unfold uses_abi; simpl.
  split; [| split; [| split; [| split]]].
  - intros H; rewrite H; split; reflexivity.
  - intros H1 H2; rewrite H1, H2; split; reflexivity.
  - intros H1 H2; rewrite H1, H2; split; reflexivity.
  - split; reflexivity.
  - discriminate.
Qed.

End Catalog.

Lemma manifold_abi_selection_witness :
  ProviderConfigs.uses_abi
    (ProviderConfigs.getProviderConfig manifold (Some Samples.manifold_1155))
    MANIFOLD_ERC1155_EXTENSION_ABI.
Proof.
  apply (proj1 (proj2 (manifold_abi_selection value Samples.manifold_1155)));
    reflexivity.
Defined.

(** The rest of the configuration is the catalog entry. *)
Example manifold_config_rest :
  let cfg := ProviderConfigs.getProviderConfig manifold (Some Samples.manifold_1155) in
  ProviderConfigs.functionNames (ProviderConfigs.priceDiscovery cfg) = ["MINT_FEE"]
  /\ ProviderConfigs.functionName (ProviderConfigs.mintConfig cfg) = "mint"
  /\ ProviderConfigs.extensionAddresses cfg = Some [KNOWN_manifoldExtension].
Proof. repeat split. Qed.

(** ** Provider detection *)

Section Detection.

Import ProviderDetector.

Variable C : Type.

Lemma probe_nfts2me_ok client addr f1 f2 :
  exists r, @probe_nfts2me C client addr f1 f2 = Ok r.
Proof.
  unfold probe_nfts2me.
  destruct (n2mVersion client addr) as [v | e]; simpl.
  - destruct (is_undefined v); simpl; eauto.
  - eauto.
Qed.

Lemma probe_thirdweb_ok client addr f1 f2 :
  exists r, @probe_thirdweb C client addr f1 f2 = Ok r.
Proof.
  unfold probe_thirdweb.
  destruct (read_claimCondition client addr) as [v | e]; simpl; [| eauto].
  destruct (as_pair v); simpl; [| eauto].
  destruct (sharedMetadata client addr); simpl; eauto.
Qed.

Lemma probe_nfts2me_rejected client addr f1 f2 e :
  n2mVersion client addr = Throw e ->
  @probe_nfts2me C client addr f1 f2 = Ok None.
Proof. unfold probe_nfts2me; intros ->; reflexivity. Qed.

Lemma probe_thirdweb_rejected client addr f1 f2 e :
  read_claimCondition client addr = Throw e ->
  @probe_thirdweb C client addr f1 f2 = Ok None.
Proof. unfold probe_thirdweb; intros ->; reflexivity. Qed.

(** C4. Detection never throws: for every network and every request it
    returns a contract info. Each probe's rejection is absorbed: when the
    extension list, the version probe and the claim-condition probe all
    reject, the result is the generic provider, with each interface flag
    false unless its own probe answered true. *)
Theorem detect_never_throws (net : Network) (params : MintParams) :
  (exists info : NFTContractInfo C, detectNFTProvider net params = Ok info)
  /\ (forall e1 e2 e3,
        let client := net (chainId params) in
        let addr := contractAddress params in
        mp_provider params = None ->
        getExtensions client addr = Throw e1 ->
        n2mVersion client addr = Throw e2 ->
        read_claimCondition client addr = Throw e3 ->
        @detectNFTProvider C net params
          = Ok (basic_info generic
                  (catch_default (supportsInterface client addr INTERFACE_ID_ERC1155) false)
                  (catch_default (supportsInterface client addr INTERFACE_ID_ERC721) false))).
Proof.
  split.
  - unfold detectNFTProvider.
    destruct (mp_provider params) as [p |].
    + destruct p; simpl; eauto.
    + set (client := net (chainId params)).
      set (addr := contractAddress params).
      set (f721 := catch_default (supportsInterface client addr INTERFACE_ID_ERC721) false).
      set (f1155 := catch_default (supportsInterface client addr INTERFACE_ID_ERC1155) false).
      destruct (catch_null (getExtensions client addr)) as [[| first rest] |];
        simpl.
      2: { destruct (option_truthy _); simpl; eauto. }
      all: destruct (probe_nfts2me_ok client addr f1155 f721) as [[i |] ->];
        simpl; eauto;
        destruct (probe_thirdweb_ok client addr f1155 f721) as [[i |] ->];
        simpl; eauto.
  - intros e1 e2 e3 client addr Hp H1 H2 H3.
    unfold detectNFTProvider. rewrite Hp.
    fold client addr. rewrite H1. simpl.
    rewrite (probe_nfts2me_rejected _ _ _ _ _ H2). simpl.
    rewrite (probe_thirdweb_rejected _ _ _ _ _ H3). reflexivity.
Qed.

End Detection.

Lemma detect_never_throws_witness :
  @ProviderDetector.detectNFTProvider value (fun _ => Samples.dead_client)
     Samples.plain_request
  = Ok (ProviderDetector.basic_info generic false false).
Proof.
  apply (proj2 (detect_never_throws value (fun _ => Samples.dead_client)
                  Samples.plain_request) "read rejected" "read rejected"
                  "read rejected"); reflexivity.
Defined.

Section ManifoldDetection.

Import ProviderDetector.

Variable C : Type.

Lemma is_known_extension_spec (ext : Address) :
  is_known_extension ext = true <-> ext = KNOWN_manifoldExtension.
Proof.
  unfold is_known_extension; simpl.
  rewrite orb_false_r. apply String.eqb_eq.
Qed.

(** What [knownManifoldExtension || extensions[0]] is, for a non-empty list
    of extensions: the catalog's address when it is listed, the first
    extension otherwise. *)
Lemma chosen_extension (first : Address) (rest : list Address) :
  let ext := or_else (find is_known_extension (first :: rest)) first in
  In ext (first :: rest)
  /\ (In KNOWN_manifoldExtension (first :: rest) -> ext = KNOWN_manifoldExtension)
  /\ (~ In KNOWN_manifoldExtension (first :: rest) -> ext = first).
Proof.
  intros ext; subst ext.
  destruct (find is_known_extension (first :: rest)) as [k |] eqn:F.
  - apply find_some in F. destruct F as [Hin Hk].
    apply is_known_extension_spec in Hk. subst k.
    unfold or_else. simpl (truthy_string _).
    split; [exact Hin |]. split; [reflexivity |].
    intros Hn; contradiction.
  - unfold or_else. split; [left; reflexivity |]. split; [| reflexivity].
    intros Hin. apply (find_none _ _ F) in Hin.
    assert (K : is_known_extension KNOWN_manifoldExtension = true)
      by (apply is_known_extension_spec; reflexivity).
    rewrite K in Hin. discriminate.
Qed.

(** C6. When no provider is specified and the extension-list probe answers
    with a non-empty list, the contract is classified as manifold, with the
    interface flags of the two ERC-165 probes, and with an extension address
    taken from the list: the catalog's well-known address if it is listed,
    the first listed extension otherwise; with exactly one extension listed,
    it is that one. *)
Theorem manifold_detection (net : Network) (params : MintParams)
    (first : Address) (rest : list Address) :
  let client := net (chainId params) in
  let addr := contractAddress params in
  mp_provider params = None ->
  getExtensions client addr = Ok (first :: rest) ->
  exists ext,
    @detectNFTProvider C net params
      = Ok {| provider := manifold;
              isERC1155 :=
                catch_default (supportsInterface client addr INTERFACE_ID_ERC1155) false;
              isERC721 :=
                catch_default (supportsInterface client addr INTERFACE_ID_ERC721) false;
              extensionAddress := Some ext;
              hasManifoldExtension := Some true;
              claim := None; claimCondition := None |}
    /\ In ext (first :: rest)
    /\ (In KNOWN_manifoldExtension (first :: rest) -> ext = KNOWN_manifoldExtension)
    /\ (~ In KNOWN_manifoldExtension (first :: rest) -> ext = first)
    /\ (rest = [] -> ext = first).
Proof.
  intros client addr Hp Hx.
  exists (or_else (find is_known_extension (first :: rest)) first).
  destruct (chosen_extension first rest) as (Hin & Hk & Hn).
  split; [| split; [exact Hin | split; [exact Hk | split; [exact Hn |]]]].
  - unfold detectNFTProvider. rewrite Hp. fold client addr. rewrite Hx.
    cbn [catch_null]. cbv beta iota zeta.
    replace (Nat.ltb 0 (Datatypes.length (first :: rest))) with true by reflexivity.
    rewrite orb_true_r. reflexivity.
  - intros ->. destruct (String.eqb_spec first KNOWN_manifoldExtension) as [E | E].
    + rewrite Hk; [symmetry; exact E | left; exact E].
    + apply Hn. intros [H | []]. apply E; exact H.
Qed.

End ManifoldDetection.

Lemma manifold_detection_witness :
  exists ext,
    @ProviderDetector.detectNFTProvider value (fun _ => Samples.one_extension_client)
       Samples.plain_request
    = Ok (ProviderDetector.manifold_info true false ext)
    /\ ext = Samples.OTHER_EXTENSION.
Proof.
  destruct (manifold_detection value (fun _ => Samples.one_extension_client)
              Samples.plain_request Samples.OTHER_EXTENSION [] eq_refl eq_refl)
    as (ext & Hd & _ & _ & _ & H1).
  exists ext. split; [exact Hd | apply H1; reflexivity].
Defined.

(** ** Price discovery, Manifold arm *)

Lemma truthy_string_spec (s : string) :
  truthy_string s = true <-> s <> "".
Proof.
  unfold truthy_string. destruct (String.eqb_spec s ""); simpl; split;
    intros H; try discriminate H; try reflexivity; try assumption.
  contradiction.
Qed.

Section Pricing.

Import PriceOptimizer.

Variable client : PublicClient.

(** The arm always produces a quote: its last handler returns the default
    fee. *)
Lemma manifold_quote_total (ext : Address) (st : Store) :
  exists r st', fetchPriceData_manifold client ext st = (Ok r, st').
Proof.
  unfold fetchPriceData_manifold, try_catchM.
  destruct (manifold_try client ext st) as [[r | e] st1]; [eauto |].
  unfold bindM, get_info, lift, ret.
  destruct (callManifoldWithFallback _ _); eauto.
Qed.

(** A well-formed claim passes the three structural checks. *)
Lemma well_formed_claim_passes (v : value) (k : Z) (p : MintParams) :
  well_formed_claim v k -> truthy v = true /\ invalid_claim v p = false.
Proof.
  intros ((fields & ->) & Hcost & Hall). split; [reflexivity |].
  unfold invalid_claim. rewrite Hcost.
  assert (E : existsb (fun prop => is_undefined (get (VObject fields) prop))
                requiredProps = false).
  { revert Hall. generalize requiredProps. intros props Hall.
    induction Hall as [| prop rest Hp _ IH]; [reflexivity |].
    simpl. simpl in IH. rewrite IH.
    destruct (assoc prop fields) eqn:G; try reflexivity.
    exfalso. exact (Hp G). }
  rewrite E. simpl.
  destruct (orb (given (instanceId p)) (given (tokenId p))); reflexivity.
Qed.

(** The quote of a well-formed claim. *)
Lemma price_claim_run (mintFee : option Z) (v : value) (k : Z)
    (p : MintParams) (i : ContractInfo) :
  well_formed_claim v k ->
  let fee := fee_or_zero mintFee in
  let token := get v "erc20" in
  (pays_in_erc20 token = false ->
   price_claim client mintFee v (p, i)
   = (Ok {| mintPrice := Some fee; erc20Details := None;
            totalCost := fee + k; claim := Some (kept_claim v) |},
      (p, with_claim i (kept_claim v))))
  /\ (pays_in_erc20 token = true ->
      forall sym dec,
        erc20_symbol client token = Ok sym ->
        erc20_decimals client token = Ok dec ->
        0 <= dec <= 255 ->
        exists d,
          price_claim client mintFee v (p, i)
          = (Ok {| mintPrice := Some fee; erc20Details := Some d;
                   totalCost := fee; claim := Some (kept_claim v) |},
             (p, with_claim i (kept_claim v)))
          /\ address d = token /\ symbol d = sym /\ decimals d = dec
          /\ (given (recipient p) = false ->
              allowance d = None /\ balance d = None)
          /\ (given (recipient p) = true ->
              allowance d <> None /\ balance d <> None)).
Proof.
  intros W fee token.
  destruct (well_formed_claim_passes v k p W) as [T _].
  destruct W as (_ & Hcost & _).
  unfold price_claim. rewrite T.
  unfold bindM, set_claim, get_params, get_info, lift, ret. simpl.
  fold token. split.
  - intros Pay. rewrite Pay. rewrite Hcost.
    unfold value_or_zero. simpl.
    destruct (Z.eqb_spec k 0) as [-> | _]; simpl; unfold kept_claim, with_claim;
      rewrite ?Hcost; reflexivity.
  - intros Pay sym dec Hs Hd Hrange. rewrite Pay, Hs, Hd. simpl.
    assert (R : orb (dec <? 0) (255 <? dec) = false).
    { apply orb_false_intro; apply Z.ltb_ge; lia. }
    rewrite R. eexists. split; [reflexivity |]. simpl.
    split; [reflexivity |]. split; [reflexivity |]. split; [reflexivity |].
    unfold for_recipient, given.
    destruct (recipient p) as [rc |]; simpl.
    + destruct (truthy_string rc); split; intros Hg;
        try discriminate Hg; split; (reflexivity || discriminate).
    + split; intros Hg; try discriminate Hg; split; reflexivity.
Qed.

(** C7. For a Manifold contract with an extension, when the claim is
    fetched (by the instance id of the request, or by its token id) and is
    well formed, the quote carries the claim and the mint price is the flat
    fee (zero when the fee read failed). If the claim's [erc20] is a
    non-zero address and the token's symbol and decimals can be read, the
    total cost is the flat fee alone and the ERC-20 details are present,
    with allowance and balance undefined when the request has no recipient
    (and defined when it has one). If the claim is paid in the native
    currency (a zero or absent [erc20]), there are no ERC-20 details and
    the total cost is the flat fee plus the claim's cost. In both cases the
    claim is stored on the contract info. *)
Theorem manifold_total_cost (reads : PriceArms.PriceReads) (ext : Address)
    (params params' : MintParams) (ci : ContractInfo) (v : value) (k : Z) :
  provider ci = manifold ->
  extensionAddress ci = Some ext ->
  ext <> "" ->
  fetches_claim client ext params ci v params' ->
  well_formed_claim v k ->
  let fee := fee_or_zero
               (catch_null (callManifoldWithFallback (MINT_FEE client ext) ci)) in
  let token := get v "erc20" in
  let zero_address := orb (negb (truthy token))
                          (negb (differs_from_string token ZERO_ADDRESS)) in
  (zero_address = true ->
   PriceArms.fetchPriceData client reads (params, ci)
   = (Ok {| mintPrice := Some fee; erc20Details := None;
            totalCost := fee + k; claim := Some (kept_claim v) |},
      (params', with_claim ci (kept_claim v))))
  /\ (zero_address = false ->
      forall sym dec,
        erc20_symbol client token = Ok sym ->
        erc20_decimals client token = Ok dec ->
        0 <= dec <= 255 ->
        exists d,
          PriceArms.fetchPriceData client reads (params, ci)
          = (Ok {| mintPrice := Some fee; erc20Details := Some d;
                   totalCost := fee; claim := Some (kept_claim v) |},
             (params', with_claim ci (kept_claim v)))
          /\ address d = token /\ symbol d = sym /\ decimals d = dec
          /\ (given (recipient params) = false ->
              allowance d = None /\ balance d = None)
          /\ (given (recipient params) = true ->
              allowance d <> None /\ balance d <> None))
  /\ (token = VString ZERO_ADDRESS -> zero_address = true)
  /\ (forall t, token = VString t -> t <> "" -> t <> ZERO_ADDRESS ->
        zero_address = false).
Proof.
  intros Hp Hext Hne F W fee token zero_address.
  assert (Z : zero_address = negb (pays_in_erc20 token)).
  { unfold zero_address, pays_in_erc20. rewrite negb_andb. reflexivity. }
  assert (D : dispatch ci = ManifoldBranch ext).
  { unfold dispatch. rewrite Hp, Hext.
    apply truthy_string_spec in Hne. rewrite Hne. reflexivity. }
  assert (Run : forall res st,
            price_claim client
              (catch_null (callManifoldWithFallback (MINT_FEE client ext) ci))
              v (params', ci) = (Ok res, st) ->
            PriceArms.fetchPriceData client reads (params, ci) = (Ok res, st)).
  { intros res st Hrun.
    unfold PriceArms.fetchPriceData, bindM, get_params, get_info. simpl.
    rewrite D. unfold fetchPriceData_manifold, try_catchM.
    assert (Try : manifold_try client ext (params, ci) = (Ok res, st)).
    { unfold manifold_try, bindM, get_params, get_info, lift. simpl.
      destruct (well_formed_claim_passes v k params' W) as [T I].
      destruct F as [n v G B R | n id v s G G' B R S];
        unfold start_claim_read.
      - rewrite G, B. simpl. rewrite R. simpl. rewrite T.
        assert (P : as_pair v = None).
        { destruct W as ((fields & ->) & _). reflexivity. }
        unfold unwrap_claim, bindM, get_params, ret. simpl. rewrite P.
        simpl. rewrite I. exact Hrun.
      - rewrite G, G', B. simpl. rewrite R. simpl.
        unfold unwrap_claim, bindM, get_params, ret, lift, set_instanceId.
        simpl. rewrite G', G. simpl. rewrite S. simpl.
        fold (with_instanceId params s). rewrite I. exact Hrun. }
    rewrite Try. reflexivity. }
  assert (Rec : recipient params' = recipient params).
  { destruct F; reflexivity. }
  destruct (price_claim_run
              (catch_null (callManifoldWithFallback (MINT_FEE client ext) ci))
              v k params' ci W) as [Native Erc].
  fold fee token in Native, Erc.
  split; [| split; [| split]].
  - rewrite Z. intros Pay. apply negb_true_iff in Pay.
    apply Run, Native, Pay.
  - rewrite Z. intros Pay sym dec Hs Hd Hrange. apply negb_false_iff in Pay.
    destruct (Erc Pay sym dec Hs Hd Hrange) as (d & Hrun & Hd').
    exists d. split; [apply Run, Hrun |]. rewrite <- Rec. exact Hd'.
  - intros E. unfold zero_address. rewrite E. reflexivity.
  - intros t E Hne' Hz. unfold zero_address. rewrite E. simpl.
    apply truthy_string_spec in Hne'. unfold truthy_string in Hne'.
    rewrite Hne'. simpl.
    destruct (String.eqb_spec t ZERO_ADDRESS); [contradiction | reflexivity].
Qed.

End Pricing.

Lemma manifold_total_cost_witness :
  (exists d,
     PriceArms.fetchPriceData (Samples.extension_client Samples.USDC)
       (PriceArms.only_price 7) (Samples.instance_request, Samples.manifold_1155)
     = (Ok {| PriceOptimizer.mintPrice := Some 500000000000000;
              PriceOptimizer.erc20Details := Some d;
              PriceOptimizer.totalCost := 500000000000000;
              PriceOptimizer.claim :=
                Some (PriceOptimizer.kept_claim
                        (Samples.claim_tuple 10 Samples.USDC)) |},
        (Samples.instance_request,
         PriceOptimizer.with_claim Samples.manifold_1155
           (PriceOptimizer.kept_claim (Samples.claim_tuple 10 Samples.USDC))))
     /\ PriceOptimizer.allowance d = None
     /\ PriceOptimizer.balance d = None)
  /\ PriceArms.fetchPriceData Samples.token_extension_client
       (PriceArms.only_price 7) (Samples.token_request, Samples.manifold_1155)
     = (Ok {| PriceOptimizer.mintPrice := Some 500000000000000;
              PriceOptimizer.erc20Details := None;
              PriceOptimizer.totalCost := 500000000000000 + 10;
              PriceOptimizer.claim :=
                Some (PriceOptimizer.kept_claim
                        (Samples.claim_tuple 10 ZERO_ADDRESS)) |},
        (PriceOptimizer.with_instanceId Samples.token_request "42",
         PriceOptimizer.with_claim Samples.manifold_1155
           (PriceOptimizer.kept_claim (Samples.claim_tuple 10 ZERO_ADDRESS)))).
Proof.
  assert (W : forall token,
            PriceOptimizer.well_formed_claim (Samples.claim_tuple 10 token) 10).
  { intros token. split; [eexists; reflexivity |]. split; [reflexivity |].
    repeat constructor; discriminate. }
  split.
  - assert (F : PriceOptimizer.fetches_claim
                  (Samples.extension_client Samples.USDC)
                  KNOWN_manifoldExtension Samples.instance_request
                  Samples.manifold_1155 (Samples.claim_tuple 10 Samples.USDC)
                  Samples.instance_request).
    { apply (PriceOptimizer.by_instanceId _ _ _ _ 42); reflexivity. }
    destruct (manifold_total_cost (Samples.extension_client Samples.USDC)
                (PriceArms.only_price 7) KNOWN_manifoldExtension
                Samples.instance_request Samples.instance_request
                Samples.manifold_1155 (Samples.claim_tuple 10 Samples.USDC) 10
                eq_refl eq_refl ltac:(discriminate) F (W Samples.USDC))
      as (_ & Herc & _).
    destruct (Herc eq_refl "USDC" 6 eq_refl eq_refl ltac:(lia))
      as (d & Hrun & _ & _ & _ & Hnone & _).
    exists d. split; [exact Hrun |]. apply Hnone. reflexivity.
  - assert (F : PriceOptimizer.fetches_claim Samples.token_extension_client
                  KNOWN_manifoldExtension Samples.token_request
                  Samples.manifold_1155 (Samples.claim_tuple 10 ZERO_ADDRESS)
                  (PriceOptimizer.with_instanceId Samples.token_request "42")).
    { apply (PriceOptimizer.by_tokenId _ _ _ _ 7 (VBigInt 42)); reflexivity. }
    apply (proj1 (manifold_total_cost Samples.token_extension_client
                    (PriceArms.only_price 7) KNOWN_manifoldExtension
                    Samples.token_request _ Samples.manifold_1155
                    (Samples.claim_tuple 10 ZERO_ADDRESS) 10
                    eq_refl eq_refl ltac:(discriminate) F (W ZERO_ADDRESS))).
    reflexivity.
Defined.

(** The same claim paid in the native currency: the fee plus the cost. *)
Example manifold_native_total :
  exists r,
    fst (PriceOptimizer.fetchPriceData_manifold
           (Samples.extension_client ZERO_ADDRESS) KNOWN_manifoldExtension
           (Samples.instance_request, Samples.manifold_1155)) = Ok r
    /\ PriceOptimizer.totalCost r = 500000000000000 + 10
    /\ PriceOptimizer.erc20Details r = None.
Proof. eexists; vm_compute; repeat split. Qed.

(** ** The metadata resolver *)

Section Metadata.

Import NftMetadata.


Variable host : Host.
Variable client : PublicClient.

(** The address and the token id are parsed before any [try]: a malformed
    one makes the resolver throw. *)
Lemma malformed_input_throws (contractAddress tokenId : string)
    (hint : option ProviderHint) :
  (isAddress contractAddress = false \/ is_ok (BigInt tokenId) = false) ->
  exists e, getTokenMetadataURL host client contractAddress tokenId hint = Throw e.
Proof.
  unfold getTokenMetadataURL, getAddress.
  intros [H | H].
  - rewrite H. simpl. eauto.
  - destruct (isAddress contractAddress); simpl; [| eauto].
    destruct (BigInt tokenId); [discriminate H | simpl; eauto].
Qed.


End Metadata.



(** ** The error classifier *)

Section Classifier.

Import ErrorParser.

Variable lower : string -> string.

(** C9. Whatever the lowering of the text, the category [parseError] returns
    is the first row of the priority table (user-rejected, insufficient-funds,
    wrong-network, contract-revert, allowance, network/RPC) one of whose
    substrings occurs in the lowered text, and unknown when no row matches;
    so a text that matches several categories gets the one of highest
    priority, and a text containing "user rejected" is user-rejected whatever
    else it mentions. A contract revert is sub-classified by the first
    matching row of the revert table (sold out, not yet active, per-wallet
    cap, allowlist). [parseError] is a total function: every input yields a
    [ParsedError]. *)
Theorem parseError_priority (error : Thrown) (context : Context) :
  let errorMessage := lower (raw_text error) in
  let parsed := parseError_with lower error context in
  type parsed = first_match errorMessage priority_table
  /\ (forall t, matches errorMessage t = true ->
        (rank (type parsed) <= rank t)%nat)
  /\ (type parsed = Unknown <-> forall t, matches errorMessage t = false)
  /\ (includes errorMessage "user rejected" = true -> type parsed = UserRejected)
  /\ (type parsed = ContractError ->
        details parsed = Some (first_detail errorMessage revert_table)).
Proof.
  intros errorMessage parsed. subst parsed.
  unfold parseError_with. fold errorMessage.
  assert (M : forall t, matches errorMessage t =
    match t with
    | UserRejected => any_of errorMessage ["user rejected"; "user denied"]
    | InsufficientFunds =>
      any_of errorMessage ["insufficient funds"; "insufficient balance";
                           "not enough"; "exceeds balance"]
    | WrongNetwork => any_of errorMessage ["network"; "chain"; "chainid"]
    | ContractError =>
      any_of errorMessage ["revert"; "execution reverted"; "contract error"]
    | AllowanceError => any_of errorMessage ["allowance"; "approve"]
    | NetworkError => any_of errorMessage ["timeout"; "network"; "fetch"; "rpc"]
    | Unknown => false
    end).
  { intros t. unfold matches, priority_table.
    cbn [existsb fst snd rank Nat.eqb andb].
    destruct t; cbn [rank Nat.eqb andb orb];
      repeat rewrite orb_false_r; reflexivity. }
  assert (Hit : forall t,
            matches errorMessage t = true -> matches errorMessage t = false ->
            False) by (intros t H1 H2; rewrite H1 in H2; discriminate H2).
  cbn [first_match priority_table].
  destruct (any_of errorMessage ["user rejected"; "user denied"]) eqn:E1.
  { cbn [type details]. split; [reflexivity |].
    split; [intros t _; apply Nat.le_0_l |].
    split; [| split; [reflexivity | discriminate]].
    split; [discriminate |].
    intros H. destruct (Hit UserRejected); [rewrite M; reflexivity | apply H]. }
  assert (U : includes errorMessage "user rejected" = true -> False).
  { intros H. unfold any_of in E1. cbn [existsb] in E1. rewrite H in E1.
    discriminate E1. }
  destruct (any_of errorMessage
              ["insufficient funds"; "insufficient balance"; "not enough";
               "exceeds balance"]) eqn:E2.
  { cbn [type details]. split; [reflexivity |].
    split; [intros t Ht; rewrite M in Ht; destruct t; cbv iota in Ht;
            cbn [rank]; try lia; congruence |].
    split; [| split; [intros H; destruct (U H) | discriminate]].
    split; [discriminate |].
    intros H. destruct (Hit InsufficientFunds); [rewrite M; reflexivity | apply H]. }
  destruct (any_of errorMessage ["network"; "chain"; "chainid"]) eqn:E3.
  { cbn [type details]. split; [reflexivity |].
    split; [intros t Ht; rewrite M in Ht; destruct t; cbv iota in Ht;
            cbn [rank]; try lia; congruence |].
    split; [| split; [intros H; destruct (U H) | discriminate]].
    split; [discriminate |].
    intros H. destruct (Hit WrongNetwork); [rewrite M; reflexivity | apply H]. }
  destruct (any_of errorMessage
              ["revert"; "execution reverted"; "contract error"]) eqn:E4.
  { cbn [type details]. split; [reflexivity |].
    split; [intros t Ht; rewrite M in Ht; destruct t; cbv iota in Ht;
            cbn [rank]; try lia; congruence |].
    split; [| split; [intros H; destruct (U H) |]].
    - split; [discriminate |].
      intros H. destruct (Hit ContractError); [rewrite M; reflexivity | apply H].
    - intros _. unfold revert_details, revert_table. cbn [first_detail].
      reflexivity. }
  destruct (any_of errorMessage ["allowance"; "approve"]) eqn:E5.
  { cbn [type details]. split; [reflexivity |].
    split; [intros t Ht; rewrite M in Ht; destruct t; cbv iota in Ht;
            cbn [rank]; try lia; congruence |].
    split; [| split; [intros H; destruct (U H) | discriminate]].
    split; [discriminate |].
    intros H. destruct (Hit AllowanceError); [rewrite M; reflexivity | apply H]. }
  destruct (any_of errorMessage ["timeout"; "network"; "fetch"; "rpc"]) eqn:E6.
  { cbn [type details]. split; [reflexivity |].
    split; [intros t Ht; rewrite M in Ht; destruct t; cbv iota in Ht;
            cbn [rank]; try lia; congruence |].
    split; [| split; [intros H; destruct (U H) | discriminate]].
    split; [discriminate |].
    intros H. destruct (Hit NetworkError); [rewrite M; reflexivity | apply H]. }
  cbn [type details]. split; [reflexivity |].
  split; [intros t Ht; rewrite M in Ht; destruct t; cbv iota in Ht;
          congruence |].
  split; [| split; [intros H; destruct (U H) | discriminate]].
  split; [| reflexivity].
  intros _ t. rewrite M. destruct t; reflexivity.
Qed.

End Classifier.

(** Representative texts, classified with the ASCII lowering. *)
Example parseError_user_rejected_first :
  ErrorParser.type
    (ErrorParser.parseError
       (ErrorParser.ErrorObject
          "User Rejected the request (insufficient funds for gas)")
       ErrorParser.CtxMint)
  = ErrorParser.UserRejected.
Proof. reflexivity. Qed.

Example parseError_revert_sold_out :
  let parsed :=
    ErrorParser.parseError
      (ErrorParser.OtherValue "Execution REVERTED: Sold Out") ErrorParser.CtxMint in
  ErrorParser.type parsed = ErrorParser.ContractError
  /\ ErrorParser.details parsed
     = Some "This NFT is sold out or has reached maximum supply.".
Proof. split; reflexivity. Qed.

(** "network" selects wrong-network before the transport category is
    reached; the transport category is reached by its other substrings. *)
Example parseError_network_texts :
  ErrorParser.type
    (ErrorParser.parseError (ErrorParser.ErrorObject "Network request failed")
       ErrorParser.CtxMint)
  = ErrorParser.WrongNetwork
  /\ ErrorParser.type
       (ErrorParser.parseError (ErrorParser.ErrorObject "Request timeout")
          ErrorParser.CtxApproval)
     = ErrorParser.NetworkError
  /\ ErrorParser.type
       (ErrorParser.parseError (ErrorParser.OtherValue "something odd")
          ErrorParser.CtxMint)
     = ErrorParser.Unknown.
Proof. repeat split; reflexivity. Qed.

Lemma parseError_priority_witness :
  ErrorParser.type
    (ErrorParser.parseError
       (ErrorParser.ErrorObject "MetaMask: User Rejected; insufficient funds")
       ErrorParser.CtxApproval)
  = ErrorParser.UserRejected.
Proof.
  apply (proj1 (proj2 (proj2 (proj2
           (parseError_priority toLowerCase
              (ErrorParser.ErrorObject "MetaMask: User Rejected; insufficient funds")
              ErrorParser.CtxApproval))))).
  reflexivity.
Defined.

(** * Further properties of the code *)

(** ** The reducer beyond the claims *)

Section ReducerRuns.

Import MintReducer MintRuns.

(** X1. The success step is entered only by a TX_SUCCESS dispatched while
    the transaction kind is "mint": any other dispatch that ends in success
    started there. *)
Theorem success_only_by_mint_receipt (s : MintState) (a : MintAction) :
  step (mintReducer s a) = StepSuccess ->
  step s = StepSuccess \/ exists h, a = TX_SUCCESS h /\ txType s = TxMint.
Proof.
  destruct a; simpl; try discriminate; try (intros H; left; exact H).
  - destruct (flag_truthy _); discriminate.
  - destruct (txType s) eqn:K; intros H;
      [left; exact H | right; eauto | left; exact H].
  - destruct (erc20Details (priceData s)); intros H; left; exact H.
Qed.

Lemma success_only_by_mint_receipt_witness :
  step Samples.waiting_for_mint = StepSuccess
  \/ exists h, TX_SUCCESS "0xabc" = TX_SUCCESS h
               /\ txType Samples.waiting_for_mint = TxMint.
Proof.
  apply (success_only_by_mint_receipt Samples.waiting_for_mint (TX_SUCCESS "0xabc")).
  reflexivity.
Defined.

Lemma approval_consistent_step (s : MintState) (a : MintAction) :
  approval_consistent s -> approval_consistent (mintReducer s a).
Proof.
  unfold approval_consistent. intros P.
  destruct a; simpl; try exact P.
  - (* DETECT_SUCCESS *)
    intros d i c a b Hd Hi Hc Ha Hb. inversion Hi; subst i; clear Hi.
    unfold detect_needsApproval in Hd.
    destruct (erc20Details p_priceData) as [d0 |]; [| discriminate Hd].
    inversion Hd; subst d; clear Hd. simpl in Ha, Hb.
    rewrite Hc, Ha in Hb. inversion Hb; reflexivity.
  - (* APPROVE_SUCCESS *)
    intros d i c a b Hd Hi Hc Ha Hb.
    destruct (erc20Details (priceData s)) as [d0 |]; [| discriminate Hd].
    inversion Hd; subst d; clear Hd. simpl in Ha, Hb.
    unfold known_cost_or_zero in Ha. rewrite Hi, Hc in Ha.
    inversion Hb; subst b. inversion Ha; subst a.
    destruct (Z.eqb_spec (cost c) 0) as [E |]; [rewrite E |];
      symmetry; apply Z.ltb_irrefl.
  - (* TX_SUCCESS *)
    destruct (txType s); simpl; exact P.
  - (* RESET *)
    intros d i c a b Hd. discriminate Hd.
  - (* UPDATE_ALLOWANCE *)
    destruct (erc20Details (priceData s)) as [d0 |] eqn:E;
      [| intros d i c a b Hd; rewrite E in Hd; discriminate Hd].
    simpl. intros d i c a b Hd Hi Hc Ha Hb.
    inversion Hd; subst d; clear Hd. simpl in Ha, Hb.
    rewrite Hi, Hc in Hb. inversion Ha; subst a. inversion Hb; reflexivity.
Qed.

Lemma settled_step (s : MintState) (a : MintAction) :
  settled s -> settled (mintReducer s a).
Proof.
  unfold settled. intros P.
  assert (Fresh : forall (st : MintStep) (l : bool) (t : TransactionType)
                         (h e : option string),
            (st = StepSuccess ->
             l = false /\ t = TxNull /\ exists x, h = Some x) ->
            (st = StepError -> l = false /\ exists m, e = Some m) ->
            (st = StepValidationError -> l = false) ->
            (st = StepSuccess ->
             l = false /\ t = TxNull /\ exists x, h = Some x)
            /\ (st = StepError -> l = false /\ exists m, e = Some m)
            /\ (st = StepValidationError -> l = false)) by (intros; tauto).
  destruct a; simpl; try exact P;
    try (apply Fresh; intros H; try discriminate H; eauto; fail).
  - (* DETECT_SUCCESS *)
    apply Fresh; intros H; try reflexivity;
      destruct (flag_truthy (detect_needsApproval p_contractInfo p_priceData));
      try discriminate H.
  - (* TX_SUCCESS *)
    destruct (txType s) eqn:K; simpl;
      [revert P; rewrite ?K; tauto | | revert P; rewrite ?K; tauto].
    apply Fresh; intros H; try discriminate H; eauto.
  - (* UPDATE_ALLOWANCE *)
    destruct (erc20Details (priceData s)); simpl; exact P.
Qed.

Lemma run_invariant (P : MintState -> Prop) :
  (forall s a, P s -> P (mintReducer s a)) ->
  forall actions s, P s -> P (fold_left mintReducer actions s).
Proof.
  intros Step actions. induction actions as [| a rest IH]; simpl; intros s Ps.
  - exact Ps.
  - apply IH, Step, Ps.
Qed.

(** X2. In every state reachable from the initial state, the approval flag
    agrees with the stored allowance and the stored claim cost: whenever all
    three are known, the flag is set exactly when the allowance is below the
    cost. *)
Theorem approval_flag_consistent (actions : list MintAction) :
  approval_consistent (run actions).
Proof.
  unfold run. apply run_invariant; [exact approval_consistent_step |].
  intros d i c a b Hd. discriminate Hd.
Qed.

(** X3. In every reachable state: in the success step nothing is loading,
    no transaction is in flight and a transaction hash is recorded; in the
    error step nothing is loading and an error message is recorded; in the
    validation-error step nothing is loading. *)
Theorem resting_steps_are_settled (actions : list MintAction) :
  settled (run actions).
Proof.
  unfold run. apply run_invariant; [exact settled_step |].
  unfold settled; simpl. split; [| split]; intros H; discriminate H.
Qed.

(** X4. A confirmed approval, from any state: after APPROVE_START,
    APPROVE_TX_SUBMITTED and APPROVE_SUCCESS the step is sheet, nothing is
    loading, the hash and the transaction kind are cleared, and ERC-20
    details (if any) say that no approval is needed, with the claim cost (or
    zero without a claim) as the allowance; a receipt arriving afterwards
    (TX_SUCCESS) changes nothing. *)
Theorem approval_round_result (s : MintState) (h h' : string) :
  let s' := fold_left mintReducer (approval_round h) s in
  step s' = StepSheet /\ isLoading s' = false /\ txHash s' = None
  /\ txType s' = TxNull /\ contractInfo s' = contractInfo s
  /\ (forall d, erc20Details (priceData s') = Some d ->
        needsApproval d = Some false
        /\ allowance d = Some (known_cost_or_zero (contractInfo s)))
  /\ (erc20Details (priceData s') = None <-> erc20Details (priceData s) = None)
  /\ mintReducer s' (TX_SUCCESS h') = s'.
Proof.
  simpl. do 5 (split; [reflexivity |]).
  split; [| split; [| reflexivity]].
  - intros d H. destruct (erc20Details (priceData s)); simpl in H;
      inversion H; split; reflexivity.
  - destruct (erc20Details (priceData s)); split; intros H;
      try discriminate H; reflexivity.
Qed.

(** X5. UPDATE_ALLOWANCE never changes the step (nor anything outside the
    ERC-20 details), does nothing without ERC-20 details, and otherwise
    records the allowance with the flag set exactly when a claim is stored
    whose cost exceeds it; dispatching it twice is the same as once. *)
Theorem update_allowance_effect (s : MintState) (a : Z) :
  let s' := mintReducer s (UPDATE_ALLOWANCE a) in
  step s' = step s /\ contractInfo s' = contractInfo s
  /\ txHash s' = txHash s /\ txType s' = txType s
  /\ isLoading s' = isLoading s /\ error s' = error s
  /\ mintPrice (priceData s') = mintPrice (priceData s)
  /\ totalCost (priceData s') = totalCost (priceData s)
  /\ (erc20Details (priceData s) = None -> s' = s)
  /\ (forall d, erc20Details (priceData s') = Some d ->
        allowance d = Some a
        /\ (needsApproval d = Some true <->
            exists i c, contractInfo s = Some i /\ claim i = Some c
                        /\ a < cost c))
  /\ mintReducer s' (UPDATE_ALLOWANCE a) = s'.
Proof.
  simpl. destruct (erc20Details (priceData s)) as [d0 |] eqn:E; simpl.
  - do 8 (split; [reflexivity |]).
    split; [intros H; discriminate H |].
    split; [| reflexivity].
    intros d H. inversion H; subst d; clear H. simpl.
    split; [reflexivity |]. split.
    + intros Hb.
      destruct (contractInfo s) as [i |]; [| discriminate Hb].
      destruct (claim i) as [c |] eqn:Hc; [| discriminate Hb].
      exists i, c. split; [reflexivity |]. split; [exact Hc |].
      inversion Hb as [Hlt]. apply Z.ltb_lt; exact Hlt.
    + intros (i & c & Hi & Hc & Hlt).
      rewrite Hi, Hc. f_equal. apply Z.ltb_lt; exact Hlt.
  - do 8 (split; [reflexivity |]).
    split; [reflexivity |].
    split; [intros d H; rewrite E in H; discriminate H |].
    rewrite E; reflexivity.
Qed.

(** X6. A mint from any state: after MINT_START, MINT_TX_SUBMITTED and a
    TX_SUCCESS the step is success with the hash of the receipt, nothing is
    loading, no transaction is in flight, and the contract info, the quote,
    the error and the validation errors are those of the starting state. An
    approval receipt in the place of the mint receipt leaves the state
    waiting. *)
Theorem mint_round_result (s : MintState) (h h' : string) :
  let s' := fold_left mintReducer [MINT_START; MINT_TX_SUBMITTED h; TX_SUCCESS h'] s in
  let w := fold_left mintReducer [APPROVE_START; APPROVE_TX_SUBMITTED h; TX_SUCCESS h'] s in
  step s' = StepSuccess /\ txHash s' = Some h' /\ isLoading s' = false
  /\ txType s' = TxNull /\ contractInfo s' = contractInfo s
  /\ priceData s' = priceData s /\ error s' = error s
  /\ validationErrors s' = validationErrors s
  /\ step w = StepWaiting /\ txHash w = Some h /\ txType w = TxApproval.
Proof. simpl. repeat split. Qed.

(** X7. The contract info is replaced only by DETECT_SUCCESS and RESET, the
    validation errors only by VALIDATION_ERROR and RESET, and the recorded
    hash only by a submission, a mint receipt, APPROVE_SUCCESS and RESET. *)
Theorem reducer_frame (s : MintState) (a : MintAction) :
  (contractInfo (mintReducer s a) <> contractInfo s ->
   (exists ci pd, a = DETECT_SUCCESS ci pd) \/ a = RESET)
  /\ (validationErrors (mintReducer s a) <> validationErrors s ->
      (exists errs, a = VALIDATION_ERROR errs) \/ a = RESET)
  /\ (txHash (mintReducer s a) <> txHash s ->
      (exists h, a = APPROVE_TX_SUBMITTED h \/ a = MINT_TX_SUBMITTED h
                 \/ (a = TX_SUCCESS h /\ txType s = TxMint))
      \/ a = APPROVE_SUCCESS \/ a = RESET).
Proof.
  assert (Same : forall (A : Type) (x : A) (Q : Prop), (x <> x -> Q))
    by (intros A x Q H; exfalso; apply H; reflexivity).
  destruct a; simpl;
    (split; [| split]); try apply Same; intros H; eauto.
  - (* TX_SUCCESS, contract info *)
    exfalso; apply H; destruct (txType s); reflexivity.
  - (* TX_SUCCESS, validation errors *)
    exfalso; apply H; destruct (txType s); reflexivity.
  - (* TX_SUCCESS, hash *)
    destruct (txType s) eqn:K; try (exfalso; apply H; reflexivity).
    left. exists payload. right; right. split; reflexivity.
  - (* UPDATE_ALLOWANCE *)
    exfalso; apply H; destruct (erc20Details (priceData s)); reflexivity.
  - exfalso; apply H; destruct (erc20Details (priceData s)); reflexivity.
  - exfalso; apply H; destruct (erc20Details (priceData s)); reflexivity.
Qed.

Lemma reducer_frame_witness :
  (exists ci pd, DETECT_SUCCESS Samples.info_cost_10
                   (Samples.quote_with_allowance None) = DETECT_SUCCESS ci pd)
  \/ DETECT_SUCCESS Samples.info_cost_10 (Samples.quote_with_allowance None)
     = RESET.
Proof.
  apply (proj1 (reducer_frame initialState
                  (DETECT_SUCCESS Samples.info_cost_10
                     (Samples.quote_with_allowance None)))).
  simpl. discriminate.
Defined.

End ReducerRuns.

(** ** Parameter validation *)

Section ValidationFacts.

Import ProviderConfigs Validation.

Variable C : Type.
Variable now : Z.

Lemma required_missing (p : NFTProvider) (params : MintParams) :
  filter (fun param => negb (param_present params param))
         (requiredParams (PROVIDER_CONFIGS p)) = []
  <-> names_contract params.
Proof.
  assert (R : requiredParams (PROVIDER_CONFIGS p) = ["contractAddress"; "chainId"])
    by (destruct p; reflexivity).
  rewrite R. unfold names_contract. cbn.
  unfold truthy_string.
  destruct (String.eqb_spec (contractAddress params) "") as [E | E];
    destruct (Z.eqb_spec (chainId params) 0) as [Z0 | Z0]; cbn;
    (split; intros K;
     [ try discriminate K; split; assumption
     | destruct K as [K1 K2]; try contradiction; reflexivity ]).
Qed.

Lemma length_zero {A} (l : list A) : Nat.eqb (List.length l) 0 = true <-> l = [].
Proof. destruct l; simpl; split; intros H; try reflexivity; discriminate H. Qed.

Lemma app_nil_iff {A} (l1 l2 : list A) : (l1 ++ l2)%list = [] <-> l1 = [] /\ l2 = [].
Proof.
  split; [apply app_eq_nil | intros [-> ->]; reflexivity].
Qed.

Lemma flag_list_nil {A} (b : bool) (x : A) :
  (if b then [x] else []) = [] <-> b = false.
Proof. destruct b; split; intros H; try reflexivity; discriminate H. Qed.

(** X8. A Manifold request with neither an instance id nor a token id is
    invalid: the errors carry the message that names both fields, and the
    missing parameters carry "instanceId or tokenId". *)
Theorem manifold_without_ids_invalid (params : MintParams)
    (ci : NFTContractInfo C) :
  provider ci = manifold ->
  PriceOptimizer.given (instanceId params) = false ->
  PriceOptimizer.given (tokenId params) = false ->
  let v := validateParameters now params ci in
  isValid v = false
  /\ In MSG_MANIFOLD_IDS (errors v)
  /\ In "instanceId or tokenId" (missingParams v)
  /\ includes MSG_MANIFOLD_IDS "instanceId" = true
  /\ includes MSG_MANIFOLD_IDS "tokenId" = true.
Proof.
  intros Hp Hi Ht. unfold validateParameters, manifold_checks.
  rewrite Hp, Hi, Ht. cbn [negb andb].
  cbn [isValid errors missingParams].
  split; [| split; [left; reflexivity | split; [| split; reflexivity]]].
  - apply andb_false_intro2. reflexivity.
  - apply in_or_app. right. left; reflexivity.
Qed.

(** X9. A Manifold request is valid exactly when it names the contract and
    a non-zero chain id, gives an instance id or a token id, the instance id
    (when given) reads as a non-negative integer by [parseInt], and the
    stored claim has no non-zero merkle root. *)
Theorem manifold_validity (params : MintParams) (ci : NFTContractInfo C) :
  provider ci = manifold ->
  (isValid (validateParameters now params ci) = true
   <-> names_contract params
       /\ (PriceOptimizer.given (instanceId params) = true
           \/ PriceOptimizer.given (tokenId params) = true)
       /\ (PriceOptimizer.given (instanceId params) = true ->
           exists n, parseInt (PriceOptimizer.text (instanceId params)) = Some n
                     /\ 0 <= n)
       /\ claim_needs_proof ci = false).
Proof.
  intros Hp. unfold validateParameters, manifold_checks. rewrite Hp.
  cbn [isValid]. rewrite andb_true_iff, !length_zero, !app_nil_iff.
  rewrite required_missing, !flag_list_nil.
  set (gi := PriceOptimizer.given (instanceId params)).
  set (gt := PriceOptimizer.given (tokenId params)).
  set (parsed := parseInt (PriceOptimizer.text (instanceId params))).
  assert (N : nan_or_negative parsed = false
              <-> exists n, parsed = Some n /\ 0 <= n).
  { unfold nan_or_negative. destruct parsed as [z |].
    - destruct (Z.ltb_spec z 0) as [L | L]; split; intros K.
      + discriminate K.
      + destruct K as (n & Hn & Hge). inversion Hn; subst n. lia.
      + exists z. split; [reflexivity | exact L].
      + reflexivity.
    - split; intros K; [discriminate K |].
      destruct K as (n & Hn & _). discriminate Hn. }
  destruct gi, gt; cbn [negb andb]; rewrite ?N; intuition congruence.
Qed.

(** X10. For every other provider the request is valid exactly when it
    names the contract and a non-zero chain id and, for thirdweb, the stored
    claim condition has no non-zero merkle root and has started; no provider
    but manifold and thirdweb ever produces an error. *)
Theorem other_providers_validity (params : MintParams) (ci : NFTContractInfo C) :
  provider ci <> manifold ->
  let v := validateParameters now params ci in
  (isValid v = true
   <-> names_contract params
       /\ (provider ci = thirdweb ->
           condition_needs_proof ci = false
           /\ condition_not_started ci now = false))
  /\ (provider ci <> thirdweb -> errors v = []).
Proof.
  intros Hp. unfold validateParameters, thirdweb_checks.
  destruct (provider ci) eqn:P; try (exfalso; apply Hp; reflexivity);
    cbn [isValid errors]; rewrite andb_true_iff, !length_zero;
    match goal with
    | |- context [requiredParams (PROVIDER_CONFIGS ?p)] =>
      rewrite (required_missing p params)
    end.
  1-4: split; [| intros _; reflexivity]; split;
    [ intros [H _]; split; [exact H | intros D; discriminate D]
    | intros [H _]; split; [exact H | reflexivity] ].
  split; [| intros D; exfalso; apply D; reflexivity].
  cbn [app]. rewrite app_nil_iff, !flag_list_nil. split.
  - intros [H [H1 H2]]. split; [exact H | intros _; split; assumption].
  - intros [H K]. destruct (K eq_refl) as [H1 H2]. auto.
Qed.

End ValidationFacts.

Lemma manifold_without_ids_invalid_witness :
  Validation.isValid
    (Validation.validateParameters 0 Samples.plain_request Samples.manifold_1155)
  = false.
Proof.
  apply (manifold_without_ids_invalid value 0 Samples.plain_request
           Samples.manifold_1155); reflexivity.
Defined.

Lemma manifold_validity_witness :
  Validation.isValid
    (Validation.validateParameters 0 Samples.instance_request Samples.manifold_1155)
  = true.
Proof.
  apply (proj2 (manifold_validity value 0 Samples.instance_request
                  Samples.manifold_1155 eq_refl)).
  split; [split; discriminate |].
  split; [left; reflexivity |].
  split; [| reflexivity].
  intros _. exists 42. split; [reflexivity | lia].
Defined.

Lemma other_providers_validity_witness :
  Validation.isValid
    (Validation.validateParameters 0 Samples.plain_request
       (@ProviderDetector.basic_info value generic false true))
  = true.
Proof.
  apply (proj2 (proj1 (other_providers_validity value 0 Samples.plain_request
                         (ProviderDetector.basic_info generic false true)
                         ltac:(discriminate)))).
  split; [split; discriminate | intros D; discriminate D].
Defined.

(** ** Price discovery beyond the claims *)

Section PricingMore.

Import PriceOptimizer PriceArms.

Variable client : PublicClient.

(** X11. Reading the extension through both ABIs: the read of the detected
    type's ABI wins when it succeeds, the other ABI's read is used when it
    fails (its error is the one rethrown when both fail); so the call
    succeeds exactly when one of the two reads does, whatever type was
    detected. *)
Theorem fallback_read_outcome (A : Type) (read : Abi -> Result A)
    (ci : ContractInfo) :
  let primary := if isERC721 ci then MANIFOLD_ERC721_EXTENSION_ABI
                 else MANIFOLD_ERC1155_EXTENSION_ABI in
  let secondary := if isERC721 ci then MANIFOLD_ERC1155_EXTENSION_ABI
                   else MANIFOLD_ERC721_EXTENSION_ABI in
  (forall a, read primary = Ok a -> callManifoldWithFallback read ci = Ok a)
  /\ (forall e, read primary = Throw e ->
        callManifoldWithFallback read ci = read secondary)
  /\ is_ok (callManifoldWithFallback read ci)
     = orb (is_ok (read MANIFOLD_ERC721_EXTENSION_ABI))
           (is_ok (read MANIFOLD_ERC1155_EXTENSION_ABI)).
Proof.
  unfold callManifoldWithFallback.
  destruct (isERC721 ci); cbv zeta.
  - split; [intros a ->; reflexivity |].
    split; [intros e ->; simpl; destruct (read _); reflexivity |].
    destruct (read MANIFOLD_ERC721_EXTENSION_ABI); simpl; [reflexivity |].
    destruct (read MANIFOLD_ERC1155_EXTENSION_ABI); reflexivity.
  - split; [intros a ->; reflexivity |].
    split; [intros e ->; simpl; destruct (read _); reflexivity |].
    destruct (read MANIFOLD_ERC1155_EXTENSION_ABI); simpl;
      [apply eq_sym, orb_true_r |].
    destruct (read MANIFOLD_ERC721_EXTENSION_ABI); reflexivity.
Qed.

(** X12. Without an instance id and a token id, and when the claim read is
    rejected through both ABIs, the Manifold quote is the flat fee alone
    (zero when the fee read failed too, not the default fee): mint price and
    total cost are the fee, there are no ERC-20 details and no claim, and
    neither the request nor the contract info is changed. *)
Theorem manifold_fee_only (ext : Address) (params : MintParams)
    (ci : ContractInfo) :
  (given (instanceId params) = false /\ given (tokenId params) = false)
  \/ (exists n e,
        given (instanceId params) = true
        /\ BigInt (text (instanceId params)) = Ok n
        /\ callManifoldWithFallback
             (fun abi => getClaim client ext abi (contractAddress params) n) ci
           = Throw e) ->
  fetchPriceData_manifold client ext (params, ci)
  = (Ok (fee_only (catch_null (callManifoldWithFallback (MINT_FEE client ext) ci))),
     (params, ci)).
Proof.
  intros H.
  assert (Null : exists cp,
            start_claim_read client ext params ci = Ok cp
            /\ match cp with
               | Some p => catch_default p VNull
               | None => VNull
               end = VNull).
  { unfold start_claim_read.
    destruct H as [[Hi Ht] | (n & e & Hi & Hn & Hr)].
    - rewrite Hi, Ht. exists None. split; reflexivity.
    - rewrite Hi, Hn. simpl. eexists. split; [reflexivity |].
      rewrite Hr. reflexivity. }
  destruct Null as (cp & Hcp & Hnull).
  unfold fetchPriceData_manifold, try_catchM, manifold_try, bindM, get_params,
    get_info, lift. simpl. rewrite Hcp. rewrite Hnull. simpl.
  unfold invalid_claim, price_claim. simpl. reflexivity.
Qed.

(** X13. When the identifier in use is not an integer literal, the [try]
    of the Manifold arm throws before any claim is read; the quote is then
    the fee read again, as mint price and total cost, or, when that read
    fails through both ABIs, the default fee of 0.0005 ETH as total cost
    with no mint price. The request and the contract info are unchanged. *)
Theorem manifold_malformed_id (ext : Address) (params : MintParams)
    (ci : ContractInfo) (e : string) :
  (given (instanceId params) = true
   /\ BigInt (text (instanceId params)) = Throw e)
  \/ (given (instanceId params) = false /\ given (tokenId params) = true
      /\ BigInt (text (tokenId params)) = Throw e) ->
  fetchPriceData_manifold client ext (params, ci)
  = (Ok (handler_quote client ext ci), (params, ci)).
Proof.
  intros H.
  assert (T : start_claim_read client ext params ci = Throw e).
  { unfold start_claim_read.
    destruct H as [[Hi Hb] | (Hi & Ht & Hb)].
    - rewrite Hi, Hb. reflexivity.
    - rewrite Hi, Ht, Hb. reflexivity. }
  unfold fetchPriceData_manifold, try_catchM, manifold_try, bindM, get_params,
    get_info, lift, handler_quote, ret. simpl. rewrite T. simpl.
  destruct (callManifoldWithFallback (MINT_FEE client ext) ci); reflexivity.
Qed.

Lemma unwrap_claim_frame (v : value) (p p' : MintParams) (i i' : ContractInfo)
    (res : Result value) :
  unwrap_claim v (p, i) = (res, (p', i')) ->
  same_request_but_instanceId p p' /\ i' = i
  /\ (given (instanceId p) = true -> p' = p).
Proof.
  assert (Refl : same_request_but_instanceId p p)
    by (repeat split).
  unfold unwrap_claim, bindM, get_params, lift, ret, set_instanceId; simpl.
  destruct (as_pair v) as [[a b] |].
  - destruct (given (tokenId p)).
    + destruct (given (instanceId p)); simpl.
      * intros H; inversion H; subst; auto.
      * destruct (toString a); simpl; intros H; inversion H; subst;
          (split; [repeat split | split; [reflexivity | discriminate]]).
    + intros H; inversion H; subst; auto.
  - intros H; inversion H; subst; auto.
Qed.

Lemma price_claim_frame (mintFee : option Z) (v : value)
    (p p' : MintParams) (i i' : ContractInfo) (res : Result PriceData) :
  price_claim client mintFee v (p, i) = (res, (p', i')) ->
  p' = p /\ same_contract i i'.
Proof.
  assert (Refl : same_contract i i) by (repeat split).
  unfold price_claim, bindM, set_claim, get_params, get_info, lift, ret.
  destruct (truthy v); simpl; [| intros H; inversion H; subst; auto].
  destruct (pays_in_erc20 (get v "erc20")).
  - destruct (erc20_symbol client (get v "erc20")); simpl;
      [| intros H; inversion H; subst; split; [reflexivity | repeat split]].
    destruct (erc20_decimals client (get v "erc20")); simpl;
      [| intros H; inversion H; subst; split; [reflexivity | repeat split]].
    destruct (orb _ _); intros H; inversion H; subst;
      (split; [reflexivity | repeat split]).
  - destruct (bigint_add _ _); simpl; intros H; inversion H; subst;
      (split; [reflexivity | repeat split]).
Qed.

Lemma manifold_arm_frame (ext : Address) (p p' : MintParams)
    (i i' : ContractInfo) (res : Result PriceData) :
  fetchPriceData_manifold client ext (p, i) = (res, (p', i')) ->
  same_request_but_instanceId p p' /\ same_contract i i'
  /\ (given (instanceId p) = true -> p' = p).
Proof.
  assert (ReflP : same_request_but_instanceId p p) by (repeat split).
  assert (ReflI : same_contract i i) by (repeat split).
  assert (Try : forall r (q : MintParams) (j : ContractInfo),
            manifold_try client ext (p, i) = (r, (q, j)) ->
            same_request_but_instanceId p q /\ same_contract i j
            /\ (given (instanceId p) = true -> q = p)).
  { intros r q j. unfold manifold_try, bindM, get_params, get_info, lift.
    simpl.
    destruct (start_claim_read client ext p i) as [cp | e];
      [| intros H; inversion H; subst; auto].
    set (mintFee := catch_null (callManifoldWithFallback (MINT_FEE client ext) i)).
    set (claimData := match cp with
                      | Some pr => catch_default pr VNull
                      | None => VNull
                      end).
    assert (Tail : forall (v : value) (p1 : MintParams),
              same_request_but_instanceId p p1 ->
              (given (instanceId p) = true -> p1 = p) ->
              (if invalid_claim v p1 then ret (fee_only mintFee)
               else price_claim client mintFee v) (p1, i) = (r, (q, j)) ->
              same_request_but_instanceId p q /\ same_contract i j
              /\ (given (instanceId p) = true -> q = p)).
    { intros v p1 S1 G1 Hv. destruct (invalid_claim v p1).
      - unfold ret in Hv. inversion Hv; subst. auto.
      - destruct (price_claim_frame _ _ _ _ _ _ _ Hv) as [-> Sj]. auto. }
    destruct (truthy claimData).
    - destruct (unwrap_claim claimData (p, i)) as [[v | e] [p1 i1]] eqn:U;
        destruct (unwrap_claim_frame _ _ _ _ _ _ U) as (S1 & -> & G1); simpl.
      + apply Tail; assumption.
      + intros H; inversion H; subst. auto.
    - unfold ret. simpl. apply Tail; auto. }
  unfold fetchPriceData_manifold, try_catchM.
  destruct (manifold_try client ext (p, i)) as [[r0 | e] [q j]];
    destruct (Try _ _ _ eq_refl) as (Sq & Sj & Gq).
  - intros H; inversion H; subst. auto.
  - unfold bindM, get_info, lift, ret.
    destruct (callManifoldWithFallback _ _); simpl;
      intros H; inversion H; subst; auto.
Qed.

Variable reads : PriceReads.

Lemma thirdweb_arm_frame (p p' : MintParams) (i i' : ContractInfo)
    (res : Result PriceData) :
  fetch_thirdweb client reads (p, i) = (res, (p', i')) ->
  p' = p /\ same_contract i i'.
Proof.
  assert (ReflI : same_contract i i) by (repeat split).
  assert (Try : forall r (q : MintParams) (j : ContractInfo),
            thirdweb_try client reads (p, i) = (r, (q, j)) ->
            q = p /\ same_contract i j).
  { intros r q j. unfold thirdweb_try, bindM, get_params, lift, ret,
      set_claimCondition. simpl.
    destruct (read_claimCondition client (contractAddress p)) as [cc | e];
      [| intros H; inversion H; subst; auto].
    destruct (as_pair cc) as [[a c] |];
      [| intros H; inversion H; subst; auto].
    destruct (is_zero_bigint c); [intros H; inversion H; subst; auto |].
    destruct (last_condition_id a c) as [id | e];
      [| intros H; inversion H; subst; auto].
    destruct (getClaimConditionById reads (contractAddress p) id) as [cond | e];
      [| intros H; inversion H; subst; auto].
    simpl.
    destruct (condition_pays_in_erc20 (currency cond)).
    - destruct (erc20_symbol client _); simpl;
        [| intros H; inversion H; subst; split; [reflexivity | repeat split]].
      destruct (erc20_decimals client _); simpl;
        [| intros H; inversion H; subst; split; [reflexivity | repeat split]].
      destruct (orb _ _); intros H; inversion H; subst;
        (split; [reflexivity | repeat split]).
    - destruct (ProviderConfigs.amount_or_one p); simpl; intros H; inversion H; subst;
        (split; [reflexivity | repeat split]). }
  unfold fetch_thirdweb, try_catchM.
  destruct (thirdweb_try client reads (p, i)) as [[r0 | e] [q j]];
    destruct (Try _ _ _ eq_refl) as (-> & Sj).
  - intros H; inversion H; subst. auto.
  - unfold ret. intros H; inversion H; subst. auto.
Qed.

(** X14. The promise of [fetchPriceData] rejects in one case only: in the
    NFTs2Me arm, for an amount that [BigInt] refuses (a number with a
    fractional part, or an infinite one). There the third pricing pattern
    converts the amount outside every [try], so the RangeError of the
    conversion escapes whatever the chain answers, and the arguments are
    left as they were. In every other case a quote is returned. *)
Theorem fetchPriceData_rejects_only_for_amount (p : MintParams)
    (i : ContractInfo) :
  (forall e, dispatch i = Nfts2meBranch -> ProviderConfigs.amount_or_one p = Throw e ->
     fetchPriceData client reads (p, i) = (Throw e, (p, i)))
  /\ (dispatch i <> Nfts2meBranch \/ is_ok (ProviderConfigs.amount_or_one p) = true ->
      exists r st', fetchPriceData client reads (p, i) = (Ok r, st')).
Proof.
  unfold fetchPriceData, bindM, get_params, get_info. simpl. split.
  - intros e -> Ha. unfold lift, fetch_nfts2me, nfts2me_mintPrice,
      nfts2me_fees, nfts2me_defaults.
    rewrite Ha.
    destruct (n2m_mintPrice reads (contractAddress p)); reflexivity.
  - intros H. destruct (dispatch i) as [ext | | |].
    + apply manifold_quote_total.
    + destruct H as [H | H]; [contradiction H; reflexivity |].
      unfold lift, fetch_nfts2me, nfts2me_mintPrice, nfts2me_fees,
        nfts2me_defaults.
      destruct (ProviderConfigs.amount_or_one p) as [n |]; [| discriminate H].
      destruct (n2m_mintPrice reads (contractAddress p)); simpl; [eauto |].
      destruct (n2m_mintFee reads (contractAddress p) n); simpl; [| eauto].
      destruct (n2m_protocolFee reads (contractAddress p)); simpl; eauto.
    + unfold fetch_thirdweb, try_catchM.
      destruct (thirdweb_try client reads (p, i)) as [[r | e] st1];
        unfold ret; eauto.
    + unfold ret. eauto.
Qed.

(** X15. Price discovery writes to its arguments in three places only: of
    the request it may set the instance id, and only when none was given;
    of the contract info it may set the stored claim and the stored claim
    condition. The provider, the two interface flags and the extension
    address are never touched. *)
Theorem fetchPriceData_frame (p p' : MintParams) (i i' : ContractInfo)
    (res : Result PriceData) :
  fetchPriceData client reads (p, i) = (res, (p', i')) ->
  same_request_but_instanceId p p' /\ same_contract i i'
  /\ (given (instanceId p) = true -> p' = p).
Proof.
  assert (ReflP : same_request_but_instanceId p p) by (repeat split).
  assert (ReflI : same_contract i i) by (repeat split).
  unfold fetchPriceData, bindM, get_params, get_info. simpl.
  destruct (dispatch i) as [ext | | |].
  - apply manifold_arm_frame.
  - unfold lift. intros H; inversion H; subst. auto.
  - intros H. destruct (thirdweb_arm_frame _ _ _ _ _ H) as [-> S]. auto.
  - unfold ret. intros H; inversion H; subst. auto.
Qed.

End PricingMore.

Section NumberFacts.

(** An integer that [BigInt] reads off a truthy number is not zero. *)
Lemma BigInt_of_number_nonzero (a : number) (n : Z) :
  truthy_number a = true -> BigInt_of_number a = Ok n -> n <> 0.
Proof.
  assert (Opp : forall (s : bool) (v : Z), v <> 0 -> cond_Zopp s v <> 0).
  { intros s v Hv. unfold cond_Zopp. destruct s; lia. }
  assert (Fin : forall (s : bool) (x e : Z),
            0 < x ->
            (if 0 <=? e then Ok (cond_Zopp s (x * 2 ^ e))
             else if x mod 2 ^ (- e) =? 0
                  then Ok (cond_Zopp s (x / 2 ^ (- e)))
                  else range_error) = Ok n ->
            n <> 0).
  { intros s x e Hx. destruct (0 <=? e) eqn:E.
    - intros H. injection H as H. subst n. apply Z.leb_le in E. apply Opp.
      assert (0 < 2 ^ e) by (apply Z.pow_pos_nonneg; lia). nia.
    - destruct (x mod 2 ^ (- e) =? 0) eqn:D; [| intros H; discriminate H].
      intros H. injection H as H. subst n. apply Z.eqb_eq in D. apply Opp.
      pose proof (Z_div_mod_eq_full x (2 ^ (- e))) as Q.
      rewrite D in Q. intros Z0. rewrite Z0 in Q. lia. }
  destruct a as [s | s | | s m e];
    try (intros H; discriminate H); try (intros _ H; discriminate H).
  intros _. exact (Fin s (Z.pos m) e eq_refl).
Qed.

(** The number of binary digits of a positive integer. *)
Lemma digits2_pos_bounds (m : positive) :
  2 ^ (Z.pos (digits2_pos m) - 1) <= Z.pos m < 2 ^ Z.pos (digits2_pos m).
Proof.
  induction m as [m IH | m IH |]; simpl digits2_pos.
  - rewrite Pos2Z.inj_succ.
    replace (Z.succ (Z.pos (digits2_pos m)) - 1) with (Z.succ (Z.pos (digits2_pos m) - 1)) by lia.
    rewrite !Z.pow_succ_r by lia. lia.
  - rewrite Pos2Z.inj_succ.
    replace (Z.succ (Z.pos (digits2_pos m)) - 1) with (Z.succ (Z.pos (digits2_pos m) - 1)) by lia.
    rewrite !Z.pow_succ_r by lia. lia.
  - simpl. lia.
Qed.

Lemma iter_xO_value (m k : positive) :
  Z.pos (Pos.iter xO m k) = Z.pos m * 2 ^ Z.pos k.
Proof.
  revert m. induction k as [| k IH] using Pos.peano_ind; intros m.
  - simpl. lia.
  - rewrite Pos.iter_succ. rewrite Pos2Z.inj_xO, IH, Pos2Z.inj_succ.
    rewrite Z.pow_succ_r by lia. lia.
Qed.

Lemma digits2_pos_unique (m : positive) (d : Z) :
  2 ^ (d - 1) <= Z.pos m < 2 ^ d -> Z.pos (digits2_pos m) = d.
Proof.
  intros [L U]. destruct (digits2_pos_bounds m) as [L' U'].
  assert (0 < d).
  { destruct (Z.ltb_spec 0 d); [assumption |].
    exfalso. assert (2 ^ d <= 2 ^ 0) by (destruct (Z.eq_dec d 0) as [-> |]; [lia | rewrite Z.pow_neg_r by lia; simpl; lia]). simpl in *. lia. }
  destruct (Z.lt_trichotomy (Z.pos (digits2_pos m)) d) as [C | [C | C]]; [| exact C |].
  - exfalso. assert (2 ^ Z.pos (digits2_pos m) <= 2 ^ (d - 1)) by (apply Z.pow_le_mono_r; lia). lia.
  - exfalso. assert (2 ^ d <= 2 ^ (Z.pos (digits2_pos m) - 1)) by (apply Z.pow_le_mono_r; lia). lia.
Qed.

(** Rounding an integer of at most 53 bits only aligns it. *)
Lemma binary_round_small (sign : bool) (m : positive) :
  Z.pos m < 2 ^ 53 ->
  exists mz ez, binary_round 53 1024 sign m 0 = S754_finite sign mz ez
    /\ ez <= 0 /\ Z.pos mz = Z.pos m * 2 ^ (- ez).
Proof.
  intros B. destruct (digits2_pos_bounds m) as [L U].
  set (d := digits2_pos m) in *.
  assert (Hd : Z.pos d <= 53).
  { destruct (Z.leb_spec (Z.pos d) 53); [assumption |]. exfalso.
    assert (2 ^ 53 <= 2 ^ (Z.pos d - 1)) by (apply Z.pow_le_mono_r; lia). lia. }
  unfold binary_round. fold d.
  assert (Fe : fexp 53 1024 (Z.pos d + 0) = Z.pos d - 53).
  { unfold fexp, emin. lia. }
  rewrite Fe. unfold shl_align.
  assert (Aux : forall mz ez, ez <= 0 -> Z.pos (digits2_pos mz) = 53 ->
            ez = Z.pos d - 53 ->
            binary_round_aux 53 1024 sign (Z.pos mz) ez loc_Exact = S754_finite sign mz ez).
  { intros mz ez He Hdig Hez. unfold binary_round_aux, shr_fexp.
    unfold Zdigits2. rewrite Hdig.
    assert (F2 : fexp 53 1024 (53 + ez) = ez) by (unfold fexp, emin; lia).
    rewrite F2, Z.sub_diag. unfold shr. simpl shr_record_of_loc.
    cbv beta iota. simpl loc_of_shr_record. simpl shr_m. simpl round_nearest_even.
    unfold Zdigits2. rewrite Hdig, F2, Z.sub_diag. simpl.
    destruct (Z.leb_spec ez 971); [reflexivity | lia]. }
  destruct (Z.pos d - 53 - 0) as [| k | k] eqn:Sub.
  - exists m, 0.
    assert (D53 : Z.pos (digits2_pos m) = 53) by (fold d; lia).
    rewrite (Aux m 0 ltac:(lia) D53 ltac:(lia)).
    split; [reflexivity |]. split; [lia |]. simpl. lia.
  - lia.
  - exists (Pos.iter xO m k), (Z.pos d - 53).
    assert (V : Z.pos (Pos.iter xO m k) = Z.pos m * 2 ^ Z.pos k) by apply iter_xO_value.
    assert (K : Z.pos k = 53 - Z.pos d) by lia.
    assert (D53 : Z.pos (digits2_pos (Pos.iter xO m k)) = 53).
    { apply digits2_pos_unique. rewrite V.
      assert (P : 0 < 2 ^ Z.pos k) by (apply Z.pow_pos_nonneg; lia).
      assert (E1 : 2 ^ (53 - 1) = 2 ^ (Z.pos d - 1) * 2 ^ Z.pos k).
      { rewrite <- Z.pow_add_r by lia.
        replace (Z.pos d - 1 + Z.pos k) with (53 - 1) by lia. reflexivity. }
      assert (E2 : 2 ^ 53 = 2 ^ Z.pos d * 2 ^ Z.pos k).
      { rewrite <- Z.pow_add_r by lia.
        replace (Z.pos d + Z.pos k) with 53 by lia. reflexivity. }
      rewrite E1, E2. split.
      - apply Z.mul_le_mono_nonneg_r; lia.
      - apply Z.mul_lt_mono_pos_r; lia. }
    rewrite (Aux (Pos.iter xO m k) (Z.pos d - 53) ltac:(lia) D53 eq_refl).
    split; [reflexivity |]. split; [lia |]. rewrite V. f_equal. f_equal. lia.
Qed.

(** [Number] is exact on the integers below 2^53 in absolute value: the
    double reads back as the integer. *)
Lemma Number_exact (z : Z) :
  - 2 ^ 53 < z < 2 ^ 53 -> BigInt_of_number (Number z) = Ok z.
Proof.
  intros B.
  assert (Fin : forall (sign : bool) (m : positive),
            Z.pos m < 2 ^ 53 ->
            BigInt_of_number (binary_round 53 1024 sign m 0)
            = Ok (cond_Zopp sign (Z.pos m))).
  { intros sign m Hm.
    destruct (binary_round_small sign m Hm) as (mz & ez & -> & He & Hv).
    unfold BigInt_of_number. rewrite Hv.
    destruct (Z.leb_spec 0 ez).
    - replace ez with 0 by lia. simpl (- 0). simpl (2 ^ 0).
      rewrite !Z.mul_1_r. reflexivity.
    - assert (P : 0 < 2 ^ (- ez)) by (apply Z.pow_pos_nonneg; lia).
      rewrite Z.mod_mul by lia. rewrite Z.eqb_refl.
      rewrite Z.div_mul by lia. reflexivity. }
  destruct z as [| m | m]; [reflexivity | |].
  - apply (Fin false m). lia.
  - apply (Fin true m). lia.
Qed.

(** Above 2^53 [Number] rounds: to the nearest double, ties to even. *)
Example Number_rounds_above :
  BigInt_of_number (Number (2 ^ 53 + 1)) = Ok (2 ^ 53)
  /\ BigInt_of_number (Number (2 ^ 53 + 3)) = Ok (2 ^ 53 + 4)
  /\ BigInt_of_number (Number (2 ^ 1024)) = range_error.
Proof. repeat split. Qed.

Lemma amount_or_one_nonzero (params : MintParams) (n : Z) :
  ProviderConfigs.amount_or_one params = Ok n -> n <> 0.
Proof.
  unfold ProviderConfigs.amount_or_one.
  destruct (amount params) as [a |]; [| intros H; inversion H; lia].
  destruct (truthy_number a) eqn:T; [| intros H; inversion H; lia].
  apply BigInt_of_number_nonzero. exact T.
Qed.

End NumberFacts.

Section OtherArms.

Import ProviderConfigs PriceOptimizer PriceArms.

Variable client : PublicClient.
Variable reads : PriceReads.

Lemma try_price_functions_first (config : ProviderConfig) (params : MintParams)
    (names : list string) :
  let attempt := price_attempt reads config params in
  (forall before name after found,
     names = (before ++ name :: after)%list ->
     Forall (fun n => is_ok (attempt n) = false) before ->
     attempt name = Ok found ->
     try_price_functions reads config params names = found)
  /\ (Forall (fun n => is_ok (attempt n) = false) names ->
      try_price_functions reads config params names = quote 0 0).
Proof.
  intros attempt. induction names as [| n rest IH]; simpl.
  - split; [| reflexivity].
    intros before name after found H. destruct before; discriminate H.
  - fold (attempt n). destruct IH as [IH1 IH2]. split.
    + intros before name after found H Hb Hn.
      destruct before as [| b before']; simpl in H; inversion H; subst.
      * rewrite Hn. reflexivity.
      * inversion Hb as [| x l Hx Hl]; subst.
        destruct (attempt b); [discriminate Hx |].
        apply (IH1 before' name after found eq_refl Hl Hn).
    + intros Hall. inversion Hall as [| x l Hx Hl]; subst.
      destruct (attempt n); [discriminate Hx |]. apply IH2; exact Hl.
Qed.

(** X16. Generic price discovery (every provider but NFTs2Me, thirdweb and
    Manifold with an extension) issues the catalog's price functions in
    order, without arguments. An attempt succeeds when the read answers and
    the provider's value computation accepts the price; the first attempt
    that succeeds gives the quote: that price, and the computed value as
    total cost. A failed attempt only moves on to the next name, and when
    every attempt fails the mint is taken to be free. The value is the price
    itself for Manifold and the price times the amount for the others; so
    for these an amount that [BigInt] refuses makes every attempt fail, and
    the quote is a free mint whatever the contract answers. *)
Theorem generic_price_discovery (params : MintParams) (ci : ContractInfo) :
  let config := getProviderConfig (provider ci) (Some ci) in
  let abi0 := match provider ci with
              | manifold => getManifoldABI (Some ci)
              | _ => PRICE_DISCOVERY_ABI
              end in
  let read := fun functionName =>
    read_price reads (contractAddress params) abi0 functionName [] in
  let value := calculateValue (mintConfig config) in
  let fails := fun functionName =>
    forall p, read functionName = Ok p -> is_ok (value p params) = false in
  dispatch ci = GenericBranch ->
  (forall before name after p total,
     functionNames (priceDiscovery config) = (before ++ name :: after)%list ->
     Forall fails before ->
     read name = Ok p ->
     value p params = Ok total ->
     fetch_generic reads params ci = quote p total)
  /\ (Forall fails (functionNames (priceDiscovery config)) ->
      fetch_generic reads params ci = quote 0 0)
  /\ (provider ci = manifold -> forall p, value p params = Ok p)
  /\ (provider ci <> manifold ->
      forall p, value p params = (n <- amount_or_one params ;; Ok (p * n)))
  /\ (provider ci <> manifold -> is_ok (amount_or_one params) = false ->
      fetch_generic reads params ci = quote 0 0).
Proof.
  intros config abi0 read value fails D.
  assert (A : forall name,
            price_attempt reads config params name
            = (p <- read name ;; t <- value p params ;; Ok (quote p t))).
  { intros name. unfold price_attempt, read, value, abi0, config.
    unfold dispatch in D.
    destruct (provider ci); try discriminate D; reflexivity. }
  assert (V : provider ci <> manifold ->
              forall p, value p params = (n <- amount_or_one params ;; Ok (p * n))).
  { intros NM p. unfold value, config. unfold dispatch in D.
    destruct (provider ci); try discriminate D; try reflexivity.
    contradiction NM; reflexivity. }
  assert (F : forall names, Forall fails names ->
              Forall (fun n => is_ok (price_attempt reads config params n) = false)
                     names).
  { intros names. apply Forall_impl. intros n Hn. rewrite A.
    destruct (read n) as [p |] eqn:R; [| reflexivity]. simpl.
    specialize (Hn p R). destruct (value p params); [discriminate Hn |].
    reflexivity. }
  destruct (try_price_functions_first config params
              (functionNames (priceDiscovery config))) as [T1 T2].
  split; [| split; [| split; [| split]]].
  - intros before name after p total Hn Hb Hr Hv. unfold fetch_generic.
    fold config. apply (T1 before name after (quote p total) Hn (F _ Hb)).
    rewrite A, Hr. simpl. rewrite Hv. reflexivity.
  - intros Hall. unfold fetch_generic. fold config. apply T2, F, Hall.
  - intros M p. unfold value, config. rewrite M. reflexivity.
  - exact V.
  - intros NM Ha. unfold fetch_generic. fold config. apply T2, F.
    apply Forall_forall. intros n _ p _. rewrite (V NM).
    destruct (amount_or_one params); [discriminate Ha | reflexivity].
Qed.

(** X17. The three pricing patterns of NFTs2Me, in order, for an amount [n]
    that [BigInt] accepts (an absent, zero or NaN amount counts as one, and
    [n] is never zero). If [mintPrice()] answers, that is the unit price and
    the total is the price times the amount. Otherwise, if [mintFee(n)] and
    [protocolFee()] both answer, the mint price is the mint fee and the
    total adds the protocol fee per unit. Otherwise the defaults apply:
    0.0001 ETH per unit as mint price and twice that as total. For an
    amount that [BigInt] refuses, all three patterns fail and the call
    rejects with the RangeError, whatever the contract answers. *)
Theorem nfts2me_patterns (params : MintParams) :
  let addr := contractAddress params in
  (forall n, amount_or_one params = Ok n ->
     (forall price, n2m_mintPrice reads addr = Ok price ->
        fetch_nfts2me reads params = Ok (quote price (price * n)))
     /\ (forall e fee pfee,
           n2m_mintPrice reads addr = Throw e ->
           n2m_mintFee reads addr n = Ok fee ->
           n2m_protocolFee reads addr = Ok pfee ->
           fetch_nfts2me reads params = Ok (quote fee (fee + pfee * n)))
     /\ (forall e,
           n2m_mintPrice reads addr = Throw e ->
           is_ok (n2m_mintFee reads addr n) = false
           \/ is_ok (n2m_protocolFee reads addr) = false ->
           fetch_nfts2me reads params
           = Ok (quote (100000000000000 * n) (200000000000000 * n)))
     /\ n <> 0)
  /\ (forall e, amount_or_one params = Throw e ->
        fetch_nfts2me reads params = Throw e)
  /\ ((amount params = None
       \/ exists a, amount params = Some a /\ truthy_number a = false) ->
      amount_or_one params = Ok 1)
  /\ (forall a, amount params = Some a -> truthy_number a = true ->
        amount_or_one params = BigInt_of_number a).
Proof.
  intros addr. subst addr.
  unfold fetch_nfts2me, nfts2me_mintPrice, nfts2me_fees, nfts2me_defaults.
  split; [| split; [| split]].
  - intros n Hn. rewrite Hn.
    split; [intros price ->; reflexivity |].
    split; [intros e fee pfee He Hf Hp; rewrite He; simpl;
            rewrite Hf, Hp; reflexivity |].
    split; [| exact (amount_or_one_nonzero params n Hn)].
    intros e -> H. simpl.
    destruct (n2m_mintFee reads (contractAddress params) n); simpl.
    + destruct (n2m_protocolFee reads (contractAddress params)); simpl.
      * destruct H as [H | H]; discriminate H.
      * unfold creatorFeePerNFT, protocolFeePerNFT. do 2 f_equal; lia.
    + unfold creatorFeePerNFT, protocolFeePerNFT. do 2 f_equal; lia.
  - intros e ->. destruct (n2m_mintPrice reads (contractAddress params)); reflexivity.
  - unfold amount_or_one. intros [-> | (a & -> & ->)]; reflexivity.
  - unfold amount_or_one. intros a -> ->. reflexivity.
Qed.

(** X18. The thirdweb arm, when the contract answers [claimCondition()]
    with a pair of bigints and the last condition of the window can be read.
    With no condition in the window the mint is free and nothing is stored.
    Otherwise the condition is stored on the contract info, its id and its
    start time converted by [Number] (the nearest double: the id reads back
    exactly below 2^53 and is rounded above), and the stored condition
    stays also when the quote fails.
    With the native token as currency (compared without regard to case, an
    empty currency included) the total cost is the price per token times
    the amount; for an amount that [BigInt] refuses the quote is the one of
    the handler: no mint price and a total cost of zero. With an ERC-20
    currency whose symbol and decimals can be read, no native currency is
    due (total cost zero) and the ERC-20 details carry the price's token,
    with allowance and balance only when a recipient is known. *)
Theorem thirdweb_quote (params : MintParams) (ci : ContractInfo)
    (a c : Z) (condition : ConditionTuple) :
  let addr := contractAddress params in
  let id := a + c - 1 in
  read_claimCondition client addr = Ok (VArray [VBigInt a; VBigInt c]) ->
  (c = 0 ->
   fetch_thirdweb client reads (params, ci) = (Ok (quote 0 0), (params, ci)))
  /\ (c <> 0 ->
      getClaimConditionById reads addr id = Ok condition ->
      let ci' :=
        with_claimCondition ci
          {| cc_id := Number id;
             cc_pricePerToken := pricePerToken condition;
             cc_currency := currency condition;
             cc_maxClaimableSupply := maxClaimableSupply condition;
             cc_merkleRoot := ct_merkleRoot condition;
             cc_startTimestamp := Number (startTimestamp condition);
             cc_quantityLimitPerWallet := quantityLimitPerWallet condition |} in
      snd (fetch_thirdweb client reads (params, ci)) = (params, ci')
      /\ (- 2 ^ 53 < id < 2 ^ 53 -> BigInt_of_number (Number id) = Ok id)
      /\ (forall n,
            condition_pays_in_erc20 (currency condition) = false ->
            amount_or_one params = Ok n ->
            fst (fetch_thirdweb client reads (params, ci))
            = Ok (quote (pricePerToken condition) (pricePerToken condition * n)))
      /\ (forall e,
            condition_pays_in_erc20 (currency condition) = false ->
            amount_or_one params = Throw e ->
            fst (fetch_thirdweb client reads (params, ci))
            = Ok {| mintPrice := None; erc20Details := None; totalCost := 0;
                    claim := None |})
      /\ (forall sym dec,
            condition_pays_in_erc20 (currency condition) = true ->
            erc20_symbol client (VString (currency condition)) = Ok sym ->
            erc20_decimals client (VString (currency condition)) = Ok dec ->
            0 <= dec <= 255 ->
            exists d,
              fst (fetch_thirdweb client reads (params, ci))
              = Ok {| mintPrice := Some (pricePerToken condition);
                      erc20Details := Some d; totalCost := 0;
                      claim := None |}
              /\ address d = VString (currency condition)
              /\ symbol d = sym /\ decimals d = dec
              /\ (given (recipient params) = false ->
                  allowance d = None /\ balance d = None))).
Proof.
  intros addr id Hcc.
  unfold fetch_thirdweb, try_catchM, thirdweb_try, bindM, get_params, lift.
  simpl. fold addr. rewrite Hcc. simpl.
  split.
  - intros ->. reflexivity.
  - intros Hc Hcond. destruct (Z.eqb_spec c 0) as [E | _]; [contradiction |].
    fold id. rewrite Hcond.
    unfold set_claimCondition, ret, with_claimCondition. simpl.
    split; [| split; [exact (Number_exact id) |]; split; [| split]].
    + destruct (condition_pays_in_erc20 (currency condition)).
      * destruct (erc20_symbol client _); simpl; [| reflexivity].
        destruct (erc20_decimals client _); simpl; [| reflexivity].
        destruct (orb _ _); reflexivity.
      * destruct (amount_or_one params); reflexivity.
    + intros n -> ->. reflexivity.
    + intros e -> ->. reflexivity.
    + intros sym dec -> Hs Hd Hrange. rewrite Hs, Hd. simpl.
      assert (R : orb (dec <? 0) (255 <? dec) = false).
      { apply orb_false_intro; apply Z.ltb_ge; lia. }
      rewrite R. eexists. split; [reflexivity |].
      simpl. split; [reflexivity |]. split; [reflexivity |].
      split; [reflexivity |].
      intros G. unfold for_recipient. unfold given in G.
      destruct (recipient params) as [r |]; [| split; reflexivity].
      rewrite G. split; reflexivity.
Qed.

End OtherArms.

Lemma manifold_fee_only_witness :
  PriceOptimizer.fetchPriceData_manifold Samples.dead_client
    KNOWN_manifoldExtension (Samples.plain_request, Samples.manifold_1155)
  = (Ok (PriceOptimizer.fee_only None),
     (Samples.plain_request, Samples.manifold_1155)).
Proof.
  apply (manifold_fee_only Samples.dead_client KNOWN_manifoldExtension
           Samples.plain_request Samples.manifold_1155).
  left. split; reflexivity.
Defined.

(** The instance id "12abc" passes the validation, which reads it with
    [parseInt], and then makes price discovery fall back to the fee read
    again, since [BigInt] rejects it. *)
Lemma manifold_malformed_id_witness :
  Validation.isValid
    (Validation.validateParameters 0 MoreSamples.sloppy_request
       Samples.manifold_1155) = true
  /\ fst (PriceOptimizer.fetchPriceData_manifold
            (Samples.extension_client Samples.USDC) KNOWN_manifoldExtension
            (MoreSamples.sloppy_request, Samples.manifold_1155))
     = Ok {| PriceOptimizer.mintPrice := Some 500000000000000;
             PriceOptimizer.erc20Details := None;
             PriceOptimizer.totalCost := 500000000000000;
             PriceOptimizer.claim := None |}.
Proof.
  split; [reflexivity |].
  rewrite (manifold_malformed_id (Samples.extension_client Samples.USDC)
             KNOWN_manifoldExtension MoreSamples.sloppy_request
             Samples.manifold_1155 "SyntaxError: Cannot convert to a BigInt").
  - reflexivity.
  - left. split; reflexivity.
Defined.

Lemma fetchPriceData_frame_witness :
  isERC1155
    (snd (snd (PriceArms.fetchPriceData (Samples.extension_client Samples.USDC)
                 (PriceArms.only_price 7)
                 (Samples.instance_request, Samples.manifold_1155))))
  = true.
Proof.
  destruct (PriceArms.fetchPriceData (Samples.extension_client Samples.USDC)
              (PriceArms.only_price 7)
              (Samples.instance_request, Samples.manifold_1155))
    as [res [p' i']] eqn:Run.
  destruct (fetchPriceData_frame _ _ _ _ _ _ _ Run) as (_ & (_ & H & _) & _).
  simpl. rewrite H. reflexivity.
Defined.

(** A generic contract exposing only [price()]: that price is the unit
    price and, for one unit, the total. *)
Lemma generic_price_discovery_witness :
  PriceArms.fetch_generic (PriceArms.only_price 7) Samples.plain_request
    MoreSamples.generic_721
  = PriceArms.quote 7 7
  /\ PriceArms.fetch_generic (PriceArms.only_price 7)
       MoreSamples.fractional_request MoreSamples.generic_721
     = PriceArms.quote 0 0.
Proof.
  split.
  - apply (proj1 (generic_price_discovery (PriceArms.only_price 7)
                    Samples.plain_request MoreSamples.generic_721 eq_refl)
             ["mintPrice"] "price" ["MINT_PRICE"; "getMintPrice"] 7 7).
    + reflexivity.
    + constructor; [intros p H; discriminate H | constructor].
    + reflexivity.
    + reflexivity.
  - apply (proj2 (proj2 (proj2 (proj2
             (generic_price_discovery (PriceArms.only_price 7)
                MoreSamples.fractional_request MoreSamples.generic_721
                eq_refl))))).
    + discriminate.
    + reflexivity.
Defined.

(** One and a half tokens from an NFTs2Me contract: the call rejects,
    although the contract answers [mintPrice()]. *)
Lemma fetchPriceData_rejects_only_for_amount_witness :
  PriceArms.fetchPriceData Samples.dead_client MoreSamples.priced_reads
    (MoreSamples.fractional_request, MoreSamples.nfts2me_721)
  = (range_error, (MoreSamples.fractional_request, MoreSamples.nfts2me_721))
  /\ fst (PriceArms.fetchPriceData Samples.dead_client MoreSamples.priced_reads
            (Samples.plain_request, MoreSamples.nfts2me_721))
     = Ok (PriceArms.quote 5 5).
Proof.
  split.
  - apply (proj1 (fetchPriceData_rejects_only_for_amount Samples.dead_client
                    MoreSamples.priced_reads MoreSamples.fractional_request
                    MoreSamples.nfts2me_721)); reflexivity.
  - destruct (proj2 (fetchPriceData_rejects_only_for_amount Samples.dead_client
                       MoreSamples.priced_reads Samples.plain_request
                       MoreSamples.nfts2me_721) (or_intror eq_refl))
      as (r & st' & Hrun).
    rewrite Hrun. vm_compute in Hrun. inversion Hrun. reflexivity.
Defined.

Lemma nfts2me_patterns_witness :
  PriceArms.fetch_nfts2me MoreSamples.priced_reads Samples.plain_request
  = Ok (PriceArms.quote 5 (5 * 1))
  /\ PriceArms.fetch_nfts2me MoreSamples.priced_reads
       MoreSamples.fractional_request
     = range_error.
Proof.
  split.
  - apply (proj1 (proj1 (nfts2me_patterns MoreSamples.priced_reads
                           Samples.plain_request) 1 eq_refl) 5).
    reflexivity.
  - apply (proj1 (proj2 (nfts2me_patterns MoreSamples.priced_reads
                           MoreSamples.fractional_request))).
    reflexivity.
Defined.

Lemma thirdweb_quote_witness :
  fst (PriceArms.fetch_thirdweb MoreSamples.open_edition_client
         MoreSamples.open_edition_reads
         (Samples.plain_request, MoreSamples.thirdweb_721))
  = Ok (PriceArms.quote 3 (3 * 1))
  /\ fst (PriceArms.fetch_thirdweb MoreSamples.open_edition_client
            MoreSamples.open_edition_reads
            (MoreSamples.fractional_request, MoreSamples.thirdweb_721))
     = Ok {| PriceOptimizer.mintPrice := None;
             PriceOptimizer.erc20Details := None;
             PriceOptimizer.totalCost := 0; PriceOptimizer.claim := None |}.
Proof.
  split.
  - destruct (thirdweb_quote MoreSamples.open_edition_client
                MoreSamples.open_edition_reads Samples.plain_request
                MoreSamples.thirdweb_721 0 1 MoreSamples.native_condition
                eq_refl) as [_ H].
    destruct (H ltac:(discriminate) eq_refl) as (_ & _ & Hn & _).
    exact (Hn 1 eq_refl eq_refl).
  - destruct (thirdweb_quote MoreSamples.open_edition_client
                MoreSamples.open_edition_reads MoreSamples.fractional_request
                MoreSamples.thirdweb_721 0 1 MoreSamples.native_condition
                eq_refl) as [_ H].
    destruct (H ltac:(discriminate) eq_refl) as (_ & _ & _ & He & _).
    exact (He _ eq_refl eq_refl).
Defined.

(** ** Provider detection beyond the claims *)

Section DetectionMore.

Import ProviderDetector.

Variable C : Type.

(** X19. A provider specified by the caller is trusted outright: no read
    is issued, so the result does not depend on the chain. Manifold gets the
    catalog's extension address and is taken to be ERC-1155; any other
    provider gets both interface flags false and no extension. *)
Theorem explicit_provider_trusted (net net' : Network) (params : MintParams)
    (p : NFTProvider) :
  mp_provider params = Some p ->
  @detectNFTProvider C net params = detectNFTProvider net' params
  /\ @detectNFTProvider C net params
     = Ok (match p with
           | manifold => manifold_info true false KNOWN_manifoldExtension
           | _ => basic_info p false false
           end).
Proof.
  intros H. unfold detectNFTProvider. rewrite H.
  destruct p; split; reflexivity.
Qed.

(** X20. The order of the probes when the contract lists no extension (the
    list is empty or its read fails). An answer to [n2mVersion()] settles
    NFTs2Me; failing that, a pair answered by [claimCondition()] settles
    thirdweb, whether or not [sharedMetadata()] can be read; failing both,
    the provider is generic. In all three cases the interface flags are
    those of the two ERC-165 probes. *)
Theorem detection_order (net : Network) (params : MintParams) :
  let client := net (chainId params) in
  let addr := contractAddress params in
  let is1155 := catch_default (supportsInterface client addr INTERFACE_ID_ERC1155) false in
  let is721 := catch_default (supportsInterface client addr INTERFACE_ID_ERC721) false in
  let no_version :=
    (exists e, n2mVersion client addr = Throw e)
    \/ n2mVersion client addr = Ok VUndefined in
  let no_condition :=
    (exists e, read_claimCondition client addr = Throw e)
    \/ (exists v, read_claimCondition client addr = Ok v /\ as_pair v = None) in
  mp_provider params = None ->
  (exists e, getExtensions client addr = Throw e)
  \/ getExtensions client addr = Ok [] ->
  (forall v, n2mVersion client addr = Ok v -> v <> VUndefined ->
     @detectNFTProvider C net params = Ok (basic_info nfts2me is1155 is721))
  /\ (no_version ->
      forall a b, read_claimCondition client addr = Ok (VArray [a; b]) ->
      @detectNFTProvider C net params = Ok (basic_info thirdweb is1155 is721))
  /\ (no_version -> no_condition ->
      @detectNFTProvider C net params = Ok (basic_info generic is1155 is721)).
Proof.
  intros client addr is1155 is721 no_version no_condition Hp Hx.
  assert (Start : forall k : Result (NFTContractInfo C),
    try_catch
      (match
         match catch_null (getExtensions client addr) with
         | Some (first :: rest) =>
           if orb (option_truthy (find is_known_extension (first :: rest)))
                  (Nat.ltb 0 (Datatypes.length (first :: rest)))
           then Some (manifold_info is1155 is721
                        (or_else (find is_known_extension (first :: rest)) first))
           else None
         | _ => None
         end
       with
       | Some info => Ok info
       | None => k
       end) (fun _ => Ok (basic_info generic false false))
    = try_catch k (fun _ => Ok (basic_info generic false false))).
  { intros k. destruct Hx as [[e ->] | ->]; reflexivity. }
  assert (NoV : no_version ->
            @probe_nfts2me C client addr is1155 is721 = Ok None).
  { intros [[e H] | H]; unfold probe_nfts2me; rewrite H; reflexivity. }
  unfold detectNFTProvider. rewrite Hp. fold client addr is1155 is721.
  cbv zeta. rewrite Start.
  split; [| split].
  - intros v Hv Hdef. unfold probe_nfts2me. rewrite Hv.
    destruct v; try reflexivity. exfalso; apply Hdef; reflexivity.
  - intros Hn a b Hc. rewrite (NoV Hn). simpl.
    unfold probe_thirdweb. rewrite Hc. simpl.
    destruct (sharedMetadata client addr); reflexivity.
  - intros Hn Hc. rewrite (NoV Hn). simpl.
    unfold probe_thirdweb.
    destruct Hc as [[e H] | (v & H & Hpair)]; rewrite H; simpl;
      [reflexivity | rewrite Hpair; reflexivity].
Qed.

End DetectionMore.

Lemma explicit_provider_trusted_witness :
  @ProviderDetector.detectNFTProvider value (fun _ => Samples.dead_client)
     MoreSamples.manifold_by_name
  = Ok (ProviderDetector.manifold_info true false KNOWN_manifoldExtension).
Proof.
  apply (proj2 (explicit_provider_trusted value (fun _ => Samples.dead_client)
                  (fun _ => Samples.dead_client) MoreSamples.manifold_by_name
                  manifold eq_refl)).
Defined.

(** An open edition that supports no interface probe is still classified
    as thirdweb, with both flags false. *)
Lemma detection_order_witness :
  @ProviderDetector.detectNFTProvider value (fun _ => MoreSamples.open_edition_client)
     Samples.plain_request
  = Ok (ProviderDetector.basic_info thirdweb false false).
Proof.
  apply (proj1 (proj2 (detection_order value
                         (fun _ => MoreSamples.open_edition_client)
                         Samples.plain_request eq_refl
                         (or_introl (ex_intro _ "read rejected" eq_refl))))
           (or_introl (ex_intro _ "read rejected" eq_refl))
           (VBigInt 0) (VBigInt 1) eq_refl).
Defined.

(** ** Strings *)

Section StringFacts.

Lemma prefix_split (p s : string) :
  prefix p s = true -> exists rest, s = append p rest.
Proof.
  revert s. induction p as [| c p IH]; intros s H.
  - exists s. reflexivity.
  - destruct s as [| d s]; simpl in H; [discriminate H |].
    destruct (Ascii.ascii_dec c d) as [-> | N]; [| discriminate H].
    destruct (IH s H) as [rest ->]. exists rest. reflexivity.
Qed.

Lemma prefix_weaken (p q s : string) :
  prefix (append p q) s = true -> prefix p s = true.
Proof.
  revert s. induction p as [| c p IH]; intros s H; [destruct s; reflexivity |].
  destruct s as [| d s]; simpl in *; [discriminate H |].
  destruct (Ascii.ascii_dec c d); [apply IH; exact H | discriminate H].
Qed.

Lemma includes_unfold (s pat : string) :
  includes s pat
  = if prefix pat s then true
    else match s with
         | EmptyString => false
         | String _ rest => includes rest pat
         end.
Proof. destruct s; reflexivity. Qed.

(** A text that contains [p ++ q] contains [p]. *)
Lemma includes_weaken (p q s : string) :
  includes s (append p q) = true -> includes s p = true.
Proof.
  induction s as [| c s IH]; intros H;
    rewrite includes_unfold in H; rewrite includes_unfold;
    destruct (prefix (append p q) _) eqn:P;
    try (rewrite (prefix_weaken p q _ P); reflexivity).
  - discriminate H.
  - destruct (prefix p (String c s)); [reflexivity | apply IH; exact H].
Qed.

Lemma substring_all (s : string) : substring 0 (String.length s) s = s.
Proof. induction s as [| c s IH]; simpl; [reflexivity | rewrite IH; reflexivity]. Qed.






Lemma includes_cons (d : ascii) (r y : string) :
  includes r y = true -> includes (String d r) y = true.
Proof.
  intros H. rewrite includes_unfold.
  destruct (prefix y (String d r)); [reflexivity | exact H].
Qed.

Lemma prefix_includes (y s : string) :
  prefix y s = true -> includes s y = true.
Proof. intros H. rewrite includes_unfold, H. reflexivity. Qed.

Lemma includes_tail (c : ascii) (y s : string) :
  includes s (String c y) = true -> includes s y = true.
Proof.
  induction s as [| d r IH]; intros H; rewrite includes_unfold in H.
  - simpl in H. discriminate H.
  - destruct (prefix (String c y) (String d r)) eqn:P.
    + simpl in P. destruct (Ascii.ascii_dec c d); [| discriminate P].
      apply includes_cons, prefix_includes, P.
    + apply includes_cons, IH, H.
Qed.

(** A text that contains [a ++ x] contains [x]. *)
Lemma includes_drop (a x s : string) :
  includes s (append a x) = true -> includes s x = true.
Proof.
  induction a as [| c a IH]; simpl; intros H; [exact H |].
  apply IH. apply (includes_tail c). exact H.
Qed.

End StringFacts.

(** ** Display helpers *)

Section DisplayFacts.

Import Display.

(** X21. [ipfsToHttp] leaves every URL that does not start with [ipfs://]
    as it is, replaces that scheme by the gateway and keeps the rest of the
    URL, and is idempotent: a converted URL is not converted again, with
    whatever gateway. *)
Theorem ipfsToHttp_spec (url : string) (g g' : option Gateway) :
  (prefix "ipfs://" url = false -> ipfsToHttp url g = url)
  /\ (forall rest, url = append "ipfs://" rest ->
        ipfsToHttp url g
        = append (IPFS_GATEWAYS (match g with Some x => x | None => GwDefault end))
                 rest)
  /\ prefix "ipfs://" (ipfsToHttp url g) = false
  /\ ipfsToHttp (ipfsToHttp url g) g' = ipfsToHttp url g.
Proof.
  assert (Conv : forall rest h,
            ipfsToHttp (append "ipfs://" rest) h
            = append (IPFS_GATEWAYS (match h with Some x => x | None => GwDefault end))
                     rest).
  { intros rest h. unfold ipfsToHttp.
    assert (P : prefix "ipfs://" (append "ipfs://" rest) = true)
      by (destruct rest; reflexivity).
    rewrite P. cbn [append truthy_string String.eqb negb orb].
    assert (R : forall rep s,
              replace_first "ipfs://" rep s
              = if prefix "ipfs://" s
                then append rep (substring 7 (String.length s - 7) s)
                else match s with
                     | EmptyString => EmptyString
                     | String c r => String c (replace_first "ipfs://" rep r)
                     end) by (intros rep s; destruct s; reflexivity).
    rewrite R. change (String "i" (String "p" (String "f" (String "s"
                         (String ":" (String "/" (String "/" rest)))))))
      with (append "ipfs://" rest).
    rewrite P. f_equal. simpl. rewrite Nat.sub_0_r. apply substring_all. }
  assert (Keep : forall u h, prefix "ipfs://" u = false -> ipfsToHttp u h = u).
  { intros u h H. unfold ipfsToHttp. rewrite H, orb_true_r. reflexivity. }
  assert (Out : prefix "ipfs://" (ipfsToHttp url g) = false).
  { destruct (prefix "ipfs://" url) eqn:P.
    - destruct (prefix_split _ _ P) as [rest ->]. rewrite Conv.
      destruct g as [[| |] |]; reflexivity.
    - rewrite (Keep url g P). exact P. }
  split; [apply Keep |]. split; [intros rest ->; apply Conv |].
  split; [exact Out | apply Keep; exact Out].
Qed.

Lemma ipfsToHttp_spec_witness :
  ipfsToHttp "ipfs://Qm123/1.json" None = "https://ipfs.io/ipfs/Qm123/1.json".
Proof.
  apply (proj1 (proj2 (ipfsToHttp_spec "ipfs://Qm123/1.json" None None))
           "Qm123/1.json" eq_refl).
Defined.



(** The default of four characters, and the edge of no characters, where
    the whole address follows the dots. *)
Example formatAddress_examples :
  formatAddress "0x26BBEA7803DcAc346D5F5f135b57Cf2c752A02bE" 4 = "0x26BB...02bE"
  /\ formatAddress "0xabcdef" 4 = "0xabcdef"
  /\ formatAddress "0xabcdef" 0 = "0x...0xabcdef".
Proof. repeat split. Qed.

End DisplayFacts.

(** ** The error classifier beyond the claims *)

Section ClassifierMore.

Import ErrorParser.

Variable lower : string -> string.

(** X23. The context only words the explanation of insufficient funds:
    the category, the message and the action label never depend on it, and
    the details depend on it for the insufficient-funds category alone. For
    an unclassified [Error] the details are its message as it was given, not
    lowered. *)
Theorem context_only_words_details (error : Thrown) :
  let a := parseError_with lower error CtxApproval in
  let m := parseError_with lower error CtxMint in
  type a = type m /\ message a = message m /\ actionText a = actionText m
  /\ (type a <> InsufficientFunds -> a = m)
  /\ (type a = InsufficientFunds -> details a <> details m)
  /\ (forall text, error = ErrorObject text -> type m = Unknown ->
        details m = Some text).
Proof.
  unfold parseError_with.
  destruct (any_of _ ["user rejected"; "user denied"]);
    [cbn; repeat split; intros; congruence |].
  destruct (any_of _ ["insufficient funds"; "insufficient balance";
                      "not enough"; "exceeds balance"]);
    [cbn; repeat split; intros; congruence |].
  destruct (any_of _ ["network"; "chain"; "chainid"]);
    [cbn; repeat split; intros; congruence |].
  destruct (any_of _ ["revert"; "execution reverted"; "contract error"]);
    [cbn; repeat split; intros; congruence |].
  destruct (any_of _ ["allowance"; "approve"]);
    [cbn; repeat split; intros; congruence |].
  destruct (any_of _ ["timeout"; "network"; "fetch"; "rpc"]);
    [cbn; repeat split; intros; congruence |].
  cbn; repeat split; intros; subst; congruence.
Qed.

(** X24. Three substrings of the classifier never decide anything. A text
    containing "chainid" contains "chain", and one containing "execution
    reverted" contains "revert", so these two can be dropped from their
    lists. And "network" in the network/RPC list is shadowed by the
    wrong-network test before it: a text classified as a network error does
    not contain "network", and contains "timeout", "fetch" or "rpc". *)
Theorem redundant_patterns (error : Thrown) (context : Context) :
  let errorMessage := lower (raw_text error) in
  any_of errorMessage ["network"; "chain"; "chainid"]
    = any_of errorMessage ["network"; "chain"]
  /\ any_of errorMessage ["revert"; "execution reverted"; "contract error"]
     = any_of errorMessage ["revert"; "contract error"]
  /\ (type (parseError_with lower error context) = NetworkError ->
      includes errorMessage "network" = false
      /\ any_of errorMessage ["timeout"; "fetch"; "rpc"] = true).
Proof.
  intros errorMessage.
  assert (W1 : includes errorMessage "chainid" = true ->
               includes errorMessage "chain" = true)
    by (apply (includes_weaken "chain" "id")).
  assert (W2 : includes errorMessage "execution reverted" = true ->
               includes errorMessage "revert" = true).
  { intros H. apply (includes_weaken "revert" "ed").
    apply (includes_drop "execution "). exact H. }
  split; [| split].
  - unfold any_of; cbn [existsb].
    destruct (includes errorMessage "network"); [reflexivity |].
    destruct (includes errorMessage "chain"); [reflexivity |].
    destruct (includes errorMessage "chainid"); [| reflexivity].
    discriminate (W1 eq_refl).
  - unfold any_of; cbn [existsb].
    destruct (includes errorMessage "revert"); [reflexivity |].
    destruct (includes errorMessage "execution reverted") eqn:E; [| reflexivity].
    discriminate (W2 eq_refl).
  - unfold parseError_with. fold errorMessage.
    destruct (any_of errorMessage ["user rejected"; "user denied"]);
      [intros H; discriminate H |].
    destruct (any_of errorMessage ["insufficient funds"; "insufficient balance";
                                   "not enough"; "exceeds balance"]);
      [intros H; discriminate H |].
    destruct (any_of errorMessage ["network"; "chain"; "chainid"]) eqn:N;
      [intros H; discriminate H |].
    destruct (any_of errorMessage ["revert"; "execution reverted"; "contract error"]);
      [intros H; discriminate H |].
    destruct (any_of errorMessage ["allowance"; "approve"]);
      [intros H; discriminate H |].
    destruct (any_of errorMessage ["timeout"; "network"; "fetch"; "rpc"]) eqn:T;
      [| intros H; discriminate H].
    intros _. unfold any_of in *. cbn [existsb] in *.
    destruct (includes errorMessage "network"); [discriminate N |].
    split; [reflexivity |].
    destruct (includes errorMessage "timeout"); [reflexivity |]. exact T.
Qed.

End ClassifierMore.

Lemma redundant_patterns_witness :
  includes (toLowerCase "RPC request failed") "network" = false
  /\ ErrorParser.any_of (toLowerCase "RPC request failed")
       ["timeout"; "fetch"; "rpc"] = true.
Proof.
  apply (proj2 (proj2 (redundant_patterns toLowerCase
                         (ErrorParser.ErrorObject "RPC request failed")
                         ErrorParser.CtxMint))).
  reflexivity.
Defined.

(** ** Metadata helpers beyond the claims *)

Section MetadataMoreFacts.

Import NftMetadata MetadataMore.

Variable host : Host.
Variable client : PublicClient.

Lemma lower_known_nonempty (k : string) :
  toLowerCase k = toLowerCase KNOWN_manifoldExtension -> truthy_string k = true.
Proof. destruct k; [intros H; discriminate H | reflexivity]. Qed.

(** X25. [detectManifoldContract] reports a Manifold contract exactly when
    the address is well-formed and the extension list can be read and is not
    empty. The extension it reports is then one of the listed ones: the
    first that equals the catalog's address up to letter case if there is
    one, and the first of the list otherwise. Every failure is reported as
    "not Manifold", with no extension. *)
Theorem detectManifoldContract_spec (contractAddress : Address) :
  let r := detectManifoldContract host client contractAddress in
  (isManifold r = true <->
   exists a first rest,
     getAddress host contractAddress = Ok a
     /\ getExtensions client a = Ok (first :: rest))
  /\ (forall a first rest,
        getAddress host contractAddress = Ok a ->
        getExtensions client a = Ok (first :: rest) ->
        exists ext,
          md_extensionAddress r = Some ext
          /\ extensions r = Some (first :: rest)
          /\ In ext (first :: rest)
          /\ ((exists k, In k (first :: rest)
                         /\ toLowerCase k = toLowerCase KNOWN_manifoldExtension) ->
              toLowerCase ext = toLowerCase KNOWN_manifoldExtension)
          /\ ((forall k, In k (first :: rest) ->
                         toLowerCase k <> toLowerCase KNOWN_manifoldExtension) ->
              ext = first))
  /\ (isManifold r = false ->
      md_extensionAddress r = None /\ extensions r = None).
Proof.
  unfold detectManifoldContract.
  set (same := fun ext => (toLowerCase ext =? toLowerCase KNOWN_manifoldExtension)%string).
  destruct (getAddress host contractAddress) as [a |] eqn:Ha;
    unfold catch_default, bind; cbv beta iota.
  2: { split; [split; [intros H; discriminate H | intros (a & f & r & H & _); discriminate H] |].
       split; [intros a f r H; discriminate H | intros _; split; reflexivity]. }
  destruct (getExtensions client a) as [[| first rest] |] eqn:Hx; cbv beta iota.
  - split; [split; [intros H; discriminate H
                   | intros (a' & f & r & H & H'); inversion H; subst a';
                     rewrite Hx in H'; discriminate H'] |].
    split; [| intros _; split; reflexivity].
    intros a' f r H H'. inversion H; subst a'. rewrite Hx in H'. discriminate H'.
  - split; [split; [intros _; exists a, first, rest; split; [reflexivity | exact Hx]
                   | reflexivity] |].
    split; [| intros H; discriminate H].
    intros a' f r H H'. inversion H; subst a'. rewrite Hx in H'.
    inversion H'; subst f r. clear H H'.
    cbv beta iota zeta delta [isManifold md_extensionAddress extensions].
    destruct (find same (first :: rest)) as [k |] eqn:F.
    + apply find_some in F. destruct F as [Hin Hk].
      apply String.eqb_eq in Hk.
      pose proof (lower_known_nonempty k Hk) as T.
      assert (E : ProviderDetector.or_else (Some k) first = k).
      { unfold ProviderDetector.or_else. rewrite T. reflexivity. }
      exists k. split; [f_equal; exact E |].
      split; [reflexivity |]. split; [exact Hin |].
      split; [intros _; exact Hk |].
      intros Hnone. exfalso. apply (Hnone k Hin Hk).
    + exists first. split; [reflexivity |].
      split; [reflexivity |]. split; [left; reflexivity |].
      split; [| intros _; reflexivity].
      intros (k & Hin & Hk). exfalso.
      pose proof (find_none _ _ F k Hin) as N. unfold same in N.
      apply String.eqb_neq in N. contradiction.
  - split; [split; [intros H; discriminate H
                   | intros (a' & f & r & H & H'); inversion H; subst a';
                     rewrite Hx in H'; discriminate H'] |].
    split; [| intros _; split; reflexivity].
    intros a' f r H H'. inversion H; subst a'. rewrite Hx in H'. discriminate H'.
Qed.

(** X26. For a contract that is not Manifold, the deprecated resolver is
    the standard [tokenURI] read and nothing else: it returns what that read
    returns and throws when it throws. When it returns a non-empty URI, the
    resolver with the fallback chain returns the same URI (without a
    hint). *)
Theorem deprecated_resolver_standard (contractAddress : Address)
    (tokenId : string) :
  isManifold (detectManifoldContract host client contractAddress) = false ->
  getTokenURIWithManifoldSupport host client contractAddress tokenId
  = (a <- getAddress host contractAddress ;;
     n <- BigInt tokenId ;;
     tokenURI client a n)
  /\ (forall s,
        getTokenURIWithManifoldSupport host client contractAddress tokenId = Ok s ->
        s <> "" ->
        getTokenMetadataURL host client contractAddress tokenId None = Ok s).
Proof.
  intros NM. unfold getTokenURIWithManifoldSupport. rewrite NM. simpl.
  split; [reflexivity |].
  intros s H Hne. unfold getTokenMetadataURL.
  destruct (getAddress host contractAddress) as [a |]; [| discriminate H].
  destruct (BigInt tokenId) as [n |]; [| discriminate H].
  simpl in *. rewrite H.
  apply truthy_string_spec in Hne. rewrite Hne. reflexivity.
Qed.

End MetadataMoreFacts.

Lemma detectManifoldContract_spec_witness :
  exists ext,
    NftMetadata.md_extensionAddress
      (NftMetadata.detectManifoldContract Samples.plain_host
         Samples.one_extension_client Samples.TOKEN_CONTRACT) = Some ext
    /\ In ext [Samples.OTHER_EXTENSION].
Proof.
  destruct (proj1 (proj2 (detectManifoldContract_spec Samples.plain_host
                            Samples.one_extension_client Samples.TOKEN_CONTRACT))
              Samples.TOKEN_CONTRACT Samples.OTHER_EXTENSION [] eq_refl eq_refl)
    as (ext & H1 & _ & H3 & _).
  exists ext. split; assumption.
Defined.

Lemma deprecated_resolver_standard_witness :
  NftMetadata.getTokenMetadataURL Samples.plain_host Samples.token_client
    Samples.TOKEN_CONTRACT "1" None = Ok "ipfs://token/1".
Proof.
  apply (proj2 (deprecated_resolver_standard Samples.plain_host
                  Samples.token_client Samples.TOKEN_CONTRACT "1" eq_refl)).
  - reflexivity.
  - discriminate.
Defined.

(** ** The thirdweb quote and the value of the mint call *)

Section ThirdwebValue.

Import ProviderConfigs PriceOptimizer PriceArms.

Variable client : PublicClient.
Variable reads : PriceReads.

(** X27. Once the claim condition has been read, the thirdweb quote agrees
    with the value that the provider configuration, built from the contract
    info the arm leaves behind, computes for the mint call from the
    condition's price: whenever that computation returns a value, it is the
    total cost of the quote (the price times the amount for the native
    token, zero for an ERC-20, also when the reads of the ERC-20's symbol
    or decimals fail). The computation throws only for the native token
    with an amount that [BigInt] refuses, where the quote has no mint price
    and a total cost of zero. *)
Theorem thirdweb_total_is_call_value (params : MintParams) (ci : ContractInfo)
    (a c : Z) (condition : ConditionTuple) :
  let addr := contractAddress params in
  read_claimCondition client addr = Ok (VArray [VBigInt a; VBigInt c]) ->
  c <> 0 ->
  getClaimConditionById reads addr (a + c - 1) = Ok condition ->
  exists r ci',
    fetch_thirdweb client reads (params, ci) = (Ok r, (params, ci'))
    /\ claimCondition ci' = Some (stored_condition (a + c - 1) condition)
    /\ (forall v,
          calculateValue (mintConfig (getProviderConfig thirdweb (Some ci')))
            (pricePerToken condition) params = Ok v ->
          totalCost r = v)
    /\ (forall e,
          calculateValue (mintConfig (getProviderConfig thirdweb (Some ci')))
            (pricePerToken condition) params = Throw e ->
          condition_pays_in_erc20 (currency condition) = false
          /\ amount_or_one params = Throw e
          /\ mintPrice r = None /\ totalCost r = 0).
Proof.
  intros addr Hcc Hc Hcond.
  assert (V : forall ci' : ContractInfo,
            claimCondition ci' = Some (stored_condition (a + c - 1) condition) ->
            calculateValue (mintConfig (getProviderConfig thirdweb (Some ci')))
              (pricePerToken condition) params
            = if condition_pays_in_erc20 (currency condition) then Ok 0
              else (n <- amount_or_one params ;;
                    Ok (pricePerToken condition * n))).
  { intros ci' H. simpl. rewrite H. simpl. unfold thirdweb_value. simpl.
    unfold condition_pays_in_erc20.
    destruct (truthy_string (currency condition)); simpl; [| reflexivity].
    destruct (String.eqb _ _); reflexivity. }
  assert (R : exists r ci',
            fetch_thirdweb client reads (params, ci) = (Ok r, (params, ci'))
            /\ claimCondition ci' = Some (stored_condition (a + c - 1) condition)
            /\ (condition_pays_in_erc20 (currency condition) = true ->
                totalCost r = 0)
            /\ (forall n, condition_pays_in_erc20 (currency condition) = false ->
                  amount_or_one params = Ok n ->
                  totalCost r = pricePerToken condition * n)
            /\ (forall e, condition_pays_in_erc20 (currency condition) = false ->
                  amount_or_one params = Throw e ->
                  mintPrice r = None /\ totalCost r = 0)).
  { clear V.
    unfold fetch_thirdweb, try_catchM, thirdweb_try, bindM, get_params, lift.
    simpl. fold addr. rewrite Hcc. simpl.
    destruct (Z.eqb_spec c 0) as [E | _]; [contradiction |].
    rewrite Hcond. unfold set_claimCondition, ret. simpl.
    destruct (condition_pays_in_erc20 (currency condition)) eqn:Pay.
    - assert (Done : forall r : PriceData, totalCost r = 0 ->
                (true = true -> totalCost r = 0)
                /\ (forall n, true = false -> amount_or_one params = Ok n ->
                      totalCost r = pricePerToken condition * n)
                /\ (forall e, true = false -> amount_or_one params = Throw e ->
                      mintPrice r = None /\ totalCost r = 0)).
      { intros r Hr. split; [intros _; exact Hr |].
        split; intros ? F; discriminate F. }
      destruct (erc20_symbol client (VString (currency condition))); simpl.
      + destruct (erc20_decimals client (VString (currency condition))); simpl.
        * destruct (orb _ _); simpl; eexists; eexists;
            (split; [reflexivity |]); (split; [reflexivity |]);
            apply Done; reflexivity.
        * eexists; eexists; split; [reflexivity |]. split; [reflexivity |].
          apply Done; reflexivity.
      + eexists; eexists; split; [reflexivity |]. split; [reflexivity |].
        apply Done; reflexivity.
    - destruct (amount_or_one params) as [n | e]; simpl;
        eexists; eexists; (split; [reflexivity |]); (split; [reflexivity |]);
        (split; [intros F; discriminate F |]).
      + split; [intros n' _ H; inversion H; reflexivity |].
        intros e _ H; discriminate H.
      + split; [intros n' _ H; discriminate H |].
        intros e' _ _. split; reflexivity. }
  destruct R as (r & ci' & Hrun & Hstored & Herc & Hnat & Hbad).
  exists r, ci'. split; [exact Hrun |]. split; [exact Hstored |].
  rewrite (V ci' Hstored).
  destruct (condition_pays_in_erc20 (currency condition)) eqn:Pay.
  - split; [intros v H; inversion H; subst v; apply Herc; reflexivity |].
    intros e H; discriminate H.
  - destruct (amount_or_one params) as [n | e0] eqn:Amt; simpl.
    + split; [intros v H; inversion H; subst v; apply (Hnat n eq_refl eq_refl) |].
      intros e H; discriminate H.
    + split; [intros v H; discriminate H |].
      intros e H. inversion H; subst e0.
      destruct (Hbad e eq_refl eq_refl) as [P T].
      split; [reflexivity |]. split; [reflexivity |]. split; assumption.
Qed.

End ThirdwebValue.

Lemma thirdweb_total_is_call_value_witness :
  exists r ci',
    PriceArms.fetch_thirdweb MoreSamples.open_edition_client
      MoreSamples.open_edition_reads
      (Samples.plain_request, MoreSamples.thirdweb_721) = (Ok r, (Samples.plain_request, ci'))
    /\ PriceOptimizer.totalCost r = 3.
Proof.
  destruct (thirdweb_total_is_call_value MoreSamples.open_edition_client
              MoreSamples.open_edition_reads Samples.plain_request
              MoreSamples.thirdweb_721 0 1 MoreSamples.native_condition
              eq_refl ltac:(discriminate) eq_refl)
    as (r & ci' & Hrun & Hcc & Hv & _).
  exists r, ci'. split; [exact Hrun |].
  apply Hv. simpl. rewrite Hcc. reflexivity.
Defined.

(** ** The chain table *)

Section ChainFacts.

Import Chains.

Lemma lookup_none (key : string) (table : list (string * Z)) :
  ~ In key (map fst table) -> lookup key table = None.
Proof.
  induction table as [| [k v] rest IH]; simpl; intros H; [reflexivity |].
  destruct (String.eqb_spec key k) as [E | _].
  - exfalso. apply H. left. symmetry. exact E.
  - apply IH. intros Hin. apply H. right. exact Hin.
Qed.

Lemma unlisted_not_found (chainId : Z) :
  (forall cfg, In cfg SUPPORTED_CHAINS -> id cfg <> chainId) ->
  find_config chainId = None.
Proof.
  intros H. unfold find_config.
  destruct (find (fun c => id c =? chainId) SUPPORTED_CHAINS) as [cfg |] eqn:F;
    [| reflexivity].
  apply find_some in F. destruct F as [Hin Hid]. apply Z.eqb_eq in Hid.
  exfalso. exact (H cfg Hin Hid).
Qed.

Lemma listed_found (cfg : ChainConfig) :
  In cfg SUPPORTED_CHAINS -> find_config (id cfg) = Some cfg.
Proof.
  intros Hin. simpl in Hin.
  repeat (destruct Hin as [<- | Hin]; [reflexivity |]). contradiction.
Qed.

(** X28. [getChainById] finds a listed chain by its id, whichever entry of
    the table it is (no id is listed twice, so the first match is the only
    one), and answers with mainnet, not with an error, for an id that the
    table does not list. *)
Theorem getChainById_spec (chainId : Z) :
  (forall cfg, In cfg SUPPORTED_CHAINS -> id cfg = chainId ->
               getChainById chainId = chain cfg)
  /\ ((forall cfg, In cfg SUPPORTED_CHAINS -> id cfg <> chainId) ->
      getChainById chainId = mainnet).
Proof.
  split.
  - intros cfg Hin Hid. subst chainId. unfold getChainById.
    rewrite (listed_found cfg Hin). reflexivity.
  - intros H. unfold getChainById. rewrite (unlisted_not_found chainId H).
    reflexivity.
Qed.

(** X29. [findChainByName] depends on the name only through its lower-cased,
    trimmed form, whatever the two built-in functions make of the name.
    When that form is an alias of the name table, the result is the listed
    chain with the alias's id, so no alias falls back to mainnet by
    accident. A form that is neither an alias nor a key every object
    inherits gives [undefined]; the two inherited keys a lower-cased name
    can spell ([constructor] and [__proto__]) give mainnet, because the
    inherited value is truthy and is the id of no chain. *)
Theorem findChainByName_spec (normalize : string -> string)
    (networkName : string) :
  let n := normalize networkName in
  (forall chainId, In (n, chainId) nameToId ->
     exists cfg, In cfg SUPPORTED_CHAINS /\ id cfg = chainId
                 /\ findChainByName_with normalize networkName
                    = Some (chain cfg))
  /\ (In n inherited_keys ->
      findChainByName_with normalize networkName = Some mainnet)
  /\ (~ In n (map fst nameToId) -> ~ In n inherited_keys ->
      findChainByName_with normalize networkName = None).
Proof.
  unfold findChainByName_with. generalize (normalize networkName). intros n.
  cbv zeta. split; [| split].
  - intros chainId Hin. simpl in Hin.
    repeat (destruct Hin as [E | Hin];
            [inversion E; subst n chainId;
             eexists; split; [| split; [| reflexivity]];
             [simpl; tauto | reflexivity] |]).
    contradiction.
  - intros Hin. simpl in Hin.
    destruct Hin as [<- | [<- | []]]; reflexivity.
  - intros Hkey Hinh. rewrite (lookup_none n nameToId Hkey).
    destruct (existsb (String.eqb n) inherited_keys) eqn:E; [| reflexivity].
    exfalso. apply Hinh. apply existsb_exists in E.
    destruct E as (k & Hin & Hk). apply String.eqb_eq in Hk. subst k. exact Hin.
Qed.

(** X30. [getAlchemyEndpoint] gives no endpoint exactly when the key is
    empty, the chain is the Monad testnet (listed without an Alchemy prefix)
    or the chain is not listed. Otherwise the endpoint is the URL built from
    the listed prefix of that chain and the key. *)
Theorem getAlchemyEndpoint_spec (chainId : Z) (apiKey : string) :
  (getAlchemyEndpoint chainId apiKey = None <->
   apiKey = "" \/ chainId = 10143
   \/ (forall cfg, In cfg SUPPORTED_CHAINS -> id cfg <> chainId))
  /\ (forall url, getAlchemyEndpoint chainId apiKey = Some url ->
        exists cfg prefix,
          In cfg SUPPORTED_CHAINS /\ id cfg = chainId
          /\ alchemyPrefix cfg = Some prefix
          /\ url = append "https://"
                     (append prefix (append ".g.alchemy.com/v2/" apiKey))).
Proof.
  unfold getAlchemyEndpoint.
  destruct (find_config chainId) as [cfg |] eqn:F.
  - unfold find_config in F. apply find_some in F. destruct F as [Hin Hid].
    apply Z.eqb_eq in Hid.
    assert (P : alchemyPrefix cfg = None /\ chainId = 10143
                \/ exists p, alchemyPrefix cfg = Some p /\ truthy_string p = true
                             /\ chainId <> 10143).
    { subst chainId. simpl in Hin.
      repeat (destruct Hin as [<- | Hin];
              [first [ left; split; reflexivity
                     | right; eexists; split; [reflexivity |];
                       split; [reflexivity | discriminate] ] |]).
      contradiction. }
    destruct P as [[Pn Pm] | (p & Pp & Pt & Pm)].
    + rewrite Pn. split; [| intros url H; discriminate H].
      split; [intros _; right; left; exact Pm | reflexivity].
    + rewrite Pp, Pt. simpl.
      destruct apiKey as [| c rest]; simpl.
      * split; [| intros url H; discriminate H].
        split; [intros _; left; reflexivity | reflexivity].
      * split.
        -- split; [intros H; discriminate H |].
           intros [H | [H | H]]; [discriminate H | contradiction |].
           exfalso. exact (H cfg Hin Hid).
        -- intros url H. inversion H. exists cfg, p.
           split; [exact Hin |]. split; [exact Hid |]. split; [exact Pp |].
           reflexivity.
  - split; [| intros url H; discriminate H].
    split; [| reflexivity].
    intros _. right. right. intros cfg Hin Hid. subst chainId.
    rewrite (listed_found cfg Hin) in F. discriminate F.
Qed.

End ChainFacts.

(** Names as a user may write them, in ASCII but for the no-break space
    after the fourth one. *)
Lemma findChainByName_examples :
  Chains.findChainByName "  Base Sepolia " = Some Chains.baseSepolia
  /\ Chains.findChainByName (append "base" (bytes [194; 160]))
     = Some Chains.base
  /\ Chains.findChainByName "Unichain" = Some Chains.ham
  /\ Chains.findChainByName "solana" = None
  /\ Chains.findChainByName "Constructor" = Some Chains.mainnet
  /\ Chains.getChainById 5 = Chains.mainnet
  /\ Chains.getAlchemyEndpoint 10143 "key" = None
  /\ Chains.getAlchemyEndpoint 8453 "key"
     = Some "https://base-mainnet.g.alchemy.com/v2/key".
Proof. repeat split; reflexivity. Qed.
